(** * EPUB token counter: the batch classification pipeline

    A shallow embedding of [epubtokens.py] (class [TokenCounterApp]) and the
    properties of its classification pipeline: candidate discovery, content
    extraction, token counting, the threshold decision, the report rows and
    the relocation of small books.

    Python values are modelled as follows.
    - [str] is [string]; a text is represented by its UTF-8 bytes, so that
      "empty" means the same thing on both sides and ASCII literals of the
      source are the same literals here. A file name that is not UTF-8,
      which the operating-system interface hands out with its odd bytes
      escaped, is represented by its bytes as they are.
    - [int] is [Z] (Python integers are unbounded).
    - [Set[str]] is [gset string].
    - exceptions are values of [exn]; code that can raise lives in the monad
      [M], a state monad over [State] with an error result. *)

From Stdlib Require Import ZArith Ascii String List Bool Lia.
From stdpp Require Import base decidable option list strings gmap pretty.

Local Open Scope string_scope.
Local Open Scope Z_scope.
Local Open Scope list_scope.

(** ** Python built-ins on [str] used by the program *)

Module Py.

(** [s.replace(c, "")] for a one-character [c]. *)
Fixpoint str_remove (c : ascii) (s : string) : string :=
  match s with
  | EmptyString => EmptyString
  | String a r => if decide (a = c) then str_remove c r
                  else String a (str_remove c r)
  end.

(** White space as [int()] strips it from an ASCII string: TAB, LF, VT, FF,
    CR and the space. The separators 0x1C-0x1F are not stripped. *)
Definition is_space (a : ascii) : bool :=
  let n := N_of_ascii a in
  ((9 <=? n)%N && (n <=? 13)%N) || (n =? 32)%N.

Fixpoint lstrip (s : string) : string :=
  match s with
  | EmptyString => EmptyString
  | String a r => if is_space a then lstrip r else s
  end.

Definition rstrip (s : string) : string := String.rev (lstrip (String.rev s)).

Definition strip (s : string) : string := rstrip (lstrip s).

Definition digit_val (a : ascii) : option Z :=
  let n := N_of_ascii a in
  if ((48 <=? n)%N && (n <=? 57)%N) then Some (Z.of_N n - 48) else None.

(** The digit part of an integer literal: decimal digits, a single underscore
    allowed between two digits. [prev] tells whether the previous character
    was a digit. *)
Fixpoint parse_digits (acc : Z) (prev : bool) (s : string) : option Z :=
  match s with
  | EmptyString => if prev then Some acc else None
  | String a r =>
      match digit_val a with
      | Some d => parse_digits (10 * acc + d) true r
      | None =>
          if decide (a = "_"%char) then
            if prev then parse_digits acc false r else None
          else None
      end
  end.

(** [int(s)] in base ten on a string of ASCII characters; [None] stands for
    [ValueError]. The decimal digits and the white space that Unicode has
    outside ASCII, which [int()] takes as well, are not modelled: a string
    that holds any is refused here. *)
Definition int (s : string) : option Z :=
  match strip s with
  | String "+" r => parse_digits 0 false r
  | String "-" r => Z.opp <$> parse_digits 0 false r
  | r => parse_digits 0 false r
  end.

Definition ascii_lower (a : ascii) : ascii :=
  let n := N_of_ascii a in
  if ((65 <=? n)%N && (n <=? 90)%N) then ascii_of_N (n + 32) else a.

(** [s.lower()]. On UTF-8 text only the ASCII letters matter for the suffix
    test of the program: no other character lower-cases to one of
    [.], [e], [p], [u], [b]. *)
Fixpoint lower (s : string) : string :=
  match s with
  | EmptyString => EmptyString
  | String a r => String (ascii_lower a) (lower r)
  end.

(** [s.endswith(suf)]. *)
Fixpoint endswith (s suf : string) : bool :=
  if decide (s = suf) then true
  else match s with
       | EmptyString => false
       | String _ r => endswith r suf
       end.

(** Truth value of an optional [str] / [int], as [if x:] tests it. *)
Definition truthy_str (o : option string) : bool :=
  match o with
  | Some s => negb (bool_decide (s = ""))
  | None => false
  end.

Definition truthy_int (o : option Z) : bool :=
  match o with
  | Some n => negb (n =? 0)
  | None => false
  end.

End Py.

(** ** [os.path] and [pathlib] on POSIX paths *)

Module Path.

Definition sep : ascii := "/"%char.

Definition startswith_sep (s : string) : bool :=
  match s with
  | String a _ => bool_decide (a = sep)
  | EmptyString => false
  end.

Fixpoint endswith_sep (s : string) : bool :=
  match s with
  | EmptyString => false
  | String a EmptyString => bool_decide (a = sep)
  | String _ r => endswith_sep r
  end.

Fixpoint has_sep (s : string) : bool :=
  match s with
  | EmptyString => false
  | String a r => bool_decide (a = sep) || has_sep r
  end.

(** [os.path.join(a, b)]. *)
Definition join (a b : string) : string :=
  if startswith_sep b then b
  else if bool_decide (a = "") || endswith_sep a then a +:+ b
  else a +:+ String sep b.

(** [os.path.basename(p)]: what follows the last separator. *)
Fixpoint basename (p : string) : string :=
  match p with
  | EmptyString => EmptyString
  | String _ r => if has_sep p then basename r else p
  end.

(** The components of a path, split at every separator. *)
Fixpoint components (cur : string) (p : string) : list string :=
  match p with
  | EmptyString => [cur]
  | String a r =>
      if decide (a = sep) then cur :: components "" r
      else components (cur +:+ String a "") r
  end.

(** [pathlib.Path(p).name]: the last component that is neither empty nor
    a single dot, or the empty string. *)
Definition name (p : string) : string :=
  List.last (List.filter (fun c => negb (bool_decide (c = "") || bool_decide (c = ".")))
                         (components "" p)) "".

(** The part of [p] up to and including its last separator. *)
Fixpoint head (p : string) : string :=
  match p with
  | EmptyString => EmptyString
  | String a r => if has_sep p then String a (head r) else EmptyString
  end.

Fixpoint all_sep (s : string) : bool :=
  match s with
  | EmptyString => true
  | String a r => bool_decide (a = sep) && all_sep r
  end.

(** [s.rstrip("/")]. *)
Fixpoint rstrip_sep (s : string) : string :=
  match s with
  | EmptyString => EmptyString
  | String a r => if all_sep s then EmptyString else String a (rstrip_sep r)
  end.

(** [os.path.dirname(p)]. *)
Definition dirname (p : string) : string :=
  let h := head p in
  if negb (bool_decide (h = "")) && negb (all_sep h) then rstrip_sep h else h.

(** A component that names an entry: not empty, not [.] and not [..]. *)
Definition proper (c : string) : bool :=
  negb (bool_decide (c = "") || bool_decide (c = ".") || bool_decide (c = "..")).

(** The path is written in normal form: it is absolute, and it is either
    the root or a sequence of proper components with no separator at the
    end. Two folders written in normal form are the same folder only when
    they are the same string (links and file systems that fold case apart,
    which the file systems below do not have). *)
Definition normal (p : string) : bool :=
  startswith_sep p
  && (bool_decide (p = "/")
      || (negb (endswith_sep p) && forallb proper (List.tl (components "" p)))).

End Path.

(** ** UTF-8 decoding with [errors="ignore"] *)

Module Utf8.

Definition bytes := list Byte.byte.

Definition val (b : Byte.byte) : N := Byte.to_N b.

Definition is_continuation (b : Byte.byte) : bool :=
  ((128 <=? val b)%N && (val b <=? 191)%N).

(** The bytes that [b.decode("utf-8", errors="ignore")] keeps, in order. The
    decoder reads one scalar value at a time; at an ill-formed sequence it
    drops the longest prefix that could still start a scalar value (one, two
    or three bytes) and resumes right after it; a sequence cut off by the end
    of the input is dropped up to the end. *)
Fixpoint decode_ignore (bs : bytes) : bytes :=
  match bs with
  | [] => []
  | b0 :: r =>
      let n0 := val b0 in
      if (n0 <? 128)%N then b0 :: decode_ignore r
      else if (n0 <? 194)%N then decode_ignore r
      else if (n0 <? 224)%N then
        match r with
        | [] => []
        | b1 :: r1 =>
            if is_continuation b1 then b0 :: b1 :: decode_ignore r1
            else decode_ignore r
        end
      else if (n0 <? 240)%N then
        match r with
        | [] => []
        | b1 :: r1 =>
            if negb (is_continuation b1)
               || (if (val b1 <? 160)%N then (n0 =? 224)%N else (n0 =? 237)%N)
            then decode_ignore r
            else match r1 with
                 | [] => []
                 | b2 :: r2 =>
                     if is_continuation b2
                     then b0 :: b1 :: b2 :: decode_ignore r2
                     else decode_ignore r1
                 end
        end
      else if (n0 <? 245)%N then
        match r with
        | [] => []
        | b1 :: r1 =>
            if negb (is_continuation b1)
               || (if (val b1 <? 144)%N then (n0 =? 240)%N else (n0 =? 244)%N)
            then decode_ignore r
            else match r1 with
                 | [] => []
                 | b2 :: r2 =>
                     if negb (is_continuation b2) then decode_ignore r1
                     else match r2 with
                          | [] => []
                          | b3 :: r3 =>
                              if is_continuation b3
                              then b0 :: b1 :: b2 :: b3 :: decode_ignore r3
                              else decode_ignore r2
                          end
                 end
        end
      else decode_ignore r
  end.

(** The decoded text, represented by its UTF-8 bytes. *)
Definition decode (bs : bytes) : string := string_of_list_byte (decode_ignore bs).

(** The text can be encoded in UTF-8: its bytes are well formed, so that the
    decoder keeps them all. A name whose bytes are not UTF-8 stands for a
    [str] with lone surrogates, which [str.encode("utf-8")] refuses. *)
Definition valid (s : string) : bool :=
  bool_decide (decode (list_byte_of_string s) = s).

End Utf8.

(** ** Data model *)

(** An item of the container as [ebooklib] presents it: the declared media
    type and what [item.get_content()] gives; [inr e] when the call raises. *)
Record EpubItem := mkItem {
  media_type : string;
  get_content : Utf8.bytes + string
}.

(** A parsed archive: the values of its [DC:title] metadata entries (a value
    is [None] for an empty element) and its items in iteration order. *)
Record EpubBook := mkBook {
  dc_title : list (option string);
  get_items : list EpubItem
}.

(** An entry of the file system. [File size book pinned]: a regular file of
    [size] bytes; [book] is what [epub.read_epub] makes of it ([None]: it
    raises); [pinned] tells that the operating system refuses to take the
    entry out of its directory, so that [shutil.move] fails on it (what a
    failed move may leave behind at the destination is not modelled).
    [Dir listable writable]: a directory. [Unstatable]: an entry whose status
    cannot be read. *)
Inductive node :=
| File (size : Z) (book : option EpubBook) (pinned : bool)
| Dir (listable writable : bool)
| Unstatable.

(** Paths are keys, taken as written: two spellings of one path are two
    keys, and there are no links. The order of the list is the order in
    which the operating system enumerates entries; the first binding of a
    path is the one in force. *)
Definition filesystem := list (string * node).

Inductive cell := CStr (s : string) | CInt (n : Z).

(** The cell can be written to a text file in UTF-8. *)
Definition encodable (c : cell) : bool :=
  match c with
  | CStr s => Utf8.valid s
  | CInt _ => true
  end.

(** The preferences kept by [SettingsManager]. *)
Record Settings := mkSettings {
  input_folder : string;
  output_folder : string;
  token_count : string
}.

(** An exception: the name of its class and what [str(e)] gives. The texts
    of the exceptions that the libraries raise are stand-ins: the path
    concerned. *)
Record exn := mkExn { exn_type : string; exn_str : string }.

Inductive level := INFO | WARNING | ERROR.
Inductive icon := Critical | Warning | Information.

(** What the program does to the outside, in the order it does it. *)
Inductive event :=
| Log (l : level) (msg : string)
| ReadEpub (path : string)
| OpenCsv (path : string)
| WriteRow (path : string) (row : list cell)
| Move (src dst : string)
| SetMaximum (n : Z)
| SetValue (n : Z)
| ProcessEvents
| MessageBox (i : icon) (title text : string).

(** The fields of a [TokenCounterApp] instance that the pipeline uses. *)
Record App := mkApp {
  folder_input : string;
  token_input : string;
  dest_input : string;
  processed_files : gset string;
  progress_maximum : Z;
  progress_value : Z
}.

(** The instance together with its surroundings: the file system, the report
    artifacts written so far (kept apart from [fs]: their names end in
    [.csv], which no candidate and no relocation target does), the stored
    preferences, the wall clock as [strftime("%Y%m%d_%H%M%S")] prints it, and
    the trace of effects. *)
Record State := mkState {
  app : App;
  fs : filesystem;
  reports : list (string * list (list cell));
  settings : Settings;
  now : string;
  trace : list event
}.

(** The [cl100k_base] encoding of [tiktoken], a black box: the tokens of a
    text, or the error it raises. *)
Class Tokenizer := encoding_encode : string -> exn + list N.

(** ** File-system tables *)

Module FS.

Fixpoint lookup (p : string) (t : filesystem) : option node :=
  match t with
  | [] => None
  | (k, n) :: r => if decide (k = p) then Some n else lookup p r
  end.

Definition remove (p : string) (t : filesystem) : filesystem :=
  List.filter (fun kn => negb (bool_decide (kn.1 = p))) t.

(** Binds [p] to [n]: in place when [p] is bound, at the end otherwise. *)
Fixpoint bind (p : string) (n : node) (t : filesystem) : filesystem :=
  match t with
  | [] => [(p, n)]
  | (k, m) :: r => if decide (k = p) then (p, n) :: remove p r
                   else (k, m) :: bind p n r
  end.

(** The status of [p] can be read ([os.stat] succeeds). *)
Definition statable (t : filesystem) (p : string) : bool :=
  match lookup p t with
  | Some (File _ _ _) | Some (Dir _ _) => true
  | Some Unstatable | None => false
  end.

Definition is_dir (t : filesystem) (p : string) : bool :=
  match lookup p t with
  | Some (Dir _ _) => true
  | _ => false
  end.

(** [p] is an entry directly inside [folder]. *)
Definition child_of (folder p : string) : bool :=
  negb (bool_decide (Path.basename p = ""))
  && bool_decide (Path.join folder (Path.basename p) = p).

End FS.

Module Report.

Fixpoint lookup (p : string) (t : list (string * list (list cell))) : option (list (list cell)) :=
  match t with
  | [] => None
  | (k, rows) :: r => if decide (k = p) then Some rows else lookup p r
  end.

(** [open(p, "w")]: an empty artifact at [p], replacing an older one. *)
Definition create (p : string) (t : list (string * list (list cell))) :=
  (p, []) :: List.filter (fun kr => negb (bool_decide (kr.1 = p))) t.

Fixpoint append (p : string) (row : list cell) (t : list (string * list (list cell))) :=
  match t with
  | [] => []
  | (k, rows) :: r => if decide (k = p) then (k, rows ++ [row]) :: r
                      else (k, rows) :: append p row r
  end.

End Report.

(** ** The monad of the program: state and exceptions *)

Inductive result (A : Type) :=
| Ok (a : A)
| Raise (e : exn).
Arguments Ok {A} a.
Arguments Raise {A} e.

Definition M (A : Type) : Type := State -> result A * State.

Definition ret {A} (a : A) : M A := fun s => (Ok a, s).

Definition bind {A B} (m : M A) (k : A -> M B) : M B :=
  fun s => match m s with
           | (Ok a, s') => k a s'
           | (Raise e, s') => (Raise e, s')
           end.

Definition raise {A} (e : exn) : M A := fun s => (Raise e, s).

(** [try: m except <catches>: handler]. *)
Definition try_except {A} (m : M A) (catches : exn -> bool) (handler : exn -> M A) : M A :=
  fun s => match m s with
           | (Ok a, s') => (Ok a, s')
           | (Raise e, s') => if catches e then handler e s' else (Raise e, s')
           end.

Definition get : M State := fun s => (Ok s, s).
Definition modify (f : State -> State) : M unit := fun s => (Ok tt, f s).

Declare Scope py_scope.
Delimit Scope py_scope with py.
Notation "x <- m ;; k" := (bind m (fun x => k))
  (at level 100, m at next level, right associativity) : py_scope.
Notation "m ;;; k" := (bind m (fun _ => k))
  (at level 100, right associativity) : py_scope.
Local Open Scope py_scope.

Definition Exception (_ : exn) : bool := true.
Definition is_type (t : string) (e : exn) : bool := bool_decide (exn_type e = t).

Definition with_app (f : App -> App) (s : State) : State :=
  mkState (f (app s)) (fs s) (reports s) (settings s) (now s) (trace s).
Definition with_fs (f : filesystem -> filesystem) (s : State) : State :=
  mkState (app s) (f (fs s)) (reports s) (settings s) (now s) (trace s).
Definition with_reports (f : _ -> _) (s : State) : State :=
  mkState (app s) (fs s) (f (reports s)) (settings s) (now s) (trace s).
Definition with_settings (f : Settings -> Settings) (s : State) : State :=
  mkState (app s) (fs s) (reports s) (f (settings s)) (now s) (trace s).
Definition with_trace (f : list event -> list event) (s : State) : State :=
  mkState (app s) (fs s) (reports s) (settings s) (now s) (f (trace s)).

Definition emit (e : event) : M unit := modify (with_trace (fun t => t ++ [e])).

(** ** The libraries the program calls *)

Module Lib.

Definition logging_info (msg : string) : M unit := emit (Log INFO msg).
Definition logging_warning (msg : string) : M unit := emit (Log WARNING msg).
Definition logging_error (msg : string) : M unit := emit (Log ERROR msg).

(** [os.path.exists(p)]: false as well when the status cannot be read. *)
Definition os_path_exists (p : string) : M bool :=
  s <- get ;; ret (FS.statable (fs s) p).

(** [os.path.getsize(p)]. The size of a directory entry is not modelled and
    reads as 0. *)
Definition os_path_getsize (p : string) : M Z :=
  s <- get ;;
  match FS.lookup p (fs s) with
  | Some (File size _ _) => ret size
  | Some (Dir _ _) => ret 0
  | Some Unstatable => raise (mkExn "PermissionError" p)
  | None => raise (mkExn "FileNotFoundError" p)
  end.

(** [epub.read_epub(p)]. *)
Definition read_epub (p : string) : M EpubBook :=
  emit (ReadEpub p) ;;;
  s <- get ;;
  match FS.lookup p (fs s) with
  | Some (File _ (Some book) _) => ret book
  | _ => raise (mkExn "EpubException" p)
  end.

(** An entry yielded by [os.scandir(folder)]. *)
Record DirEntry := mkEntry {
  name : string;
  path : string;
  entry_node : node
}.

(** [entry.is_file()]: raises when the status of the entry cannot be read. *)
Definition is_file (entry : DirEntry) : exn + bool :=
  match entry_node entry with
  | File _ _ _ => inr true
  | Dir _ _ => inr false
  | Unstatable => inl (mkExn "PermissionError" (path entry))
  end.

(** [os.scandir(folder)]: the entries directly inside [folder], in
    enumeration order, or the error raised when it cannot be listed. *)
Definition os_scandir (t : filesystem) (folder : string) : exn + list DirEntry :=
  match FS.lookup folder t with
  | Some (Dir true _) =>
      inr (List.map (fun kn => mkEntry (Path.basename kn.1)
                                       (Path.join folder (Path.basename kn.1)) kn.2)
                    (List.filter (fun kn => FS.child_of folder kn.1) t))
  | Some (Dir false _) => inl (mkExn "PermissionError" folder)
  | Some (File _ _ _) => inl (mkExn "NotADirectoryError" folder)
  | Some Unstatable => inl (mkExn "PermissionError" folder)
  | None => inl (mkExn "FileNotFoundError" folder)
  end.

(** [shutil.move(src, dst)] for a regular file [src]: into [dst] when [dst] is
    a directory (refused when the name is taken there), onto [dst] otherwise,
    replacing what was there. Permissions of the directories involved are
    not looked at: the pipeline moves only after it has created its report
    in the destination. Paths are compared as written: a destination that
    is the source under another spelling is taken for another file, where
    the operating system would leave the file in place; what is stated below
    about the place that a file has left is stated for folders written in
    normal form. *)
Definition shutil_move (src dst : string) : M string :=
  emit (Move src dst) ;;;
  s <- get ;;
  let real_dst :=
    if FS.is_dir (fs s) dst
    then Path.join dst (Path.basename (Path.rstrip_sep src)) else dst in
  if FS.is_dir (fs s) dst && FS.statable (fs s) real_dst
  then raise (mkExn "Error" real_dst)
  else match FS.lookup src (fs s) with
       | Some (File size book false) =>
           modify (with_fs (fun t => FS.bind real_dst (File size book false)
                                             (FS.remove src t))) ;;;
           ret real_dst
       | Some (File _ _ true) => raise (mkExn "PermissionError" src)
       | _ => raise (mkExn "FileNotFoundError" src)
       end.

(** [open(p, mode="w", ...)]: needs a writable directory to create [p] in,
    and [p] must not name a directory or an unreadable entry. The file that
    is created or emptied is kept in [reports], not in [fs]: what [fs] binds
    at [p], if anything, is left as it is, and nothing is stated below about
    [fs] at the path of a report. *)
Definition open_w (p : string) : M unit :=
  s <- get ;;
  match FS.lookup (Path.dirname p) (fs s), FS.lookup p (fs s) with
  | Some (Dir _ true), None | Some (Dir _ true), Some (File _ _ _) =>
      emit (OpenCsv p) ;;;
      modify (with_reports (Report.create p))
  | Some (Dir _ true), Some (Dir _ _) => raise (mkExn "IsADirectoryError" p)
  | Some (Dir _ _), _ => raise (mkExn "PermissionError" p)
  | Some (File _ _ _), _ => raise (mkExn "NotADirectoryError" p)
  | _, _ => raise (mkExn "FileNotFoundError" p)
  end.

(** [csv_writer.writerow(row)] on the artifact opened at [p], a text file in
    UTF-8. The line is encoded as a whole before any of it is written: when
    a cell cannot be encoded, [UnicodeEncodeError] is raised and the artifact
    is as it was. *)
Definition writerow (p : string) (row : list cell) : M unit :=
  if forallb encodable row then
    emit (WriteRow p row) ;;;
    modify (with_reports (Report.append p row))
  else raise (mkExn "UnicodeEncodeError" p).

Definition tiktoken_encode `{Tokenizer} (text : string) : M (list N) :=
  match encoding_encode text with
  | inr tokens => ret tokens
  | inl e => raise e
  end.

(** [item.get_content().decode("utf-8", errors="ignore")]. *)
Definition get_content_decode (item : EpubItem) : M string :=
  match get_content item with
  | inl b => ret (Utf8.decode b)
  | inr msg => raise (mkExn "Exception" msg)
  end.

Definition QMessageBox (i : icon) (title text : string) : M unit :=
  emit (MessageBox i title text).

End Lib.

(** ** [class TokenCounterApp] *)

Section TokenCounterApp.
Context `{Tokenizer}.
Import Lib.

Definition MAX_FILE_SIZE : Z := 100 * 1024 * 1024.

Definition nl : string := String (ascii_of_nat 10) "".

(** Modelled from the spec: [SettingsManager] is not part of the sources; it
    keeps the last-used source folder, destination folder and token threshold
    string, read at start and written at run start before validation. *)
Definition load_settings_from (st : Settings) (a : App) : App :=
  mkApp (input_folder st) (token_count st) (output_folder st)
        (processed_files a) (progress_maximum a) (progress_value a).

(** [__init__]: a fresh instance. The set of processed files starts empty;
    the progress bar has the defaults of the widget; the inputs are filled in
    from the stored preferences. *)
Definition __init__ (st : Settings) : App :=
  load_settings_from st (mkApp "" "" "" ∅ 100 (-1)).

Definition calculate_tokens (text : string) : M (option Z) :=
  try_except
    (tokens <- tiktoken_encode text ;;
     ret (Some (Z.of_nat (length tokens))))
    Exception
    (fun e => logging_error ("Token calculation error: " +:+ exn_str e) ;;;
              ret None).

Definition _get_epub_title (book : EpubBook) (file_path : string) : option string :=
  match dc_title book with
  | value :: _ => value
  | [] => Some (Path.name file_path)
  end.

(** The loop of [_process_epub_content]; [full_text] is its local variable. *)
Fixpoint extract_text (items : list EpubItem) (full_text : string) : M string :=
  match items with
  | [] => ret full_text
  | item :: rest =>
      if bool_decide (media_type item = "application/xhtml+xml") then
        full_text' <-
          try_except
            (content <- get_content_decode item ;;
             if negb (bool_decide (content = ""))
             then ret (full_text +:+ content)
             else ret full_text)
            Exception
            (fun e => logging_error ("Error processing EPUB item: " +:+ exn_str e) ;;;
                      ret full_text) ;;
        extract_text rest full_text'
      else extract_text rest full_text
  end.

Definition _process_epub_content (book : EpubBook) : M (option Z) :=
  full_text <- extract_text (get_items book) "" ;;
  if negb (bool_decide (full_text = "")) then calculate_tokens full_text
  else ret None.

Definition process_epub (file_path : string) : M (option string * option Z) :=
  found <- os_path_exists file_path ;;
  if negb found then
    logging_error ("File not found: " +:+ file_path) ;;;
    ret (None, None)
  else
    try_except
      (file_size <- os_path_getsize file_path ;;
       if MAX_FILE_SIZE <? file_size then
         logging_warning ("File too large: " +:+ file_path) ;;;
         ret (None, None)
       else
         book <- read_epub file_path ;;
         let title := _get_epub_title book file_path in
         token_count <- _process_epub_content book ;;
         ret (title, token_count))
      Exception
      (fun e => logging_error ("Error processing " +:+ file_path +:+ ": " +:+ exn_str e) ;;;
                ret (None, None)).

(** The loop of [get_epub_files] over the entries that [os.scandir] yields.
    [epub_files] is the local list; it is returned together with the
    exception that ended the loop, if any: the [except] clause of the source
    logs the exception and the function returns the list as it then is. *)
Fixpoint scan_entries (entries : list DirEntry) (epub_files : list string)
  : list string * option exn :=
  match entries with
  | [] => (epub_files, None)
  | entry :: rest =>
      match is_file entry with
      | inl e => (epub_files, Some e)
      | inr regular =>
          if regular && Py.endswith (Py.lower (name entry)) ".epub"
          then scan_entries rest (epub_files ++ [path entry])
          else scan_entries rest epub_files
      end
  end.

Definition get_epub_files (folder : string) : M (list string) :=
  s <- get ;;
  match os_scandir (fs s) folder with
  | inl e =>
      logging_error ("Error scanning directory: " +:+ exn_str e) ;;;
      ret []
  | inr entries =>
      match scan_entries entries [] with
      | (epub_files, Some e) =>
          logging_error ("Error scanning directory: " +:+ exn_str e) ;;;
          ret epub_files
      | (epub_files, None) => ret epub_files
      end
  end.

(** [int(self.token_input.text().replace(",", ""))]. *)
Definition parse_token_input (a : App) : M Z :=
  match Py.int (Py.str_remove "," (token_input a)) with
  | Some n => ret n
  | None => raise (mkExn "ValueError" (token_input a))
  end.

Definition validate_inputs : M (bool * string) :=
  s <- get ;;
  early <-
    try_except
      (max_tokens <- parse_token_input (app s) ;;
       if max_tokens <=? 0
       then ret (Some (false, "Token count must be positive"))
       else ret None)
      (is_type "ValueError")
      (fun _ => ret (Some (false, "Invalid token count"))) ;;
  match early with
  | Some answer => ret answer
  | None =>
      src_ok <- os_path_exists (folder_input (app s)) ;;
      if negb src_ok then ret (false, "Source folder does not exist")
      else
        dst_ok <- os_path_exists (dest_input (app s)) ;;
        if negb dst_ok then ret (false, "Destination folder does not exist")
        else ret (true, "")
  end.

(** Modelled from the spec: [SettingsManager.save_settings] is not part of
    the sources; the three input strings are written to the stored
    preferences. *)
Definition save_current_settings : M unit :=
  s <- get ;;
  modify (with_settings (fun _ =>
    mkSettings (folder_input (app s)) (dest_input (app s)) (token_input (app s)))).

Definition add_processed (file_path : string) (a : App) : App :=
  mkApp (folder_input a) (token_input a) (dest_input a)
        ({[file_path]} ∪ processed_files a) (progress_maximum a) (progress_value a).

Definition setMaximum (n : Z) : M unit :=
  emit (SetMaximum n) ;;;
  modify (with_app (fun a =>
    mkApp (folder_input a) (token_input a) (dest_input a)
          (processed_files a) n (progress_value a))).

Definition setValue (n : Z) : M unit :=
  emit (SetValue n) ;;;
  modify (with_app (fun a =>
    mkApp (folder_input a) (token_input a) (dest_input a)
          (processed_files a) (progress_maximum a) n)).

(** The [try] around the relocation of one file. *)
Definition relocate (dest_folder file_path : string) (token_count : Z) : M unit :=
  try_except
    (let dest_path := Path.join dest_folder (Path.basename file_path) in
     _ <- shutil_move file_path dest_path ;;
     logging_info ("Moved " +:+ file_path +:+ " (Tokens: " +:+ pretty token_count
                   +:+ ") to " +:+ dest_path))
    Exception
    (fun e => logging_error ("Error moving file " +:+ file_path +:+ ": " +:+ exn_str e)).

(** One iteration of the loop of [start_processing]; the result is the new
    value of [processed_count] ([continue] leaves it as it is). *)
Definition loop_body (csv_file dest_folder : string) (max_tokens : Z)
    (file_path : string) (processed_count : Z) : M Z :=
  s <- get ;;
  if bool_decide (file_path ∈ processed_files (app s)) then ret processed_count
  else
    r <- process_epub file_path ;;
    (match r with
     | (Some title, Some token_count) =>
         if Py.truthy_str (Some title) && Py.truthy_int (Some token_count) then
           writerow csv_file [CStr title; CInt token_count; CStr file_path] ;;;
           if token_count <? max_tokens
           then relocate dest_folder file_path token_count
           else ret tt
         else ret tt
     | _ => ret tt
     end) ;;;
    modify (with_app (add_processed file_path)) ;;;
    let processed_count := processed_count + 1 in
    setValue processed_count ;;;
    emit ProcessEvents ;;;
    ret processed_count.

Fixpoint for_each_file (csv_file dest_folder : string) (max_tokens : Z)
    (epub_files : list string) (processed_count : Z) : M Z :=
  match epub_files with
  | [] => ret processed_count
  | file_path :: rest =>
      processed_count' <- loop_body csv_file dest_folder max_tokens file_path processed_count ;;
      for_each_file csv_file dest_folder max_tokens rest processed_count'
  end.

Definition start_processing : M unit :=
  save_current_settings ;;;
  v <- validate_inputs ;;
  let '(is_valid, error_message) := v in
  if negb is_valid then QMessageBox Critical "Error" error_message
  else
    s <- get ;;
    let source_folder := folder_input (app s) in
    let dest_folder := dest_input (app s) in
    max_tokens <- parse_token_input (app s) ;;
    epub_files <- get_epub_files source_folder ;;
    match epub_files with
    | [] => QMessageBox Warning "Warning" "No EPUB files found!"
    | _ =>
        setMaximum (Z.of_nat (length epub_files)) ;;;
        setValue 0 ;;;
        timestamp <- (s' <- get ;; ret (now s')) ;;
        let csv_file :=
          Path.join dest_folder ("epub_token_counts_" +:+ timestamp +:+ ".csv") in
        open_w csv_file ;;;
        writerow csv_file [CStr "Title"; CStr "Token Count"; CStr "File Path"] ;;;
        processed_count <- for_each_file csv_file dest_folder max_tokens epub_files 0 ;;
        QMessageBox Information "Done"
          ("Processing completed!" +:+ nl +:+ "Processed: " +:+ pretty processed_count
           +:+ " files" +:+ nl +:+ "CSV saved to " +:+ csv_file)
    end.

(** [select_source_folder] and [select_dest_folder]. [folder] is the answer of
    [QFileDialog.getExistingDirectory]: the folder chosen, or the empty
    string when the dialog is dismissed. *)
Definition select_source_folder (folder : string) : M unit :=
  if Py.truthy_str (Some folder) then
    modify (with_app (fun a =>
      mkApp folder (token_input a) (dest_input a)
            (processed_files a) (progress_maximum a) (progress_value a)))
  else ret tt.

Definition select_dest_folder (folder : string) : M unit :=
  if Py.truthy_str (Some folder) then
    modify (with_app (fun a =>
      mkApp (folder_input a) (token_input a) folder
            (processed_files a) (progress_maximum a) (progress_value a)))
  else ret tt.

(** [load_settings]: the three inputs are filled in from what the settings
    manager hands out. *)
Definition load_settings : M unit :=
  s <- get ;;
  modify (with_app (load_settings_from (settings s))).

End TokenCounterApp.

(** ** What one iteration amounts to, stated on the data

    The definitions of this section describe the result of the monadic code
    as plain functions of the file system; the lemmas [process_epub_run],
    [relocate_run] and [loop_body_run] below prove that the code computes
    them. *)

Section Reading.
Context `{Tokenizer}.
Import Lib.

Definition log_to (evs : list event) (s : State) : State :=
  with_trace (fun t => t ++ evs) s.

(** The item is one that [_process_epub_content] reads. *)
Definition is_markup (item : EpubItem) : bool :=
  bool_decide (media_type item = "application/xhtml+xml").

(** The decoded text of an item; nothing when its content cannot be had. *)
Definition fragment (item : EpubItem) : string :=
  match get_content item with
  | inl b => Utf8.decode b
  | inr _ => ""
  end.

Definition extracted_text (items : list EpubItem) : string :=
  fold_right String.append "" (List.map fragment (List.filter is_markup items)).

Definition item_events (item : EpubItem) : list event :=
  if is_markup item then
    match get_content item with
    | inl _ => []
    | inr msg => [Log ERROR ("Error processing EPUB item: " +:+ msg)]
    end
  else [].

Definition count_tokens (text : string) : option Z :=
  match encoding_encode text with
  | inr tokens => Some (Z.of_nat (length tokens))
  | inl _ => None
  end.

Definition count_events (text : string) : list event :=
  match encoding_encode text with
  | inr _ => []
  | inl e => [Log ERROR ("Token calculation error: " +:+ exn_str e)]
  end.

Definition content_count (book : EpubBook) : option Z :=
  let text := extracted_text (get_items book) in
  if bool_decide (text = "") then None else count_tokens text.

Definition content_events (book : EpubBook) : list event :=
  let text := extracted_text (get_items book) in
  flat_map item_events (get_items book)
  ++ (if bool_decide (text = "") then [] else count_events text).

(** The pair that [process_epub] returns for [p]. *)
Definition read_result (t : filesystem) (p : string) : option string * option Z :=
  match FS.lookup p t with
  | Some (File size book _) =>
      if MAX_FILE_SIZE <? size then (None, None)
      else match book with
           | Some b => (_get_epub_title b p, content_count b)
           | None => (None, None)
           end
  | _ => (None, None)
  end.

(** The events that [process_epub] adds to the trace for [p]. *)
Definition read_events (t : filesystem) (p : string) : list event :=
  match FS.lookup p t with
  | Some (File size book _) =>
      if MAX_FILE_SIZE <? size then [Log WARNING ("File too large: " +:+ p)]
      else match book with
           | Some b => ReadEpub p :: content_events b
           | None => [ReadEpub p;
                      Log ERROR ("Error processing " +:+ p +:+ ": " +:+ p)]
           end
  | Some (Dir _ _) =>
      [ReadEpub p; Log ERROR ("Error processing " +:+ p +:+ ": " +:+ p)]
  | Some Unstatable | None => [Log ERROR ("File not found: " +:+ p)]
  end.

(** The file [p] is successfully extracted and counted, with title [title]
    and token count [c]: it is a regular file within the size limit, the
    archive parses, the title is not empty, some markup text is extracted,
    and the encoding gives a count that is not zero. *)
Inductive classified (t : filesystem) (p : string) (title : string) (c : Z) : Prop :=
| Classified (size : Z) (book : EpubBook) (pinned : bool) (tokens : list N) :
    FS.lookup p t = Some (File size (Some book) pinned) ->
    size <= MAX_FILE_SIZE ->
    _get_epub_title book p = Some title ->
    title <> "" ->
    extracted_text (get_items book) <> "" ->
    encoding_encode (extracted_text (get_items book)) = inr tokens ->
    c = Z.of_nat (length tokens) ->
    c <> 0 ->
    classified t p title c.

(** The row of the report for [p], when the test [if title and token_count]
    of the loop passes. *)
Definition row_for (t : filesystem) (p : string) : option (string * Z) :=
  match read_result t p with
  | (Some title, Some c) =>
      if Py.truthy_str (Some title) && Py.truthy_int (Some c)
      then Some (title, c) else None
  | _ => None
  end.

Definition row_cells (p : string) (tc : string * Z) : list cell :=
  [CStr tc.1; CInt tc.2; CStr p].

(** Where [shutil.move(src, dst)] puts the file. *)
Definition real_dst (t : filesystem) (src dst : string) : string :=
  if FS.is_dir t dst
  then Path.join dst (Path.basename (Path.rstrip_sep src)) else dst.

(** The file system after [shutil.move(src, dst)], or the exception. *)
Definition move_result (t : filesystem) (src dst : string) : exn + filesystem :=
  if FS.is_dir t dst && FS.statable t (real_dst t src dst)
  then inl (mkExn "Error" (real_dst t src dst))
  else match FS.lookup src t with
       | Some (File size book false) =>
           inr (FS.bind (real_dst t src dst) (File size book false) (FS.remove src t))
       | Some (File _ _ true) => inl (mkExn "PermissionError" src)
       | _ => inl (mkExn "FileNotFoundError" src)
       end.

Definition dest_path (dest_folder file_path : string) : string :=
  Path.join dest_folder (Path.basename file_path).

(** The state after the relocation of [p] has been tried. *)
Definition relocated (dest_folder p : string) (c : Z) (s : State) : State :=
  let dst := dest_path dest_folder p in
  match move_result (fs s) p dst with
  | inr t' =>
      with_fs (fun _ => t')
        (log_to [Move p dst;
                 Log INFO ("Moved " +:+ p +:+ " (Tokens: " +:+ pretty c
                           +:+ ") to " +:+ dst)] s)
  | inl e =>
      log_to [Move p dst;
              Log ERROR ("Error moving file " +:+ p +:+ ": " +:+ exn_str e)] s
  end.

(** The state after the row of [p] has been written. *)
Definition recorded (csv_file p : string) (tc : string * Z) (s : State) : State :=
  with_reports (Report.append csv_file (row_cells p tc))
    (log_to [WriteRow csv_file (row_cells p tc)] s).

(** The state after [p] has been marked and the progress bar advanced. *)
Definition marked (p : string) (n : Z) (s : State) : State :=
  log_to [SetValue n; ProcessEvents]
    (with_app (fun a => mkApp (folder_input a) (token_input a) (dest_input a)
                              ({[p]} ∪ processed_files a) (progress_maximum a) n) s).

(** The state after one iteration on a file that is not yet in the set. *)
Definition handled (csv_file dest_folder : string) (max_tokens : Z)
    (p : string) (n : Z) (s : State) : State :=
  let s1 := log_to (read_events (fs s) p) s in
  let s2 :=
    match row_for (fs s) p with
    | Some tc =>
        let s' := recorded csv_file p tc s1 in
        if tc.2 <? max_tokens then relocated dest_folder p tc.2 s' else s'
    | None => s1
    end in
  marked p (n + 1) s2.

(** The files that a run handles, in order: the candidates that are not in
    the set of processed files when their turn comes. *)
Fixpoint plan (done : gset string) (l : list string) : list string :=
  match l with
  | [] => []
  | p :: r => if bool_decide (p ∈ done) then plan done r
              else p :: plan ({[p]} ∪ done) r
  end.

(** What the loop of [get_epub_files] keeps of an entry. *)
Definition keeps (entry : DirEntry) : bool :=
  match is_file entry with
  | inr regular => regular && Py.endswith (Py.lower (name entry)) ".epub"
  | inl _ => false
  end.

(** The entries enumerated before the first one whose status cannot be
    read. *)
Fixpoint readable_prefix (entries : list DirEntry) : list DirEntry :=
  match entries with
  | [] => []
  | entry :: rest =>
      match is_file entry with
      | inr _ => entry :: readable_prefix rest
      | inl _ => []
      end
  end.

(** The candidates of [folder]: what [get_epub_files] returns. *)
Definition candidates (t : filesystem) (folder : string) : list string :=
  match os_scandir t folder with
  | inl _ => []
  | inr entries => (scan_entries entries []).1
  end.

(** The outcome of the scan: the exception that ended it, if any. *)
Definition scan_failure (t : filesystem) (folder : string) : option exn :=
  match os_scandir t folder with
  | inl e => Some e
  | inr entries => (scan_entries entries []).2
  end.

(** The inputs pass [validate_inputs] with threshold [n]. *)
Definition valid_inputs (s : State) (n : Z) : Prop :=
  Py.int (Py.str_remove "," (token_input (app s))) = Some n
  /\ 0 < n
  /\ FS.statable (fs s) (folder_input (app s)) = true
  /\ FS.statable (fs s) (dest_input (app s)) = true.

(** The name of the report of a run started in state [s]. *)
Definition csv_path (s : State) : string :=
  Path.join (dest_input (app s)) ("epub_token_counts_" +:+ now s +:+ ".csv").

Definition header : list cell :=
  [CStr "Title"; CStr "Token Count"; CStr "File Path"].

(** The events of the relocation of [p]. *)
Definition move_events (dest_folder : string) (t : filesystem) (p : string) (c : Z)
  : list event :=
  let dst := dest_path dest_folder p in
  match move_result t p dst with
  | inr _ => [Move p dst;
              Log INFO ("Moved " +:+ p +:+ " (Tokens: " +:+ pretty c
                        +:+ ") to " +:+ dst)]
  | inl e => [Move p dst;
              Log ERROR ("Error moving file " +:+ p +:+ ": " +:+ exn_str e)]
  end.

(** The events of one iteration on [p], from file system [t], when [n] files
    have been counted before. *)
Definition events_step (csv_file dest_folder : string) (max_tokens : Z)
    (t : filesystem) (p : string) (n : Z) : list event :=
  read_events t p
  ++ match row_for t p with
     | Some tc =>
         WriteRow csv_file (row_cells p tc)
         :: (if tc.2 <? max_tokens then move_events dest_folder t p tc.2 else [])
     | None => []
     end
  ++ [SetValue (n + 1); ProcessEvents].

(** The file system after one iteration on [p]. *)
Definition fs_step (dest_folder : string) (max_tokens : Z)
    (t : filesystem) (p : string) : filesystem :=
  match row_for t p with
  | Some tc =>
      if tc.2 <? max_tokens then
        match move_result t p (dest_path dest_folder p) with
        | inr t' => t'
        | inl _ => t
        end
      else t
  | None => t
  end.

(** The events of the iterations on the files [l], each taken from the same
    file system [t]. *)
Fixpoint run_events (csv_file dest_folder : string) (max_tokens : Z)
    (t : filesystem) (l : list string) (n : Z) : list event :=
  match l with
  | [] => []
  | p :: r => events_step csv_file dest_folder max_tokens t p n
              ++ run_events csv_file dest_folder max_tokens t r (n + 1)
  end.

(** The rows of the files [l], each read from the same file system [t]. *)
Definition run_rows (t : filesystem) (l : list string) : list (list cell) :=
  omap (fun p => row_cells p <$> row_for t p) l.

(** [k] bears the same base name as [p]: the entries that an iteration on
    [p] looks at and changes are among these. *)
Definition same_name (p k : string) : Prop := Path.basename k = Path.basename p.

(** The event is the opening of archive [p], the writing of the report row
    of [p], or the relocation of [p]. *)
Definition about (p : string) (e : event) : Prop :=
  match e with
  | ReadEpub q => q = p
  | WriteRow _ [CStr _; CInt _; CStr q] => q = p
  | Move q _ => q = p
  | _ => False
  end.

(** The event is the writing of the report row of [p]. *)
Definition records (p : string) (e : event) : Prop :=
  match e with
  | WriteRow _ [CStr _; CInt _; CStr q] => q = p
  | _ => False
  end.

(** The event is the relocation of [p]. *)
Definition moves (p : string) (e : event) : Prop :=
  match e with
  | Move q _ => q = p
  | _ => False
  end.

(** The row is the report row of [p]. *)
Definition row_of (p : string) (row : list cell) : Prop :=
  match row with
  | [CStr _; CInt _; CStr q] => q = p
  | _ => False
  end.

(** [p] has left its place and sits in the destination folder under its base
    name. *)
Definition relocated_file (dest_folder p : string) (t0 t' : filesystem) : Prop :=
  FS.lookup p t' = None
  /\ FS.lookup (dest_path dest_folder p) t' = FS.lookup p t0.

(** [p] has left its place and sits at [d]. *)
Definition moved_file (p d : string) (t0 t' : filesystem) : Prop :=
  FS.lookup p t' = None /\ FS.lookup d t' = FS.lookup p t0.

(** The source folder and the destination folder are written in normal form
    and are two folders. *)
Definition folders_apart (source_folder dest_folder : string) : Prop :=
  Path.normal source_folder = true
  /\ Path.normal dest_folder = true
  /\ dest_folder <> source_folder.

(** Between [s] and [s'] the oversized file [p] has been turned down without
    being opened, and counted: the warning is followed at once by the advance
    of the progress bar, and no other event of the run is about [p]. *)
Definition counted_unopened (p : string) (s s' : State) : Prop :=
  exists pre post n,
    trace s' = trace s ++ pre
               ++ [Log WARNING ("File too large: " +:+ p); SetValue (n + 1); ProcessEvents]
               ++ post
    /\ 0 <= n
    /\ forall e, In e (pre ++ post) -> ~ about p e.

(** [p] is an entry directly inside [folder]. *)
Definition in_folder (folder p : string) : Prop := FS.child_of folder p = true.

(** Two file systems answer alike on the paths that satisfy [K]. *)
Definition agree (K : string -> Prop) (t t' : filesystem) : Prop :=
  forall k, K k -> FS.lookup k t = FS.lookup k t'.

(** [t] is what file system [t0] has become once the files [H] have been
    handled: entries of other names are as in [t0], and the entries that bear
    the name of a file of [H] are as the iteration on that file alone left
    them. *)
Definition settled (dest_folder : string) (max_tokens : Z) (t0 : filesystem)
    (H : list string) (t : filesystem) : Prop :=
  (forall k, (forall q, In q H -> ~ same_name q k) -> FS.lookup k t = FS.lookup k t0)
  /\ (forall q k, In q H -> same_name q k ->
                 FS.lookup k t = FS.lookup k (fs_step dest_folder max_tokens t0 q)).

(** The rows [rows] appended, one after the other, to the report [csv_file]. *)
Definition append_rows (csv_file : string) (rows : list (list cell))
    (r : list (string * list (list cell))) :=
  fold_left (fun acc row => Report.append csv_file row acc) rows r.

(** The row can be written to the report. *)
Definition writable (row : list cell) : bool := forallb encodable row.

(** The loop has a row to write for [p], and this row cannot be written:
    its title or its path cannot be encoded. *)
Definition blocked (t : filesystem) (p : string) : bool :=
  match row_for t p with
  | Some tc => negb (writable (row_cells p tc))
  | None => false
  end.

(** The exception that ends a run at a row that cannot be written. *)
Definition encode_error (csv_file : string) : exn :=
  mkExn "UnicodeEncodeError" csv_file.

(** The files of [l] that come before the first one that is blocked, and
    that one, if there is one. *)
Fixpoint ready (t : filesystem) (l : list string) : list string :=
  match l with
  | [] => []
  | p :: r => if blocked t p then [] else p :: ready t r
  end.

Fixpoint stuck (t : filesystem) (l : list string) : option string :=
  match l with
  | [] => None
  | p :: r => if blocked t p then Some p else stuck t r
  end.

(** Every row that the run may have to write can be written: no candidate
    is blocked. *)
Definition all_writable (s : State) : Prop :=
  forall q, In q (candidates (fs s) (folder_input (app s))) -> blocked (fs s) q = false.

(** The outcome of the loop: the value of [processed_count] and the state
    after it, or the exception that ended it and the state then. *)
Fixpoint looped (csv_file dest_folder : string) (max_tokens : Z)
    (l : list string) (n : Z) (s : State) : result Z * State :=
  match l with
  | [] => (Ok n, s)
  | p :: r =>
      if bool_decide (p ∈ processed_files (app s))
      then looped csv_file dest_folder max_tokens r n s
      else if blocked (fs s) p
      then (Raise (encode_error csv_file), log_to (read_events (fs s) p) s)
      else looped csv_file dest_folder max_tokens r (n + 1)
             (handled csv_file dest_folder max_tokens p n s)
  end.

(** The answer of [validate_inputs]. *)
Definition validation (s : State) : bool * string :=
  match Py.int (Py.str_remove "," (token_input (app s))) with
  | None => (false, "Invalid token count")
  | Some n =>
      if n <=? 0 then (false, "Token count must be positive")
      else if negb (FS.statable (fs s) (folder_input (app s)))
      then (false, "Source folder does not exist")
      else if negb (FS.statable (fs s) (dest_input (app s)))
      then (false, "Destination folder does not exist")
      else (true, "")
  end.

(** The state after [save_current_settings]. *)
Definition saved (s : State) : State :=
  with_settings (fun _ => mkSettings (folder_input (app s)) (dest_input (app s))
                                     (token_input (app s))) s.

(** The events of the scan of the source folder. *)
Definition scan_events (t : filesystem) (folder : string) : list event :=
  match scan_failure t folder with
  | Some e => [Log ERROR ("Error scanning directory: " +:+ exn_str e)]
  | None => []
  end.

(** [open(csv_file, "w")] succeeds. *)
Definition can_open (t : filesystem) (p : string) : bool :=
  match FS.lookup (Path.dirname p) t, FS.lookup p t with
  | Some (Dir _ true), None | Some (Dir _ true), Some (File _ _ _) => true
  | _, _ => false
  end.

(** The state in which the loop of a run starts: settings saved, folder
    scanned, progress bar reset, report created with its header row. *)
Definition prepared (s : State) : State :=
  let l := candidates (fs s) (folder_input (app s)) in
  let csv := csv_path s in
  with_reports (fun r => Report.append csv header (Report.create csv r))
    (log_to (scan_events (fs s) (folder_input (app s))
             ++ [SetMaximum (Z.of_nat (length l)); SetValue 0;
                 OpenCsv csv; WriteRow csv header])
       (with_app (fun a => mkApp (folder_input a) (token_input a) (dest_input a)
                                 (processed_files a) (Z.of_nat (length l)) 0)
          (saved s))).

(** The state in which a run stops when its report cannot be created. *)
Definition stopped (s : State) : State :=
  let l := candidates (fs s) (folder_input (app s)) in
  log_to (scan_events (fs s) (folder_input (app s))
          ++ [SetMaximum (Z.of_nat (length l)); SetValue 0])
    (with_app (fun a => mkApp (folder_input a) (token_input a) (dest_input a)
                              (processed_files a) (Z.of_nat (length l)) 0)
       (saved s)).

Definition done_message (n : Z) (csv : string) : string :=
  "Processing completed!" +:+ nl +:+ "Processed: " +:+ pretty n
  +:+ " files" +:+ nl +:+ "CSV saved to " +:+ csv.

(** The values that the progress bar is set to, in order. *)
Definition progress_values (evs : list event) : list Z :=
  omap (fun e => match e with SetValue n => Some n | _ => None end) evs.

Definition is_message_box (e : event) : bool :=
  match e with
  | MessageBox _ _ _ => true
  | _ => false
  end.

(** The message boxes among the events. *)
Definition message_boxes (evs : list event) : list event :=
  List.filter is_message_box evs.

Definition regular (n : node) : bool :=
  match n with
  | File _ _ _ => true
  | _ => false
  end.

(** The binding is one of a regular file directly inside [folder] whose
    name passes the test of [get_epub_files]. *)
Definition is_epub_file (folder : string) (kn : string * node) : bool :=
  FS.child_of folder kn.1 && regular kn.2
  && Py.endswith (Py.lower (Path.basename kn.1)) ".epub".

(** The event is a log line or the opening of archive [p]. *)
Definition reads_or_logs (p : string) (e : event) : Prop :=
  match e with
  | Log _ _ => True
  | ReadEpub q => q = p
  | _ => False
  end.

(** The numbers [n + 1], ..., [n + k]. *)
Fixpoint count_from (n : Z) (k : nat) : list Z :=
  match k with
  | O => []
  | S k' => (n + 1) :: count_from (n + 1) k'
  end.

(** The run from [s] to [s'] passes [p] over: none of its events writes a
    row for [p] or moves [p], the report it writes, if it writes one, has no
    row for [p], and [p], when it is a candidate, is afterwards what it was
    before. *)
Definition passed_over (p : string) (s s' : State) : Prop :=
  (exists evs, trace s' = trace s ++ evs
               /\ forall e, In e evs -> ~ records p e /\ ~ moves p e)
  /\ (reports s' = reports s
      \/ exists rows, Report.lookup (csv_path s) (reports s') = Some rows
                      /\ forall row, In row rows -> ~ row_of p row)
  /\ (In p (candidates (fs s) (folder_input (app s))) ->
      FS.lookup p (fs s') = FS.lookup p (fs s)).

(** The state once [txt] has been typed into the threshold field. *)
Definition typed (txt : string) (s : State) : State :=
  with_app (fun a => mkApp (folder_input a) txt (dest_input a)
                           (processed_files a) (progress_maximum a) (progress_value a)) s.

(** What a run started in [s] adds to the trace. *)
Definition events_of (s s' : State) : list event :=
  drop (length (trace s)) (trace s').

(** The archives opened, the files that a move is tried on, and the files
    that have a row, in order. *)
Definition opened (evs : list event) : list string :=
  omap (fun e => match e with ReadEpub q => Some q | _ => None end) evs.

Definition moved (evs : list event) : list string :=
  omap (fun e => match e with Move q _ => Some q | _ => None end) evs.

Definition row_path (row : list cell) : option string :=
  match row with
  | [CStr _; CInt _; CStr q] => Some q
  | _ => None
  end.

Definition row_paths (rows : list (list cell)) : list string := omap row_path rows.

End Reading.

(** ** Sample surroundings

    A stand-in for the encoding and a few small file systems, on which the
    statements below are exercised. *)

Module Sample.

(** One token per byte of the text. *)
Definition one_per_byte : Tokenizer :=
  fun text => inr (List.map N_of_ascii (list_ascii_of_string text)).

Definition letters (n : nat) : Utf8.bytes := repeat Byte.x61 n.

Definition chapter (n : nat) : EpubItem :=
  mkItem "application/xhtml+xml" (inl (letters n)).

(** A book with a title and one chapter of [n] letters. *)
Definition book (title : string) (n : nat) : EpubBook :=
  mkBook [Some title] [chapter n].

(** A book whose only items are a style sheet and an HTML page that is not
    declared as XHTML. *)
Definition no_markup : EpubBook :=
  mkBook [Some "Cover only"]
         [mkItem "text/css" (inl (letters 10)); mkItem "text/html" (inl (letters 50))].

Definition prefs : Settings := mkSettings "/books" "/out" "1,000".

Definition shelf (entries : filesystem) : filesystem :=
  [("/books", Dir true true); ("/out", Dir true true)] ++ entries.

(** A freshly started application over file system [t]. *)
Definition fresh (t : filesystem) : State :=
  mkState (__init__ prefs) t [] prefs "20240101_120000" [].

(** A run of [start_processing] with the stand-in encoding. *)
Definition run (s : State) : result unit * State := @start_processing one_per_byte s.

(** The state in which a run started in [s] ends. *)
Definition after (s : State) : State := (run s).2.

(** [s] a moment later, at time [ts]. *)
Definition at_time (ts : string) (s : State) : State :=
  mkState (app s) (fs s) (reports s) (settings s) ts (trace s).

Definition A : string := "/books/A.epub".
Definition B : string := "/books/B.epub".
Definition Big : string := "/books/Big.epub".

(** [A.epub] has 120 tokens and [B.epub] has 5,000. *)
Definition two_books : filesystem :=
  shelf [(A, File 2048 (Some (book "Alpha" 120)) false);
         (B, File 4096 (Some (book "Beta" 5000)) false)].

(** As [two_books], but [A.epub] cannot be taken out of its folder. *)
Definition pinned_book : filesystem :=
  shelf [(A, File 2048 (Some (book "Alpha" 120)) true);
         (B, File 4096 (Some (book "Beta" 5000)) false)].

(** A folder with one file above the size limit. *)
Definition big_book : filesystem :=
  shelf [(Big, File (200 * 1024 * 1024) (Some (book "Huge" 3)) false)].

(** A folder whose enumeration breaks after the first entry. *)
Definition broken_scan : filesystem :=
  shelf [(A, File 2048 (Some (book "Alpha" 120)) false);
         ("/books/lost.epub", Unstatable);
         (B, File 4096 (Some (book "Beta" 5000)) false)].

(** A folder with a book that has no markup text. *)
Definition empty_book : filesystem :=
  shelf [("/books/C.epub", File 512 (Some no_markup) false)].

(** A folder with a book whose pages mix XHTML items, an item of another
    type, bytes that are not UTF-8 and an item that cannot be read. *)
Definition mixed : EpubBook :=
  mkBook [Some "Mixed"]
         [mkItem "application/xhtml+xml" (inl [Byte.x48; Byte.x69; Byte.xff]);
          mkItem "text/html" (inl (letters 4));
          mkItem "application/xhtml+xml" (inr "broken page");
          mkItem "application/xhtml+xml" (inl [Byte.xc3]);
          mkItem "application/xhtml+xml" (inl [Byte.x21])].

(** The threshold cannot be parsed. *)
Definition bad_threshold : State :=
  mkState (mkApp "/books" "a lot" "/out" ∅ 100 (-1)) two_books [] prefs
          "20240101_120000" [].

(** A source folder without any book. *)
Definition no_books : filesystem :=
  shelf [("/books/notes.txt", File 10 None false); ("/books/sub", Dir true true)].

(** The second run of an instance, five minutes after its first run. *)
Definition second_run (t : filesystem) : State :=
  at_time "20240101_120500" (after (fresh t)).

(** An encoding that cannot be had. *)
Definition failing : Tokenizer :=
  fun _ => inl (mkExn "ValueError" "Unknown encoding cl100k_base").

Definition U : string := "/books/U.epub".

(** A book without title metadata. *)
Definition untitled : filesystem :=
  shelf [(U, File 100 (Some (mkBook [] [chapter 7])) false)].

(** A book whose title element is empty. *)
Definition nameless : filesystem :=
  shelf [(U, File 100 (Some (mkBook [None; Some "Second title"] [chapter 7])) false)].

(** A file that is not an archive. *)
Definition not_an_archive : filesystem :=
  shelf [(U, File 100 None false)].

(** A book of exactly the largest size allowed. *)
Definition at_limit : filesystem :=
  shelf [(U, File MAX_FILE_SIZE (Some (book "Edge" 3)) false)].

(** A source folder with books under names of mixed case, a folder whose
    name ends in [.epub], a file of another kind and a book one level down. *)
Definition mixed_names : filesystem :=
  shelf [("/books/LOUD.EPUB", File 10 (Some (book "Loud" 1)) false);
         ("/books/dir.epub", Dir true true);
         ("/books/notes.txt", File 10 None false);
         ("/books/dir.epub/inner.epub", File 10 (Some (book "Inner" 1)) false);
         ("/books/Quiet.ePub", File 10 (Some (book "Quiet" 2)) false)].

(** The destination is a regular file, not a folder. *)
Definition dest_is_file : State :=
  mkState (mkApp "/books" "1,000" "/books/A.epub" ∅ 100 (-1)) two_books [] prefs
          "20240101_120000" [].

(** An instance whose inputs differ from the stored preferences. *)
Definition edited : State :=
  mkState (mkApp "/books" "250" "/out" {[B]} 7 3) two_books [] prefs
          "20240101_120000" [].



End Sample.

(** * Properties *)

(** ** The built-ins on a few inputs *)

Example int_thousands : Py.int (Py.str_remove "," "1,000") = Some 1000.
Proof. reflexivity. Qed.

Example int_spaces_sign : Py.int "  -12 " = Some (-12).
Proof. reflexivity. Qed.

Example int_rejects :
  Py.int "12a" = None /\ Py.int "" = None /\ Py.int "1__0" = None
  /\ Py.int "_1" = None /\ Py.int "1_" = None /\ Py.int "1_0" = Some 10.
Proof. repeat split; reflexivity. Qed.

Example join_basename :
  Path.join "/books" "A.epub" = "/books/A.epub"
  /\ Path.join "/books/" "A.epub" = "/books/A.epub"
  /\ Path.basename "/books/A.epub" = "A.epub"
  /\ Path.dirname "/out/report.csv" = "/out"
  /\ Path.name "/books/A.epub" = "A.epub"
  /\ Py.endswith (Py.lower "Book.EPub") ".epub" = true
  /\ Py.endswith (Py.lower "Book.epub.txt") ".epub" = false.
Proof. repeat split; reflexivity. Qed.

Example decode_drops :
  Utf8.decode_ignore [Byte.x41; Byte.xe2; Byte.x82; Byte.x42] = [Byte.x41; Byte.x42]
  /\ Utf8.decode_ignore [Byte.xe2; Byte.x82; Byte.xac] = [Byte.xe2; Byte.x82; Byte.xac]
  /\ Utf8.decode_ignore [Byte.xed; Byte.xa0; Byte.x80] = []
  /\ Utf8.decode_ignore [Byte.x41; Byte.xf0; Byte.x9f] = [Byte.x41].
Proof. repeat split; reflexivity. Qed.

(** ** Strings *)

Lemma str_app_nil_r (s : string) : s +:+ "" = s.
Proof.
  induction s as [|a s IH]; [reflexivity|].
  change (String a s +:+ "") with (String a (s +:+ "")). now rewrite IH.
Qed.

Lemma str_app_assoc (a b c : string) : (a +:+ b) +:+ c = a +:+ (b +:+ c).
Proof.
  induction a as [|x a IH]; [reflexivity|].
  change ((String x a +:+ b) +:+ c) with (String x ((a +:+ b) +:+ c)).
  now rewrite IH.
Qed.

(** ** Paths *)

Lemma has_sep_app (a b : string) :
  Path.has_sep (a +:+ b) = Path.has_sep a || Path.has_sep b.
Proof.
  induction a as [|x a IH]; [reflexivity|].
  change (String x a +:+ b) with (String x (a +:+ b)). cbn [Path.has_sep].
  rewrite IH. now rewrite orb_assoc.
Qed.

Lemma has_sep_basename (p : string) : Path.has_sep (Path.basename p) = false.
Proof.
  induction p as [|a r IH]; [reflexivity|].
  cbn [Path.basename]. destruct (Path.has_sep (String a r)) eqn:Hs; [exact IH|exact Hs].
Qed.

Lemma basename_nosep (n : string) : Path.has_sep n = false -> Path.basename n = n.
Proof. intros Hn. destruct n as [|a r]; [reflexivity|]. cbn [Path.basename]. now rewrite Hn. Qed.

Lemma basename_app_sep (a n : string) :
  Path.has_sep n = false -> Path.basename (a +:+ String Path.sep n) = n.
Proof.
  intros Hn. induction a as [|x a IH].
  - change ("" +:+ String Path.sep n) with (String Path.sep n).
    cbn [Path.basename Path.has_sep]. rewrite bool_decide_eq_true_2 by reflexivity.
    cbn [orb]. now apply basename_nosep.
  - change (String x a +:+ String Path.sep n) with (String x (a +:+ String Path.sep n)).
    cbn [Path.basename Path.has_sep]. rewrite has_sep_app. cbn [Path.has_sep].
    rewrite (bool_decide_eq_true_2 (Path.sep = Path.sep)) by reflexivity.
    cbn [orb]. rewrite !orb_true_r. exact IH.
Qed.

Lemma endswith_sep_inv (a : string) :
  Path.endswith_sep a = true -> exists a', a = a' +:+ String Path.sep "".
Proof.
  induction a as [|x a IH]; [discriminate|].
  cbn [Path.endswith_sep]. destruct a as [|y a].
  - intros Hx. apply bool_decide_eq_true in Hx. subst x. now exists "".
  - intros Hy. destruct (IH Hy) as [a' Ha']. exists (String x a'). now rewrite Ha'.
Qed.

Lemma startswith_sep_has_sep (n : string) :
  Path.startswith_sep n = true -> Path.has_sep n = true.
Proof. destruct n as [|a r]; [discriminate|]. cbn. now intros ->. Qed.

(** The base name of [os.path.join(d, n)] is [n] when [n] has no separator. *)
Lemma basename_join (d n : string) :
  Path.has_sep n = false -> Path.basename (Path.join d n) = n.
Proof.
  intros Hn. unfold Path.join.
  destruct (Path.startswith_sep n) eqn:Hst.
  { apply startswith_sep_has_sep in Hst. congruence. }
  destruct (bool_decide (d = "")) eqn:Hd.
  { apply bool_decide_eq_true in Hd. subst d. now apply basename_nosep. }
  cbn [orb]. destruct (Path.endswith_sep d) eqn:He.
  - destruct (endswith_sep_inv _ He) as [d' ->]. rewrite str_app_assoc.
    now apply basename_app_sep.
  - now apply basename_app_sep.
Qed.

Lemma all_sep_basename (p : string) : Path.all_sep p = true -> Path.basename p = "".
Proof.
  induction p as [|a r IH]; [reflexivity|].
  cbn [Path.all_sep Path.basename Path.has_sep]. intros Hp.
  apply andb_true_iff in Hp as [Ha Hr]. rewrite Ha. cbn [orb]. now apply IH.
Qed.

Lemma rstrip_sep_nosep (p : string) : Path.has_sep p = false -> Path.rstrip_sep p = p.
Proof.
  induction p as [|a r IH]; [reflexivity|].
  cbn [Path.has_sep Path.rstrip_sep Path.all_sep]. intros Hp.
  apply orb_false_iff in Hp as [Ha Hr]. rewrite Ha. cbn [andb]. now rewrite IH.
Qed.

Lemma rstrip_sep_id (p : string) : Path.basename p <> "" -> Path.rstrip_sep p = p.
Proof.
  induction p as [|a r IH]; [reflexivity|]. intros Hb.
  cbn [Path.rstrip_sep].
  destruct (Path.all_sep (String a r)) eqn:Hall.
  { now apply all_sep_basename in Hall. }
  f_equal. cbn [Path.basename] in Hb.
  destruct (Path.has_sep (String a r)) eqn:Hs.
  - now apply IH.
  - cbn [Path.has_sep] in Hs. apply orb_false_iff in Hs as [_ Hr].
    now apply rstrip_sep_nosep.
Qed.

Lemma string_length_app (a b : string) :
  String.length (a +:+ b) = (String.length a + String.length b)%nat.
Proof.
  induction a as [|c a IH]; [reflexivity|].
  change (String c a +:+ b) with (String c (a +:+ b)).
  cbn [String.length]. now rewrite IH.
Qed.

Lemma string_app_inv_tail (a b c : string) : a +:+ c = b +:+ c -> a = b.
Proof.
  revert b. induction a as [|x a IH]; intros [|y b] Heq; try reflexivity.
  - apply (f_equal String.length) in Heq.
    rewrite !string_length_app in Heq. cbn [String.length] in Heq. lia.
  - apply (f_equal String.length) in Heq.
    rewrite !string_length_app in Heq. cbn [String.length] in Heq. lia.
  - change (String x (a +:+ c) = String y (b +:+ c)) in Heq.
    injection Heq as -> Heq. f_equal. now apply IH.
Qed.

(** Joining a name to a folder written in normal form. *)
Lemma join_normal (d n : string) :
  Path.normal d = true -> Path.has_sep n = false ->
  Path.join d n = if bool_decide (d = "/") then "/" +:+ n else d +:+ String Path.sep n.
Proof.
  unfold Path.normal, Path.join. intros Hd Hn.
  apply andb_true_iff in Hd as [Hst Hd].
  assert (Hs : Path.startswith_sep n = false).
  { destruct n as [|a r]; [reflexivity|]. cbn in Hn |- *.
    now apply orb_false_iff in Hn as [-> _]. }
  rewrite Hs. destruct (bool_decide (d = "/")) eqn:Hroot.
  - apply bool_decide_eq_true in Hroot as ->. reflexivity.
  - cbn in Hd. apply andb_true_iff in Hd as [He _]. apply negb_true_iff in He.
    rewrite He. destruct d; [discriminate|]. reflexivity.
Qed.

Lemma join_normal_inj (d1 d2 n : string) :
  Path.normal d1 = true -> Path.normal d2 = true -> Path.has_sep n = false ->
  Path.join d1 n = Path.join d2 n -> d1 = d2.
Proof.
  intros H1 H2 Hn. rewrite (join_normal d1 n H1 Hn), (join_normal d2 n H2 Hn).
  destruct (bool_decide (d1 = "/")) eqn:E1; destruct (bool_decide (d2 = "/")) eqn:E2.
  - apply bool_decide_eq_true in E1, E2. congruence.
  - intros Heq. apply (string_app_inv_tail "" d2 (String Path.sep n)) in Heq.
    subst d2. discriminate.
  - intros Heq. apply (string_app_inv_tail d1 "" (String Path.sep n)) in Heq.
    subst d1. discriminate.
  - apply string_app_inv_tail.
Qed.

(** ** The decoder *)

(** The decoder only drops bytes: what it keeps is a subsequence of its
    input. *)
Lemma decode_ignore_sublist (bs : Utf8.bytes) : Utf8.decode_ignore bs `sublist_of` bs.
Proof.
  remember (length bs) as n eqn:Hn. revert bs Hn.
  induction n as [n IH] using lt_wf_ind. intros bs ->.
  destruct bs as [|b0 r]; [constructor|].
  cbn [Utf8.decode_ignore].
  repeat match goal with
         | |- context [if ?c then _ else _] => destruct c
         | |- context [match ?l with [] => _ | _ :: _ => _ end] => destruct l
         end;
    repeat first
      [ apply sublist_nil_l
      | solve [eapply IH; [|reflexivity]; cbn [length]; lia]
      | apply sublist_skip
      | apply sublist_cons ].
Qed.

(** Bytes of the ASCII range are kept as they are. *)
Lemma decode_ignore_ascii (bs : Utf8.bytes) :
  Forall (fun b => (Utf8.val b < 128)%N) bs -> Utf8.decode_ignore bs = bs.
Proof.
  induction 1 as [|b r Hb _ IH]; [reflexivity|].
  cbn [Utf8.decode_ignore]. apply N.ltb_lt in Hb. rewrite Hb. now rewrite IH.
Qed.

(** ** File-system tables *)

Lemma lookup_remove_ne (k p : string) (t : filesystem) :
  k <> p -> FS.lookup k (FS.remove p t) = FS.lookup k t.
Proof.
  intros Hne. induction t as [|[k' n] r IH]; [reflexivity|].
  cbn [FS.remove List.filter fst FS.lookup].
  destruct (decide (k' = p)) as [->|Hk'].
  - rewrite bool_decide_eq_true_2 by reflexivity. cbn [negb].
    destruct (decide (p = k)); [congruence|]. exact IH.
  - rewrite bool_decide_eq_false_2 by exact Hk'. cbn [negb FS.lookup].
    destruct (decide (k' = k)); [reflexivity|]. exact IH.
Qed.

Lemma lookup_remove_eq (p : string) (t : filesystem) :
  FS.lookup p (FS.remove p t) = None.
Proof.
  induction t as [|[k' n] r IH]; [reflexivity|].
  cbn [FS.remove List.filter fst].
  destruct (decide (k' = p)) as [->|Hk'].
  - rewrite bool_decide_eq_true_2 by reflexivity. exact IH.
  - rewrite bool_decide_eq_false_2 by exact Hk'. cbn [negb FS.lookup].
    destruct (decide (k' = p)); [congruence|]. exact IH.
Qed.

Lemma lookup_bind_eq (p : string) (n : node) (t : filesystem) :
  FS.lookup p (FS.bind p n t) = Some n.
Proof.
  induction t as [|[k' m] r IH].
  - cbn. now destruct (decide (p = p)).
  - cbn [FS.bind]. destruct (decide (k' = p)) as [->|Hk'].
    + cbn. now destruct (decide (p = p)).
    + cbn [FS.lookup]. destruct (decide (k' = p)); [congruence|]. exact IH.
Qed.

Lemma lookup_bind_ne (k p : string) (n : node) (t : filesystem) :
  k <> p -> FS.lookup k (FS.bind p n t) = FS.lookup k t.
Proof.
  intros Hne. induction t as [|[k' m] r IH].
  - cbn. now destruct (decide (p = k)); [congruence|].
  - cbn [FS.bind]. destruct (decide (k' = p)) as [->|Hk'].
    + cbn [FS.lookup]. destruct (decide (p = k)); [congruence|].
      now apply lookup_remove_ne.
    + cbn [FS.lookup]. destruct (decide (k' = k)); [reflexivity|]. exact IH.
Qed.

(** ** The code computes the functions of section [Reading] *)

Section Refinement.
Context `{Tokenizer}.
Import Lib.

Lemma state_ext (s s' : State) :
  app s = app s' -> fs s = fs s' -> reports s = reports s' ->
  settings s = settings s' -> now s = now s' -> trace s = trace s' -> s = s'.
Proof. destruct s, s'. cbn. now intros -> -> -> -> -> ->. Qed.

Lemma log_to_nil (s : State) : log_to [] s = s.
Proof. destruct s. unfold log_to, with_trace. cbn. now rewrite app_nil_r. Qed.

Lemma log_to_app (a b : list event) (s : State) :
  log_to b (log_to a s) = log_to (a ++ b) s.
Proof. destruct s. unfold log_to, with_trace. cbn. now rewrite app_assoc. Qed.

Lemma emit_run (e : event) (s : State) : emit e s = (Ok tt, log_to [e] s).
Proof. reflexivity. Qed.

Lemma extracted_text_cons (item : EpubItem) (rest : list EpubItem) :
  extracted_text (item :: rest)
  = if is_markup item then fragment item +:+ extracted_text rest
    else extracted_text rest.
Proof. unfold extracted_text. cbn. now destruct (is_markup item). Qed.

Lemma extract_text_run (items : list EpubItem) (full_text : string) (s : State) :
  extract_text items full_text s
  = (Ok (full_text +:+ extracted_text items), log_to (flat_map item_events items) s).
Proof.
  revert full_text s.
  induction items as [|item rest IH]; intros full_text s.
  - cbn. now rewrite str_app_nil_r, log_to_nil.
  - rewrite extracted_text_cons. cbn [extract_text flat_map].
    unfold item_events at 1, fragment.
    fold (is_markup item). destruct (is_markup item).
    + unfold bind at 1, try_except, get_content_decode.
      destruct (get_content item) as [b|msg].
      * unfold bind, ret.
        destruct (bool_decide (Utf8.decode b = "")) eqn:Hb; cbn [negb];
          rewrite IH, app_nil_l.
        -- apply bool_decide_eq_true in Hb. rewrite Hb. reflexivity.
        -- now rewrite str_app_assoc.
      * unfold bind, raise, Exception, logging_error, emit, modify, ret.
        cbn [exn_str]. rewrite IH.
        change (with_trace ?f s) with (log_to [Log ERROR ("Error processing EPUB item: " +:+ msg)] s).
        now rewrite log_to_app.
    + now rewrite IH.
Qed.

Lemma calculate_tokens_run (text : string) (s : State) :
  calculate_tokens text s = (Ok (count_tokens text), log_to (count_events text) s).
Proof.
  unfold calculate_tokens, try_except, bind, tiktoken_encode, count_tokens, count_events.
  destruct (encoding_encode text) as [e|tokens]; cbn.
  - reflexivity.
  - now rewrite log_to_nil.
Qed.

Lemma _process_epub_content_run (book : EpubBook) (s : State) :
  _process_epub_content book s = (Ok (content_count book), log_to (content_events book) s).
Proof.
  unfold _process_epub_content, bind. rewrite extract_text_run. cbn [String.append].
  unfold content_count, content_events.
  change ("" +:+ extracted_text (get_items book)) with (extracted_text (get_items book)).
  destruct (bool_decide (extracted_text (get_items book) = "")); cbn [negb].
  - unfold ret. now rewrite app_nil_r.
  - rewrite calculate_tokens_run, log_to_app. reflexivity.
Qed.

Lemma process_epub_run (p : string) (s : State) :
  process_epub p s = (Ok (read_result (fs s) p), log_to (read_events (fs s) p) s).
Proof.
  unfold process_epub, read_result, read_events, bind at 1. unfold os_path_exists, bind at 1.
  unfold get at 1. unfold ret at 1. unfold FS.statable.
  destruct (FS.lookup p (fs s)) as [[size book pinned|l w|]|] eqn:Hl; cbn [negb].
  - unfold try_except, bind at 1, os_path_getsize, bind at 1, get at 1. rewrite Hl.
    unfold ret at 1.
    destruct (MAX_FILE_SIZE <? size) eqn:Hsz.
    + reflexivity.
    + unfold bind at 1, read_epub, bind at 1, emit, modify. unfold bind at 1, get.
      cbn [fs with_trace]. rewrite Hl.
      destruct book as [b|].
      * unfold ret at 1. unfold bind. rewrite _process_epub_content_run.
        unfold ret. f_equal. 
        change (with_trace (fun t => t ++ [ReadEpub p]) s) with (log_to [ReadEpub p] s).
        now rewrite log_to_app.
      * unfold raise, Exception, bind, logging_error, emit, modify, ret. 
        change (with_trace (fun t => t ++ [ReadEpub p]) s) with (log_to [ReadEpub p] s).
        cbn [exn_str]. f_equal.
        change (with_trace ?f ?x) with (log_to [Log ERROR ("Error processing " +:+ p +:+ ": " +:+ p)] x).
        now rewrite log_to_app.
  - unfold try_except, bind at 1, os_path_getsize, bind at 1, get at 1. rewrite Hl.
    unfold ret at 1. change (MAX_FILE_SIZE <? 0) with false. cbn iota.
    unfold bind at 1, read_epub, bind at 1, emit, modify. unfold bind at 1, get.
    cbn [fs with_trace]. rewrite Hl.
    unfold raise, Exception, bind, logging_error, emit, modify, ret.
    cbn [exn_str]. f_equal.
    destruct s; unfold log_to, with_trace; cbn. now rewrite <- app_assoc.
  - reflexivity.
  - reflexivity.
Qed.

Lemma shutil_move_run (src dst : string) (s : State) :
  shutil_move src dst s
  = match move_result (fs s) src dst with
    | inr t' => (Ok (real_dst (fs s) src dst), with_fs (fun _ => t') (log_to [Move src dst] s))
    | inl e => (Raise e, log_to [Move src dst] s)
    end.
Proof.
  unfold shutil_move, move_result, real_dst, bind at 1, emit, modify.
  unfold bind at 1, get. cbn [fs with_trace].
  destruct (FS.is_dir (fs s) dst && FS.statable (fs s) _); [reflexivity|].
  destruct (FS.lookup src (fs s)) as [[size book [|]|l w|]|]; reflexivity.
Qed.

Lemma relocate_run (dest_folder p : string) (c : Z) (s : State) :
  relocate dest_folder p c s = (Ok tt, relocated dest_folder p c s).
Proof.
  unfold relocate, relocated, try_except, bind at 1, dest_path.
  rewrite shutil_move_run.
  destruct (move_result (fs s) p _) as [e|t'].
  - unfold Exception, logging_error. rewrite emit_run, log_to_app. reflexivity.
  - unfold logging_info. rewrite emit_run. f_equal.
    destruct s. unfold log_to, with_fs, with_trace. cbn. now rewrite <- app_assoc.
Qed.

Lemma mark_run (p : string) (n : Z) (s : State) :
  (modify (with_app (add_processed p)) ;;;
   setValue n ;;; emit ProcessEvents ;;; ret n) s
  = (Ok n, marked p n s).
Proof.
  destruct s. unfold marked, log_to, bind, modify, setValue, emit, bind, modify, ret,
    with_app, with_trace, add_processed. cbn. now rewrite <- app_assoc.
Qed.

Lemma header_writable : writable header = true.
Proof. vm_compute. reflexivity. Qed.

Lemma writerow_run (p : string) (row : list cell) (s : State) :
  writerow p row s
  = if writable row
    then (Ok tt, with_reports (Report.append p row) (log_to [WriteRow p row] s))
    else (Raise (encode_error p), s).
Proof. unfold writerow, writable. now destruct (forallb encodable row). Qed.

Lemma loop_body_run (csv_file dest_folder : string) (max_tokens : Z)
    (p : string) (n : Z) (s : State) :
  loop_body csv_file dest_folder max_tokens p n s
  = if bool_decide (p ∈ processed_files (app s)) then (Ok n, s)
    else if blocked (fs s) p
    then (Raise (encode_error csv_file), log_to (read_events (fs s) p) s)
    else (Ok (n + 1), handled csv_file dest_folder max_tokens p n s).
Proof.
  unfold loop_body, bind at 1, get at 1.
  destruct (bool_decide (p ∈ processed_files (app s))); [reflexivity|].
  unfold bind at 1. rewrite process_epub_run.
  unfold handled, blocked, row_for. unfold bind at 1.
  destruct (read_result (fs s) p) as [[title|] [c|]];
    try (unfold ret at 1; now rewrite mark_run).
  destruct (Py.truthy_str (Some title) && Py.truthy_int (Some c));
    [|unfold ret at 1; now rewrite mark_run].
  cbn [snd]. unfold bind at 1. rewrite writerow_run. unfold row_cells. cbn [fst snd].
  destruct (writable [CStr title; CInt c; CStr p]); cbn [negb]; [|reflexivity].
  fold (recorded csv_file p (title, c) (log_to (read_events (fs s) p) s)).
  destruct (c <? max_tokens).
  - rewrite relocate_run. now rewrite mark_run.
  - unfold ret at 1. now rewrite mark_run.
Qed.

Lemma for_each_file_run (csv_file dest_folder : string) (max_tokens : Z)
    (l : list string) (n : Z) (s : State) :
  for_each_file csv_file dest_folder max_tokens l n s
  = looped csv_file dest_folder max_tokens l n s.
Proof.
  revert n s. induction l as [|p r IH]; intros n s; [reflexivity|].
  cbn [for_each_file looped]. unfold bind. rewrite loop_body_run.
  destruct (bool_decide (p ∈ processed_files (app s))); [apply IH|].
  destruct (blocked (fs s) p); [reflexivity|apply IH].
Qed.

Lemma validate_inputs_run (s : State) :
  validate_inputs s = (Ok (validation s), s).
Proof.
  unfold validate_inputs, validation, bind at 1, get at 1, bind at 1, try_except.
  unfold bind at 1, parse_token_input.
  destruct (Py.int _) as [n|]; [|reflexivity].
  unfold ret at 1. destruct (n <=? 0); [reflexivity|].
  unfold ret at 1, bind at 1, os_path_exists, bind at 1, get, ret at 1.
  destruct (FS.statable (fs s) (folder_input (app s))); [|reflexivity].
  cbn [negb]. unfold bind, get, ret.
  now destruct (FS.statable (fs s) (dest_input (app s))).
Qed.

Lemma get_epub_files_run (folder : string) (s : State) :
  get_epub_files folder s
  = (Ok (candidates (fs s) folder), log_to (scan_events (fs s) folder) s).
Proof.
  unfold get_epub_files, candidates, scan_events, scan_failure, bind at 1, get at 1.
  destruct (os_scandir (fs s) folder) as [e|entries].
  - reflexivity.
  - destruct (scan_entries entries []) as [files [e|]]; [reflexivity|].
    unfold ret. now rewrite log_to_nil.
Qed.

Lemma valid_inputs_validation (s : State) (t : Z) :
  valid_inputs s t -> validation s = (true, "").
Proof.
  intros (Hint & Hpos & Hsrc & Hdst). unfold validation. rewrite Hint, Hsrc, Hdst.
  destruct (t <=? 0) eqn:Hle; [lia|reflexivity].
Qed.

Lemma validation_valid_inputs (s : State) :
  (validation s).1 = true -> exists t, valid_inputs s t.
Proof.
  unfold validation, valid_inputs.
  destruct (Py.int _) as [n|]; [|discriminate].
  destruct (n <=? 0) eqn:Hle; [discriminate|].
  destruct (FS.statable (fs s) (folder_input (app s))); [|discriminate].
  destruct (FS.statable (fs s) (dest_input (app s))); [|discriminate].
  intros _. exists n. repeat split; lia.
Qed.

Lemma open_w_run (p : string) (s : State) :
  can_open (fs s) p = true ->
  open_w p s = (Ok tt, with_reports (Report.create p) (log_to [OpenCsv p] s)).
Proof.
  unfold open_w, can_open, bind at 1, get at 1.
  destruct (FS.lookup (Path.dirname p) (fs s)) as [[? ? ?|l [|]|]|];
    destruct (FS.lookup p (fs s)) as [[? ? ?|? ?|]|]; try discriminate;
    reflexivity.
Qed.

Lemma open_w_refused (p : string) (s : State) :
  can_open (fs s) p = false -> exists e, open_w p s = (Raise e, s).
Proof.
  unfold open_w, can_open, bind at 1, get at 1.
  destruct (FS.lookup (Path.dirname p) (fs s)) as [[? ? ?|l [|]|]|];
    destruct (FS.lookup p (fs s)) as [[? ? ?|? ?|]|]; try discriminate;
    intros _; eexists; reflexivity.
Qed.

Lemma start_processing_invalid (s : State) :
  (validation s).1 = false ->
  start_processing s
  = (Ok tt, log_to [MessageBox Critical "Error" (validation s).2] (saved s)).
Proof.
  intros Hv. unfold start_processing, bind at 1, save_current_settings, bind at 1, get at 1.
  unfold modify at 1. fold (saved s). unfold bind at 1. rewrite validate_inputs_run.
  change (validation (saved s)) with (validation s).
  destruct (validation s) as [ok msg]. cbn in Hv. subst ok. reflexivity.
Qed.

Lemma start_processing_empty (s : State) (t : Z) :
  valid_inputs s t ->
  candidates (fs s) (folder_input (app s)) = [] ->
  start_processing s
  = (Ok tt, log_to (scan_events (fs s) (folder_input (app s))
                    ++ [MessageBox Warning "Warning" "No EPUB files found!"]) (saved s)).
Proof.
  intros Hv Hc. pose proof (valid_inputs_validation _ _ Hv) as Hval.
  destruct Hv as (Hint & Hpos & Hsrc & Hdst).
  unfold start_processing, bind at 1, save_current_settings, bind at 1, get at 1.
  unfold modify at 1. fold (saved s). unfold bind at 1. rewrite validate_inputs_run.
  change (validation (saved s)) with (validation s). rewrite Hval. cbn [negb].
  unfold bind at 1, get at 1, bind at 1, parse_token_input.
  change (app (saved s)) with (app s). rewrite Hint. unfold ret at 1.
  unfold bind at 1. rewrite get_epub_files_run.
  change (fs (saved s)) with (fs s). rewrite Hc.
  unfold QMessageBox. rewrite emit_run, log_to_app. reflexivity.
Qed.

Lemma start_processing_refused (s : State) (t : Z) :
  valid_inputs s t ->
  candidates (fs s) (folder_input (app s)) <> [] ->
  can_open (fs s) (csv_path s) = false ->
  exists e, start_processing s = (Raise e, stopped s).
Proof.
  intros Hv Hc Ho. pose proof (valid_inputs_validation _ _ Hv) as Hval.
  destruct Hv as (Hint & Hpos & Hsrc & Hdst).
  unfold start_processing, bind at 1, save_current_settings, bind at 1, get at 1.
  unfold modify at 1. fold (saved s). unfold bind at 1. rewrite validate_inputs_run.
  change (validation (saved s)) with (validation s). rewrite Hval. cbn [negb].
  unfold bind at 1, get at 1, bind at 1, parse_token_input.
  change (app (saved s)) with (app s). rewrite Hint. unfold ret at 1.
  unfold bind at 1. rewrite get_epub_files_run.
  change (fs (saved s)) with (fs s). unfold stopped.
  destruct (candidates (fs s) (folder_input (app s))) as [|p l] eqn:Hl; [congruence|].
  unfold bind at 1, setMaximum, bind at 1. rewrite emit_run. unfold modify at 1.
  unfold bind at 1, setValue, bind at 1. rewrite emit_run. unfold modify at 1.
  unfold bind at 1, bind at 1, get at 1, ret at 1.
  unfold bind at 1.
  match goal with |- context [open_w ?c ?st] =>
    destruct (open_w_refused c st) as [e He]; [exact Ho|rewrite He] end.
  exists e. f_equal.
  apply state_ext;
    lazy [app fs reports settings now trace csv_path log_to with_reports
          with_trace with_app saved with_settings];
    try reflexivity.
  rewrite <- !app_assoc. reflexivity.
Qed.

Lemma start_processing_run (s : State) (t : Z) :
  valid_inputs s t ->
  candidates (fs s) (folder_input (app s)) <> [] ->
  can_open (fs s) (csv_path s) = true ->
  start_processing s
  = match looped (csv_path s) (dest_input (app s)) t
            (candidates (fs s) (folder_input (app s))) 0 (prepared s) with
    | (Ok n, s') =>
        (Ok tt, log_to [MessageBox Information "Done" (done_message n (csv_path s))] s')
    | (Raise e, s') => (Raise e, s')
    end.
Proof.
  intros Hv Hc Ho. pose proof (valid_inputs_validation _ _ Hv) as Hval.
  destruct Hv as (Hint & Hpos & Hsrc & Hdst).
  unfold start_processing, bind at 1, save_current_settings, bind at 1, get at 1.
  unfold modify at 1. fold (saved s). unfold bind at 1. rewrite validate_inputs_run.
  change (validation (saved s)) with (validation s). rewrite Hval. cbn [negb].
  unfold bind at 1, get at 1, bind at 1, parse_token_input.
  change (app (saved s)) with (app s). rewrite Hint. unfold ret at 1.
  unfold bind at 1. rewrite get_epub_files_run.
  change (fs (saved s)) with (fs s). unfold prepared.
  destruct (candidates (fs s) (folder_input (app s))) as [|p l] eqn:Hl; [congruence|].
  unfold bind at 1, setMaximum, bind at 1. rewrite emit_run. unfold modify at 1.
  unfold bind at 1, setValue, bind at 1. rewrite emit_run. unfold modify at 1.
  unfold bind at 1, bind at 1, get at 1, ret at 1.
  unfold bind at 1. rewrite open_w_run by exact Ho.
  unfold bind at 1. rewrite writerow_run. fold header. rewrite header_writable.
  unfold bind at 1. rewrite for_each_file_run.
  match goal with |- context [looped _ _ _ _ _ ?a] =>
    match goal with |- _ = match looped _ _ _ _ _ ?b with _ => _ end =>
      replace a with b
    end
  end.
  - unfold QMessageBox.
    destruct (looped _ _ _ _ _ _) as [[n|e] s']; [now rewrite emit_run|reflexivity].
  - apply state_ext;
      lazy [app fs reports settings now trace csv_path log_to with_reports
            with_trace with_app saved with_settings];
      try reflexivity.
    rewrite <- !app_assoc. reflexivity.
Qed.

End Refinement.

(** ** One iteration, component by component *)

Section Iteration.
Context `{Tokenizer}.
Import Lib.

Variables (csv_file dest_folder : string) (max_tokens : Z).

Local Ltac project :=
  cbn [app fs reports settings now trace log_to with_trace with_fs with_reports
       with_app with_settings recorded marked].

Lemma fs_handled (p : string) (n : Z) (s : State) :
  fs (handled csv_file dest_folder max_tokens p n s)
  = fs_step dest_folder max_tokens (fs s) p.
Proof.
  unfold handled, fs_step. project.
  destruct (row_for (fs s) p) as [tc|]; [|reflexivity].
  destruct (tc.2 <? max_tokens); [|reflexivity].
  unfold relocated. project.
  now destruct (move_result (fs s) p _).
Qed.

Lemma trace_handled (p : string) (n : Z) (s : State) :
  trace (handled csv_file dest_folder max_tokens p n s)
  = trace s ++ events_step csv_file dest_folder max_tokens (fs s) p n.
Proof.
  unfold handled, events_step. project.
  destruct (row_for (fs s) p) as [tc|].
  - destruct (tc.2 <? max_tokens).
    + unfold relocated, move_events. project.
      destruct (move_result (fs s) p _); project;
        rewrite <- ?app_assoc; reflexivity.
    + project. rewrite <- ?app_assoc. reflexivity.
  - project. rewrite <- ?app_assoc. reflexivity.
Qed.

Lemma reports_handled (p : string) (n : Z) (s : State) :
  reports (handled csv_file dest_folder max_tokens p n s)
  = match row_for (fs s) p with
    | Some tc => Report.append csv_file (row_cells p tc) (reports s)
    | None => reports s
    end.
Proof.
  unfold handled. project.
  destruct (row_for (fs s) p) as [tc|]; [|reflexivity].
  destruct (tc.2 <? max_tokens); [|reflexivity].
  unfold relocated. project.
  now destruct (move_result (fs s) p _).
Qed.

Lemma app_handled (p : string) (n : Z) (s : State) :
  app (handled csv_file dest_folder max_tokens p n s)
  = mkApp (folder_input (app s)) (token_input (app s)) (dest_input (app s))
          ({[p]} ∪ processed_files (app s)) (progress_maximum (app s)) (n + 1).
Proof.
  unfold handled. project.
  destruct (row_for (fs s) p) as [tc|]; [|reflexivity].
  destruct (tc.2 <? max_tokens); [|reflexivity].
  unfold relocated. project.
  now destruct (move_result (fs s) p _).
Qed.

Lemma settings_handled (p : string) (n : Z) (s : State) :
  settings (handled csv_file dest_folder max_tokens p n s) = settings s
  /\ now (handled csv_file dest_folder max_tokens p n s) = now s.
Proof.
  unfold handled. project.
  destruct (row_for (fs s) p) as [tc|]; [|now split].
  destruct (tc.2 <? max_tokens); [|now split].
  unfold relocated. project.
  now destruct (move_result (fs s) p _).
Qed.

End Iteration.

(** ** An iteration looks at, and changes, only entries of its own name *)

Section Locality.
Context `{Tokenizer}.
Import Lib.

Variables (dest_folder : string) (max_tokens : Z).

Lemma same_name_refl (p : string) : same_name p p.
Proof. reflexivity. Qed.

Lemma same_name_dest_path (p : string) : same_name p (dest_path dest_folder p).
Proof. unfold same_name, dest_path. apply basename_join, has_sep_basename. Qed.

Lemma same_name_real_dst (t : filesystem) (p : string) :
  Path.basename p <> "" ->
  same_name p (real_dst t p (dest_path dest_folder p)).
Proof.
  intros Hp. unfold real_dst. destruct (FS.is_dir t _).
  - unfold same_name. rewrite (rstrip_sep_id p Hp).
    apply basename_join, has_sep_basename.
  - apply same_name_dest_path.
Qed.

Lemma read_result_local (t t' : filesystem) (p : string) :
  FS.lookup p t = FS.lookup p t' -> read_result t p = read_result t' p.
Proof. unfold read_result. now intros ->. Qed.

Lemma read_events_local (t t' : filesystem) (p : string) :
  FS.lookup p t = FS.lookup p t' -> read_events t p = read_events t' p.
Proof. unfold read_events. now intros ->. Qed.

Lemma row_for_local (t t' : filesystem) (p : string) :
  FS.lookup p t = FS.lookup p t' -> row_for t p = row_for t' p.
Proof. intros Hl. unfold row_for. now rewrite (read_result_local _ _ _ Hl). Qed.

Lemma is_dir_local (t t' : filesystem) (k : string) :
  FS.lookup k t = FS.lookup k t' -> FS.is_dir t k = FS.is_dir t' k.
Proof. unfold FS.is_dir. now intros ->. Qed.

Lemma statable_local (t t' : filesystem) (k : string) :
  FS.lookup k t = FS.lookup k t' -> FS.statable t k = FS.statable t' k.
Proof. unfold FS.statable. now intros ->. Qed.

Lemma real_dst_local (t t' : filesystem) (p : string) :
  agree (same_name p) t t' ->
  real_dst t p (dest_path dest_folder p) = real_dst t' p (dest_path dest_folder p).
Proof.
  intros Ha. unfold real_dst.
  now rewrite (is_dir_local t t' _ (Ha _ (same_name_dest_path p))).
Qed.

Lemma move_result_local (t t' : filesystem) (p : string) :
  Path.basename p <> "" ->
  agree (same_name p) t t' ->
  match move_result t p (dest_path dest_folder p),
        move_result t' p (dest_path dest_folder p) with
  | inl e, inl e' => e = e'
  | inr u, inr u' => agree (same_name p) u u'
  | _, _ => False
  end.
Proof.
  intros Hp Ha. unfold move_result.
  rewrite <- (real_dst_local t t' p Ha).
  rewrite <- (is_dir_local t t' _ (Ha _ (same_name_dest_path p))).
  rewrite <- (statable_local t t' _ (Ha _ (same_name_real_dst t p Hp))).
  rewrite <- (Ha p (same_name_refl p)).
  destruct (FS.is_dir t _ && FS.statable t _); [reflexivity|].
  destruct (FS.lookup p t) as [[size book [|]|? ?|]|]; try reflexivity.
  intros k Hk.
  destruct (decide (k = real_dst t p (dest_path dest_folder p))) as [->|Hne].
  - now rewrite !lookup_bind_eq.
  - rewrite !lookup_bind_ne by exact Hne.
    destruct (decide (k = p)) as [->|Hkp].
    + now rewrite !lookup_remove_eq.
    + rewrite !lookup_remove_ne by exact Hkp. now apply Ha.
Qed.

Lemma move_result_other (t u : filesystem) (p k : string) :
  Path.basename p <> "" ->
  move_result t p (dest_path dest_folder p) = inr u ->
  ~ same_name p k -> FS.lookup k u = FS.lookup k t.
Proof.
  intros Hp Hm Hk. unfold move_result in Hm.
  destruct (FS.is_dir t _ && FS.statable t _); [discriminate|].
  destruct (FS.lookup p t) as [[size book [|]|? ?|]|]; try discriminate.
  injection Hm as <-.
  rewrite lookup_bind_ne, lookup_remove_ne; [reflexivity| |].
  - intros ->. apply Hk, same_name_refl.
  - intros ->. now apply Hk, same_name_real_dst.
Qed.

Lemma fs_step_local (t t' : filesystem) (p : string) :
  Path.basename p <> "" ->
  agree (same_name p) t t' ->
  agree (same_name p) (fs_step dest_folder max_tokens t p)
                      (fs_step dest_folder max_tokens t' p).
Proof.
  intros Hp Ha. unfold fs_step.
  rewrite <- (row_for_local t t' p (Ha p (same_name_refl p))).
  destruct (row_for t p) as [tc|]; [|exact Ha].
  destruct (tc.2 <? max_tokens); [|exact Ha].
  pose proof (move_result_local t t' p Hp Ha) as Hm.
  destruct (move_result t p _), (move_result t' p _); try contradiction; assumption.
Qed.

Lemma fs_step_other (t : filesystem) (p k : string) :
  Path.basename p <> "" ->
  ~ same_name p k ->
  FS.lookup k (fs_step dest_folder max_tokens t p) = FS.lookup k t.
Proof.
  intros Hp Hk. unfold fs_step.
  destruct (row_for t p) as [tc|]; [|reflexivity].
  destruct (tc.2 <? max_tokens); [|reflexivity].
  destruct (move_result t p _) as [e|u] eqn:Hm; [reflexivity|].
  now apply (move_result_other t u p k Hp Hm).
Qed.

Lemma move_events_local (t t' : filesystem) (p : string) (c : Z) :
  Path.basename p <> "" ->
  agree (same_name p) t t' ->
  move_events dest_folder t p c = move_events dest_folder t' p c.
Proof.
  intros Hp Ha. unfold move_events.
  pose proof (move_result_local t t' p Hp Ha) as Hm.
  destruct (move_result t p _), (move_result t' p _); try contradiction;
    [now subst|reflexivity].
Qed.

Lemma events_step_local (csv_file : string) (t t' : filesystem) (p : string) (n : Z) :
  Path.basename p <> "" ->
  agree (same_name p) t t' ->
  events_step csv_file dest_folder max_tokens t p n
  = events_step csv_file dest_folder max_tokens t' p n.
Proof.
  intros Hp Ha. unfold events_step.
  rewrite <- (row_for_local t t' p (Ha p (same_name_refl p))).
  rewrite <- (read_events_local t t' p (Ha p (same_name_refl p))).
  destruct (row_for t p) as [tc|]; [|reflexivity].
  now rewrite (move_events_local t t' p _ Hp Ha).
Qed.

End Locality.

Lemma done_nil (P : gset string) : list_to_set [] ∪ P = P.
Proof. apply set_eq. intros x. cbn. rewrite elem_of_union, elem_of_empty. tauto. Qed.

Lemma done_skip (p : string) (r : list string) (P : gset string) :
  p ∈ P -> list_to_set (p :: r) ∪ P = list_to_set r ∪ P.
Proof.
  intros Hp. apply set_eq. intros x. cbn.
  rewrite !elem_of_union, elem_of_singleton. intuition (subst; auto).
Qed.

Lemma done_add (p : string) (r : list string) (P : gset string) :
  list_to_set (p :: r) ∪ P = list_to_set r ∪ ({[p]} ∪ P).
Proof.
  apply set_eq. intros x. cbn.
  rewrite !elem_of_union, elem_of_singleton. tauto.
Qed.

(** ** The loop over the candidates *)

Section Loop.
Context `{Tokenizer}.
Import Lib.

Variables (csv_file dest_folder : string) (max_tokens : Z).
Variables (source_folder : string) (t0 : filesystem).

Lemma child_basename (p : string) :
  in_folder source_folder p -> Path.basename p <> "".
Proof.
  unfold in_folder, FS.child_of. intros Hc. apply andb_true_iff in Hc as [Hb _].
  apply negb_true_iff, bool_decide_eq_false in Hb. exact Hb.
Qed.

Lemma child_same_name (p q : string) :
  in_folder source_folder p -> in_folder source_folder q -> same_name p q -> p = q.
Proof.
  unfold in_folder, FS.child_of, same_name. intros Hp Hq Hn.
  apply andb_true_iff in Hp as [_ Hp]. apply andb_true_iff in Hq as [_ Hq].
  apply bool_decide_eq_true in Hp, Hq. rewrite <- Hp, <- Hq. now rewrite Hn.
Qed.

Lemma run_rows_cons (t : filesystem) (p : string) (l : list string) :
  run_rows t (p :: l)
  = match row_for t p with
    | Some tc => row_cells p tc :: run_rows t l
    | None => run_rows t l
    end.
Proof. unfold run_rows. cbn. now destruct (row_for t p). Qed.

Lemma blocked_local (t t' : filesystem) (p : string) :
  FS.lookup p t = FS.lookup p t' -> blocked t p = blocked t' p.
Proof. intros Hl. unfold blocked. now rewrite (row_for_local t t' p Hl). Qed.

Lemma looped_run (l : list string) :
  forall (n : Z) (s : State) (H0 : list string),
  Forall (in_folder source_folder) l -> Forall (in_folder source_folder) H0 ->
  (forall q, In q H0 -> q ∈ processed_files (app s)) ->
  settled dest_folder max_tokens t0 H0 (fs s) ->
  let r := looped csv_file dest_folder max_tokens l n s in
  let pl := plan (processed_files (app s)) l in
  let rd := ready t0 pl in
  settled dest_folder max_tokens t0 (H0 ++ rd) (fs r.2)
  /\ trace r.2 = trace s ++ run_events csv_file dest_folder max_tokens t0 rd n
                 ++ match stuck t0 pl with
                    | Some q => read_events t0 q
                    | None => []
                    end
  /\ reports r.2 = append_rows csv_file (run_rows t0 rd) (reports s)
  /\ r.1 = match stuck t0 pl with
           | Some _ => Raise (encode_error csv_file)
           | None => Ok (n + Z.of_nat (length rd))
           end
  /\ folder_input (app r.2) = folder_input (app s)
  /\ token_input (app r.2) = token_input (app s)
  /\ dest_input (app r.2) = dest_input (app s)
  /\ progress_maximum (app r.2) = progress_maximum (app s)
  /\ processed_files (app r.2) = list_to_set rd ∪ processed_files (app s)
  /\ progress_value (app r.2)
     = match rd with
       | [] => progress_value (app s)
       | _ => n + Z.of_nat (length rd)
       end
  /\ settings r.2 = settings s
  /\ now r.2 = now s.
Proof.
  induction l as [|p r IH]; intros n s H0 Hl HH Hdone Hset.
  - cbn. rewrite !app_nil_r, done_nil. repeat split; try apply Hset. f_equal. lia.
  - cbn [looped plan].
    apply Forall_cons in Hl as [Hp Hr].
    destruct (bool_decide (p ∈ processed_files (app s))) eqn:Hin.
    { now apply IH. }
    apply bool_decide_eq_false in Hin.
    pose proof (child_basename p Hp) as Hbase.
    assert (Hfresh : forall q, In q H0 -> ~ same_name q p).
    { intros q Hq Hn. apply Hin.
      rewrite <- (child_same_name q p); [now apply Hdone| |exact Hp|exact Hn].
      rewrite List.Forall_forall in HH. now apply HH. }
    assert (Hagree : agree (same_name p) (fs s) t0).
    { intros k Hk. apply Hset. intros q Hq Hn. apply (Hfresh q Hq).
      unfold same_name in *. congruence. }
    rewrite (blocked_local (fs s) t0 p (Hagree p (same_name_refl p))).
    cbn [ready stuck]. destruct (blocked t0 p) eqn:Hb.
    { cbn [fst snd run_events run_rows omap list_omap append_rows fold_left length
           List.app trace fs reports app settings now log_to with_trace].
      rewrite !app_nil_r, done_nil.
      rewrite (read_events_local (fs s) t0 p (Hagree p (same_name_refl p))).
      repeat split; apply Hset. }
    set (s1 := handled csv_file dest_folder max_tokens p n s).
    destruct (IH (n + 1) s1 (H0 ++ [p]))
      as (Hs' & Ht' & Hr' & Hn' & Hf1 & Hf2 & Hf3 & Hf4 & Hf5 & Hf6 & Hf7 & Hf8);
      try assumption.
    + apply Forall_app. split; [exact HH|]. now constructor.
    + intros q Hq. unfold s1. rewrite app_handled. cbn.
      apply in_app_iff in Hq as [Hq|[<-|[]]].
      * apply elem_of_union. right. now apply Hdone.
      * apply elem_of_union. left. now apply elem_of_singleton.
    + unfold s1. rewrite fs_handled. split.
      * intros k Hk. rewrite fs_step_other; [|exact Hbase|].
        -- apply Hset. intros q Hq. apply Hk. apply in_app_iff. now left.
        -- apply Hk. apply in_app_iff. right. now left.
      * intros q k Hq Hn. apply in_app_iff in Hq as [Hq|[<-|[]]].
        -- rewrite fs_step_other; [now apply Hset|exact Hbase|].
           intros Hpk. apply (Hfresh q Hq). unfold same_name in *. congruence.
        -- now apply fs_step_local.
    + pose proof (app_handled csv_file dest_folder max_tokens p n s) as Ha.
      pose proof (settings_handled csv_file dest_folder max_tokens p n s) as [Hse Hno].
      fold s1 in Ha, Hse, Hno.
      assert (Hpl : processed_files (app s1) = {[p]} ∪ processed_files (app s))
        by (now rewrite Ha).
      rewrite Hpl in Hs', Ht', Hr', Hn', Hf5, Hf6.
      rewrite Ha in Hf1, Hf2, Hf3, Hf4, Hf6.
      cbn [folder_input token_input dest_input progress_maximum progress_value]
        in Hf1, Hf2, Hf3, Hf4, Hf6.
      rewrite <- app_assoc in Hs'. cbn [List.app] in Hs'.
      split; [exact Hs'|]. split; [|split; [|split]].
      * rewrite Ht'. unfold s1. rewrite trace_handled. cbn [run_events].
        rewrite (events_step_local dest_folder max_tokens csv_file (fs s) t0 p n Hbase Hagree).
        now rewrite <- !app_assoc.
      * rewrite Hr'. unfold s1. rewrite reports_handled, run_rows_cons.
        rewrite (row_for_local (fs s) t0 p (Hagree p (same_name_refl p))).
        unfold blocked in Hb. now destruct (row_for t0 p).
      * rewrite Hn'. destruct (stuck t0 _); [reflexivity|]. cbn [length]. f_equal. lia.
      * split; [exact Hf1|]. split; [exact Hf2|]. split; [exact Hf3|]. split; [exact Hf4|].
        split; [|split; [|split; congruence]].
        -- rewrite Hf5. cbn [list_to_set]. apply set_eq. intros x.
           rewrite !elem_of_union. tauto.
        -- rewrite Hf6. cbn [length].
           destruct (ready t0 _); cbn [length]; lia.
Qed.

End Loop.

(** ** The scan of the source folder *)

Section Scan.
Import Lib.

Lemma scan_entries_eq (entries : list DirEntry) (acc : list string) :
  (scan_entries entries acc).1
  = acc ++ List.map path (List.filter keeps (readable_prefix entries)).
Proof.
  revert acc. induction entries as [|entry rest IH]; intros acc.
  - cbn. now rewrite app_nil_r.
  - cbn [scan_entries readable_prefix].
    destruct (is_file entry) as [e|regular] eqn:Hf.
    + cbn. now rewrite app_nil_r.
    + cbn [List.filter].
      assert (Hk : keeps entry = regular && Py.endswith (Py.lower (name entry)) ".epub")
        by (unfold keeps; now rewrite Hf).
      rewrite Hk.
      destruct (regular && Py.endswith (Py.lower (name entry)) ".epub").
      * rewrite IH. cbn [List.map]. now rewrite <- app_assoc.
      * now rewrite IH.
Qed.

Lemma readable_prefix_incl (entries : list DirEntry) (e : DirEntry) :
  In e (readable_prefix entries) -> In e entries.
Proof.
  induction entries as [|entry rest IH]; [easy|].
  cbn [readable_prefix]. destruct (is_file entry); [easy|].
  intros [<-|Hin]; [now left|right; now apply IH].
Qed.

Lemma os_scandir_entry (t : filesystem) (folder : string) (entries : list DirEntry)
    (e : DirEntry) :
  os_scandir t folder = inr entries -> In e entries ->
  FS.child_of folder (path e) = true
  /\ name e = Path.basename (path e)
  /\ In (path e, entry_node e) t.
Proof.
  unfold os_scandir.
  destruct (FS.lookup folder t) as [[? ? ?|[|] ?|]|]; try discriminate.
  intros [= <-] Hin. apply in_map_iff in Hin as ([k n] & <- & Hin).
  apply filter_In in Hin as [Hin Hc]. cbn [fst snd] in *.
  assert (Hk : Path.join folder (Path.basename k) = k).
  { unfold FS.child_of in Hc. apply andb_true_iff in Hc as [_ Hc].
    now apply bool_decide_eq_true in Hc. }
  cbn [path name entry_node]. rewrite Hk. repeat split; assumption.
Qed.

(** Every candidate is a regular file directly inside the folder whose name
    ends in [.epub], whatever the case of the letters. *)
Lemma candidates_sound (t : filesystem) (folder p : string) :
  In p (candidates t folder) ->
  FS.child_of folder p = true
  /\ Py.endswith (Py.lower (Path.basename p)) ".epub" = true
  /\ exists size book pinned, In (p, File size book pinned) t.
Proof.
  unfold candidates.
  destruct (os_scandir t folder) as [e|entries] eqn:Hs; [easy|].
  rewrite scan_entries_eq. cbn [List.app]. intros Hin.
  apply in_map_iff in Hin as (entry & <- & Hin).
  apply filter_In in Hin as [Hin Hk].
  apply readable_prefix_incl in Hin.
  destruct (os_scandir_entry t folder entries entry Hs Hin) as (Hc & Hn & Ht).
  unfold keeps, is_file in Hk.
  destruct (entry_node entry) as [size book pinned| |] eqn:He; try discriminate.
  cbn [andb] in Hk. rewrite Hn in Hk. repeat split; try assumption.
  now exists size, book, pinned.
Qed.

Lemma kept_paths_incl (entries : list DirEntry) (p : string) :
  In p (List.map path (List.filter keeps (readable_prefix entries))) ->
  In p (List.map path entries).
Proof.
  intros Hin. apply in_map_iff in Hin as (e & <- & Hin).
  apply filter_In in Hin as [Hin _]. apply in_map, readable_prefix_incl, Hin.
Qed.

Lemma kept_paths_NoDup (entries : list DirEntry) :
  List.NoDup (List.map path entries) ->
  List.NoDup (List.map path (List.filter keeps (readable_prefix entries))).
Proof.
  induction entries as [|e r IH]; [constructor|].
  cbn [List.map readable_prefix]. intros Hnd.
  apply List.NoDup_cons_iff in Hnd as [He Hr].
  destruct (is_file e); [constructor|].
  cbn [List.filter]. destruct (keeps e); [|now apply IH].
  cbn [List.map]. constructor; [|now apply IH].
  intros Hin. apply He. now apply kept_paths_incl.
Qed.

Lemma filter_keys_NoDup (f : string * node -> bool) (t : filesystem) :
  List.NoDup (List.map fst t) -> List.NoDup (List.map fst (List.filter f t)).
Proof.
  induction t as [|kn r IH]; [constructor|].
  cbn [List.map List.filter]. intros Hnd.
  apply List.NoDup_cons_iff in Hnd as [Hk Hr].
  destruct (f kn); [|now apply IH].
  cbn [List.map]. constructor; [|now apply IH].
  intros Hin. apply Hk. apply in_map_iff in Hin as (kn' & <- & Hin).
  apply filter_In in Hin as [Hin _]. now apply in_map.
Qed.

Lemma os_scandir_paths (t : filesystem) (folder : string) (entries : list DirEntry) :
  os_scandir t folder = inr entries ->
  List.map path entries
  = List.map fst (List.filter (fun kn => FS.child_of folder kn.1) t).
Proof.
  unfold os_scandir.
  destruct (FS.lookup folder t) as [[? ? ?|[|] ?|]|]; try discriminate.
  intros [= <-]. rewrite List.map_map. apply List.map_ext_in.
  intros [k n] Hin. apply filter_In in Hin as [_ Hc]. cbn [fst snd path] in *.
  unfold FS.child_of in Hc. apply andb_true_iff in Hc as [_ Hc].
  now apply bool_decide_eq_true in Hc.
Qed.

(** No path is a candidate twice when no path is bound twice. *)
Lemma candidates_NoDup (t : filesystem) (folder : string) :
  List.NoDup (List.map fst t) -> List.NoDup (candidates t folder).
Proof.
  intros Hnd. unfold candidates.
  destruct (os_scandir t folder) as [e|entries] eqn:Hs; [constructor|].
  rewrite scan_entries_eq. cbn [List.app]. apply kept_paths_NoDup.
  rewrite (os_scandir_paths t folder entries Hs). now apply filter_keys_NoDup.
Qed.

Lemma candidates_in_folder (t : filesystem) (folder : string) :
  Forall (in_folder folder) (candidates t folder).
Proof. apply List.Forall_forall. intros p Hp. now apply candidates_sound in Hp. Qed.

End Scan.

(** ** The plan of a run, its rows and its events *)

Section Plan.
Context `{Tokenizer}.
Import Lib.

Lemma plan_in (done : gset string) (l : list string) (p : string) :
  In p (plan done l) <-> In p l /\ p ∉ done.
Proof.
  revert done. induction l as [|q r IH]; intros done; [cbn; tauto|].
  cbn [plan In]. destruct (bool_decide (q ∈ done)) eqn:Hq.
  - apply bool_decide_eq_true in Hq. rewrite IH. split.
    + intros [Hin Hp]. now split; [right|].
    + intros [[<-|Hin] Hp]; [contradiction|now split].
  - apply bool_decide_eq_false in Hq. cbn [In]. rewrite IH. split.
    + intros [<-|[Hin Hp]]; [now split; [left|]|].
      split; [now right|]. intros Hd. apply Hp, elem_of_union. now right.
    + intros [[<-|Hin] Hp]; [now left|].
      destruct (decide (q = p)) as [->|Hne]; [now left|right].
      split; [exact Hin|]. intros Hd. apply elem_of_union in Hd as [Hd|Hd]; [|contradiction].
      apply elem_of_singleton in Hd. congruence.
Qed.

Lemma plan_length (done : gset string) (l : list string) :
  (length (plan done l) <= length l)%nat.
Proof.
  revert done. induction l as [|q r IH]; intros done; [cbn; lia|].
  cbn [plan]. destruct (bool_decide (q ∈ done)); cbn [length].
  - specialize (IH done). lia.
  - specialize (IH ({[q]} ∪ done)). lia.
Qed.

Lemma plan_fresh (l : list string) : List.NoDup l -> plan ∅ l = l.
Proof.
  assert (Hgen : forall done, List.NoDup l -> (forall p, In p l -> p ∉ done) ->
                              plan done l = l).
  { induction l as [|q r IH]; intros done Hnd Hd; [reflexivity|].
    cbn [plan]. rewrite bool_decide_eq_false_2 by (apply Hd; now left).
    f_equal. apply List.NoDup_cons_iff in Hnd as [Hq Hnd]. apply IH; [exact Hnd|].
    intros p Hp Hin. apply elem_of_union in Hin as [Hin|Hin].
    - apply elem_of_singleton in Hin. subst p. now apply Hq.
    - apply (Hd p); [now right|exact Hin]. }
  intros Hnd. apply Hgen; [exact Hnd|]. intros p _. apply not_elem_of_empty.
Qed.

Lemma run_rows_in (t : filesystem) (l : list string) (row : list cell) :
  In row (run_rows t l) <->
  exists p tc, In p l /\ row_for t p = Some tc /\ row = row_cells p tc.
Proof.
  induction l as [|q r IH].
  - cbn. split; [tauto|]. now intros (? & ? & [] & _).
  - rewrite run_rows_cons. destruct (row_for t q) as [tc|] eqn:Hq.
    + cbn [In]. rewrite IH. split.
      * intros [<-|(p & tc' & Hin & Hr & ->)].
        -- exists q, tc. repeat split; [now left|exact Hq].
        -- exists p, tc'. repeat split; [now right|exact Hr].
      * intros (p & tc' & [<-|Hin] & Hr & ->).
        -- left. congruence.
        -- right. now exists p, tc'.
    + rewrite IH. split.
      * intros (p & tc' & Hin & Hr & ->). exists p, tc'. repeat split; [now right|exact Hr].
      * intros (p & tc' & [<-|Hin] & Hr & ->); [congruence|]. now exists p, tc'.
Qed.

Lemma run_rows_length (t : filesystem) (l : list string) :
  (length (run_rows t l) <= length l)%nat.
Proof.
  induction l as [|q r IH]; [cbn; lia|].
  rewrite run_rows_cons. destruct (row_for t q); cbn [length]; lia.
Qed.

Lemma about_content_events (p : string) (book : EpubBook) (e : event) :
  In e (content_events book) -> ~ about p e.
Proof.
  unfold content_events. intros Hin. apply in_app_iff in Hin as [Hin|Hin].
  - apply in_flat_map in Hin as (item & _ & Hin). unfold item_events in Hin.
    destruct (is_markup item); [|easy].
    destruct (get_content item); [easy|]. destruct Hin as [<-|[]]. easy.
  - destruct (bool_decide _); [easy|]. unfold count_events in Hin.
    destruct (encoding_encode _); [|easy]. destruct Hin as [<-|[]]. easy.
Qed.

Lemma about_read_events (t : filesystem) (p q : string) (e : event) :
  In e (read_events t q) -> about p e -> q = p.
Proof.
  unfold read_events.
  destruct (FS.lookup q t) as [[size book pinned| |]|].
  - destruct (MAX_FILE_SIZE <? size).
    + intros [<-|[]]. easy.
    + destruct book as [b|].
      * intros [<-|Hin]; [easy|]. intros Ha. now apply (about_content_events p) in Hin.
      * intros [<-|[<-|[]]]; easy.
  - intros [<-|[<-|[]]]; easy.
  - intros [<-|[]]. easy.
  - intros [<-|[]]. easy.
Qed.

Lemma about_events_step (csv_file dest_folder : string) (max_tokens : Z)
    (t : filesystem) (p q : string) (n : Z) (e : event) :
  In e (events_step csv_file dest_folder max_tokens t q n) -> about p e -> q = p.
Proof.
  unfold events_step. intros Hin. apply in_app_iff in Hin as [Hin|Hin].
  { now apply (about_read_events t). }
  apply in_app_iff in Hin as [Hin|Hin].
  - destruct (row_for t q) as [tc|]; [|easy].
    destruct Hin as [<-|Hin]; [easy|].
    destruct (tc.2 <? max_tokens); [|easy].
    unfold move_events in Hin.
    destruct (move_result t q _); destruct Hin as [<-|[<-|[]]]; easy.
  - destruct Hin as [<-|[<-|[]]]; easy.
Qed.

(** The events of a run are about the files of its plan only. *)
Lemma about_run_events (csv_file dest_folder : string) (max_tokens : Z)
    (t : filesystem) (l : list string) (p : string) (n : Z) (e : event) :
  In e (run_events csv_file dest_folder max_tokens t l n) -> about p e -> In p l.
Proof.
  revert n. induction l as [|q r IH]; intros n; [easy|].
  cbn [run_events]. intros Hin Ha. apply in_app_iff in Hin as [Hin|Hin].
  - left. now apply (about_events_step _ _ _ _ _ _ _ _ Hin).
  - right. now apply (IH (n + 1)).
Qed.

Lemma report_lookup_create (p : string) (r : list (string * list (list cell))) :
  Report.lookup p (Report.create p r) = Some [].
Proof. unfold Report.create. cbn. now destruct (decide (p = p)). Qed.

Lemma report_lookup_append (p : string) (row : list cell)
    (r : list (string * list (list cell))) :
  Report.lookup p (Report.append p row r)
  = (fun rows => rows ++ [row]) <$> Report.lookup p r.
Proof.
  induction r as [|[k rows] r IH]; [reflexivity|].
  cbn [Report.append Report.lookup].
  destruct (decide (k = p)) as [->|Hk]; cbn [Report.lookup].
  - now destruct (decide (p = p)).
  - destruct (decide (k = p)); [congruence|]. exact IH.
Qed.

Lemma report_lookup_append_rows (p : string) (rows : list (list cell))
    (r : list (string * list (list cell))) :
  Report.lookup p (append_rows p rows r)
  = (fun old => old ++ rows) <$> Report.lookup p r.
Proof.
  revert r. induction rows as [|row rows IH]; intros r.
  - cbn. destruct (Report.lookup p r); cbn; [now rewrite app_nil_r|reflexivity].
  - cbn [append_rows fold_left]. fold (append_rows p rows (Report.append p row r)).
    rewrite IH, report_lookup_append.
    destruct (Report.lookup p r); cbn; [now rewrite <- app_assoc|reflexivity].
Qed.

End Plan.

(** ** A whole run *)

Section Run.
Context `{Tokenizer}.
Import Lib.

Lemma ready_all (t : filesystem) (l : list string) :
  (forall q, In q l -> blocked t q = false) -> ready t l = l /\ stuck t l = None.
Proof.
  induction l as [|p r IH]; intros Hall; [now split|].
  cbn [ready stuck]. rewrite (Hall p) by now left.
  destruct IH as [IH1 IH2]; [intros q Hq; apply Hall; now right|].
  now rewrite IH1, IH2.
Qed.

(** The list is made of the files that are ready, then the one that is
    stuck and the rest, if any is stuck. *)
Lemma ready_stuck (t : filesystem) (l : list string) :
  match stuck t l with
  | Some q => blocked t q = true /\ exists rest, l = ready t l ++ q :: rest
  | None => ready t l = l
  end.
Proof.
  induction l as [|p r IH]; [reflexivity|].
  cbn [ready stuck]. destruct (blocked t p) eqn:Hb.
  - split; [exact Hb|]. now exists r.
  - destruct (stuck t r) as [q|].
    + destruct IH as [Hq [rest Hr]]. split; [exact Hq|]. exists rest.
      cbn [List.app]. now rewrite <- Hr.
    + now rewrite IH.
Qed.

Lemma ready_in (t : filesystem) (l : list string) (p : string) :
  In p (ready t l) -> In p l /\ blocked t p = false.
Proof.
  induction l as [|q r IH]; [easy|].
  cbn [ready]. destruct (blocked t q) eqn:Hb; [easy|].
  intros [<-|Hin]; [split; [now left|exact Hb]|].
  destruct (IH Hin) as [Hr Hp]. split; [now right|exact Hp].
Qed.

Lemma ready_length (t : filesystem) (l : list string) :
  (length (ready t l) <= length l)%nat.
Proof.
  induction l as [|q r IH]; [cbn; lia|].
  cbn [ready]. destruct (blocked t q); cbn [length]; lia.
Qed.

Lemma stuck_in (t : filesystem) (l : list string) (q : string) :
  stuck t l = Some q -> In q l /\ blocked t q = true.
Proof.
  intros Hs. pose proof (ready_stuck t l) as Hr. rewrite Hs in Hr.
  destruct Hr as [Hb [rest Hl]]. split; [|exact Hb].
  rewrite Hl. apply in_app_iff. right. now left.
Qed.

Lemma plan_set (done : gset string) (l : list string) :
  list_to_set (plan done l) ∪ done = (list_to_set l ∪ done : gset string).
Proof.
  revert done. induction l as [|p r IH]; intros done; [reflexivity|].
  cbn [plan]. destruct (bool_decide (p ∈ done)) eqn:Hp.
  - apply bool_decide_eq_true in Hp. rewrite IH. symmetry. now apply done_skip.
  - rewrite !done_add. apply IH.
Qed.

Lemma all_writable_plan (s : State) :
  all_writable s ->
  forall q, In q (plan (processed_files (app s)) (candidates (fs s) (folder_input (app s)))) ->
            blocked (fs s) q = false.
Proof. intros Hw q Hq. apply Hw. now apply plan_in in Hq. Qed.

(** A run whose inputs are valid, that finds candidates and can create its
    report: the state it ends in, be it after the last candidate or at the
    first row that cannot be written. *)
Lemma run_loop (s : State) (t : Z) :
  valid_inputs s t ->
  candidates (fs s) (folder_input (app s)) <> [] ->
  can_open (fs s) (csv_path s) = true ->
  let l := candidates (fs s) (folder_input (app s)) in
  let pl := plan (processed_files (app s)) l in
  let rd := ready (fs s) pl in
  exists s',
    start_processing s
    = (match stuck (fs s) pl with
       | Some _ => Raise (encode_error (csv_path s))
       | None => Ok tt
       end, s')
    /\ trace s'
       = trace s
         ++ (scan_events (fs s) (folder_input (app s))
             ++ [SetMaximum (Z.of_nat (length l)); SetValue 0;
                 OpenCsv (csv_path s); WriteRow (csv_path s) header])
         ++ run_events (csv_path s) (dest_input (app s)) t (fs s) rd 0
         ++ match stuck (fs s) pl with
            | Some q => read_events (fs s) q
            | None => [MessageBox Information "Done"
                         (done_message (Z.of_nat (length rd)) (csv_path s))]
            end
    /\ Report.lookup (csv_path s) (reports s') = Some (header :: run_rows (fs s) rd)
    /\ settled (dest_input (app s)) t (fs s) rd (fs s')
    /\ processed_files (app s') = list_to_set rd ∪ processed_files (app s)
    /\ progress_maximum (app s') = Z.of_nat (length l)
    /\ progress_value (app s') = Z.of_nat (length rd)
    /\ folder_input (app s') = folder_input (app s)
    /\ token_input (app s') = token_input (app s)
    /\ dest_input (app s') = dest_input (app s)
    /\ settings s' = settings (saved s)
    /\ reports s'
       = append_rows (csv_path s) (run_rows (fs s) rd)
           (Report.append (csv_path s) header (Report.create (csv_path s) (reports s))).
Proof.
  intros Hv Hc Ho l pl rd. rewrite (start_processing_run s t Hv Hc Ho).
  fold l.
  assert (Hfs : fs (prepared s) = fs s) by reflexivity.
  assert (Hpf : processed_files (app (prepared s)) = processed_files (app s)) by reflexivity.
  destruct (looped_run (csv_path s) (dest_input (app s)) t (folder_input (app s))
              (fs s) l 0 (prepared s) [])
    as (Hset & Htr & Hrep & Hres & Hf1 & Hf2 & Hf3 & Hf4 & Hf5 & Hf6 & Hf7 & _).
  { apply candidates_in_folder. }
  { constructor. }
  { intros q []. }
  { rewrite Hfs. split; [reflexivity|intros q k []]. }
  rewrite Hpf in Hset, Htr, Hrep, Hres, Hf5, Hf6.
  fold pl in Hset, Htr, Hrep, Hres, Hf5, Hf6. fold rd in Hset, Htr, Hrep, Hres, Hf5, Hf6.
  cbn [List.app] in Hset.
  destruct (looped (csv_path s) (dest_input (app s)) t l 0 (prepared s)) as [res s1].
  cbn [fst snd] in *.
  assert (Htrace : trace s1
                   = trace s
                     ++ (scan_events (fs s) (folder_input (app s))
                         ++ [SetMaximum (Z.of_nat (length l)); SetValue 0;
                             OpenCsv (csv_path s); WriteRow (csv_path s) header])
                     ++ run_events (csv_path s) (dest_input (app s)) t (fs s) rd 0
                     ++ match stuck (fs s) pl with
                        | Some q => read_events (fs s) q
                        | None => []
                        end).
  { rewrite Htr. unfold prepared.
    cbn [trace log_to with_trace with_reports with_app saved with_settings].
    rewrite <- !app_assoc. reflexivity. }
  assert (Hreports : reports s1
                     = append_rows (csv_path s) (run_rows (fs s) rd)
                         (Report.append (csv_path s) header
                            (Report.create (csv_path s) (reports s)))).
  { rewrite Hrep. reflexivity. }
  assert (Hlook : Report.lookup (csv_path s) (reports s1)
                  = Some (header :: run_rows (fs s) rd)).
  { rewrite Hreports, report_lookup_append_rows.
    now rewrite report_lookup_append, report_lookup_create. }
  assert (Hval : progress_value (app s1) = Z.of_nat (length rd)).
  { rewrite Hf6. destruct rd; [reflexivity|lia]. }
  destruct (stuck (fs s) pl) as [q|]; subst res.
  - exists s1. split; [reflexivity|]. split; [exact Htrace|].
    repeat (split; [assumption|]). exact Hreports.
  - eexists. split; [reflexivity|].
    cbn [trace reports app fs settings log_to with_trace].
    split.
    { rewrite Htrace, Z.add_0_l. rewrite <- !app_assoc. cbn [List.app]. reflexivity. }
    repeat (split; [assumption|]). exact Hreports.
Qed.

(** A run whose inputs are valid, that finds candidates, can create its
    report and can write all its rows: the state it ends in. *)
Lemma run_complete (s : State) (t : Z) :
  valid_inputs s t ->
  candidates (fs s) (folder_input (app s)) <> [] ->
  can_open (fs s) (csv_path s) = true ->
  all_writable s ->
  let l := candidates (fs s) (folder_input (app s)) in
  let pl := plan (processed_files (app s)) l in
  exists s',
    start_processing s = (Ok tt, s')
    /\ trace s'
       = trace s
         ++ (scan_events (fs s) (folder_input (app s))
             ++ [SetMaximum (Z.of_nat (length l)); SetValue 0;
                 OpenCsv (csv_path s); WriteRow (csv_path s) header])
         ++ run_events (csv_path s) (dest_input (app s)) t (fs s) pl 0
         ++ [MessageBox Information "Done"
               (done_message (Z.of_nat (length pl)) (csv_path s))]
    /\ Report.lookup (csv_path s) (reports s') = Some (header :: run_rows (fs s) pl)
    /\ settled (dest_input (app s)) t (fs s) pl (fs s')
    /\ processed_files (app s') = list_to_set l ∪ processed_files (app s)
    /\ progress_maximum (app s') = Z.of_nat (length l)
    /\ progress_value (app s') = Z.of_nat (length pl).
Proof.
  intros Hv Hc Ho Hw l pl.
  destruct (run_loop s t Hv Hc Ho)
    as (s' & Hr & Htr & Hrep & Hset & Hdone & Hmax & Hval & _).
  destruct (ready_all (fs s) pl (all_writable_plan s Hw)) as [Hrd Hst].
  fold l pl in Hr, Htr, Hrep, Hset, Hdone, Hmax, Hval.
  rewrite Hrd in Htr, Hrep, Hset, Hdone, Hval. rewrite Hst in Hr, Htr.
  exists s'. split; [exact Hr|]. split; [exact Htr|]. split; [exact Hrep|].
  split; [exact Hset|]. split; [|split; [exact Hmax|exact Hval]].
  rewrite Hdone. apply plan_set.
Qed.

End Run.

(** ** Every run *)

Section Frame.
Context `{Tokenizer}.
Import Lib.

(** The four ways a run can go. *)
Lemma run_cases (s : State) :
  ((validation s).1 = false
   /\ start_processing s
      = (Ok tt, log_to [MessageBox Critical "Error" (validation s).2] (saved s)))
  \/ (exists t, valid_inputs s t
      /\ candidates (fs s) (folder_input (app s)) = []
      /\ start_processing s
         = (Ok tt, log_to (scan_events (fs s) (folder_input (app s))
                           ++ [MessageBox Warning "Warning" "No EPUB files found!"])
                     (saved s)))
  \/ (exists t e, valid_inputs s t
      /\ candidates (fs s) (folder_input (app s)) <> []
      /\ can_open (fs s) (csv_path s) = false
      /\ start_processing s = (Raise e, stopped s))
  \/ (exists t, valid_inputs s t
      /\ candidates (fs s) (folder_input (app s)) <> []
      /\ can_open (fs s) (csv_path s) = true).
Proof.
  destruct (validation s).1 eqn:Hv.
  - destruct (validation_valid_inputs s Hv) as [t Ht]. right.
    destruct (candidates (fs s) (folder_input (app s))) as [|p l] eqn:Hl.
    + left. exists t. split; [exact Ht|]. split; [reflexivity|].
      now apply start_processing_empty with (t := t).
    + right. destruct (can_open (fs s) (csv_path s)) eqn:Ho.
      * right. exists t. split; [exact Ht|]. split; [easy|reflexivity].
      * left. destruct (start_processing_refused s t Ht) as [e He]; [now rewrite Hl|exact Ho|].
        exists t, e. split; [exact Ht|]. split; [easy|]. split; [reflexivity|exact He].
  - left. split; [reflexivity|]. now apply start_processing_invalid.
Qed.

Lemma about_run_events_step (csv_file dest_folder : string) (max_tokens : Z)
    (t : filesystem) (l : list string) (p : string) (n : Z) (e : event) :
  In e (run_events csv_file dest_folder max_tokens t l n) -> about p e ->
  In p l /\ exists k, In e (events_step csv_file dest_folder max_tokens t p k).
Proof.
  revert n. induction l as [|q r IH]; intros n; [easy|].
  cbn [run_events]. intros Hin Ha. apply in_app_iff in Hin as [Hin|Hin].
  - pose proof (about_events_step _ _ _ _ _ _ _ _ Hin Ha) as ->.
    split; [now left|]. now exists n.
  - destruct (IH (n + 1) Hin Ha) as [Hp Hk]. split; [now right|exact Hk].
Qed.

(** What a run adds to the trace; its events about a file [p] belong to the
    iterations on the files that were ready, or to the reading of the file
    at which the run got stuck. *)
Lemma run_about_where (s : State) :
  exists evs,
    trace (start_processing s).2 = trace s ++ evs
    /\ forall p e, In e evs -> about p e ->
         exists t,
           valid_inputs s t
           /\ candidates (fs s) (folder_input (app s)) <> []
           /\ can_open (fs s) (csv_path s) = true
           /\ (In e (run_events (csv_path s) (dest_input (app s)) t (fs s)
                       (ready (fs s)
                          (plan (processed_files (app s))
                             (candidates (fs s) (folder_input (app s))))) 0)
               \/ (stuck (fs s)
                     (plan (processed_files (app s))
                        (candidates (fs s) (folder_input (app s)))) = Some p
                   /\ In e (read_events (fs s) p))).
Proof.
  destruct (run_cases s) as [[Hv Hr]|[(t & Hv & Hl & Hr)|[(t & e & Hv & Hl & Ho & Hr)|(t & Hv & Hl & Ho)]]].
  - rewrite Hr. eexists. split; [reflexivity|]. intros p e [<-|[]] Ha. easy.
  - rewrite Hr. eexists. split; [reflexivity|]. intros p e Hin Ha.
    apply in_app_iff in Hin as [Hin|[<-|[]]]; [|easy].
    unfold scan_events in Hin. destruct (scan_failure _ _); [|easy].
    destruct Hin as [<-|[]]. easy.
  - rewrite Hr. eexists. split; [reflexivity|]. intros p e0 Hin Ha.
    apply in_app_iff in Hin as [Hin|[<-|[<-|[]]]]; try easy.
    unfold scan_events in Hin. destruct (scan_failure _ _); [|easy].
    destruct Hin as [<-|[]]. easy.
  - destruct (run_loop s t Hv Hl Ho) as (s' & Hr & Htr & _).
    rewrite Hr. cbn [snd]. rewrite Htr. eexists. split; [reflexivity|].
    intros p e Hin Ha. exists t. split; [exact Hv|]. split; [exact Hl|].
    split; [exact Ho|].
    apply in_app_iff in Hin as [Hin|Hin].
    { exfalso. apply in_app_iff in Hin as [Hin|[<-|[<-|[<-|[<-|[]]]]]]; try easy.
      unfold scan_events in Hin. destruct (scan_failure _ _); [|easy].
      destruct Hin as [<-|[]]. easy. }
    apply in_app_iff in Hin as [Hin|Hin]; [now left|].
    destruct (stuck (fs s) _) as [q|] eqn:Hq.
    + right. pose proof (about_read_events (fs s) p q e Hin Ha) as ->. now split.
    + destruct Hin as [<-|[]]. easy.
Qed.

(** The events of a run about a file [p] belong to the iteration on [p],
    which is a file of the plan of a run that got as far as the loop. *)
Lemma run_about (s : State) :
  exists evs,
    trace (start_processing s).2 = trace s ++ evs
    /\ forall p e, In e evs -> about p e ->
         exists t k,
           valid_inputs s t
           /\ can_open (fs s) (csv_path s) = true
           /\ In p (plan (processed_files (app s)) (candidates (fs s) (folder_input (app s))))
           /\ In e (events_step (csv_path s) (dest_input (app s)) t (fs s) p k).
Proof.
  destruct (run_about_where s) as (evs & Htr & Hab).
  exists evs. split; [exact Htr|]. intros p e Hin Ha.
  destruct (Hab p e Hin Ha) as (t & Hv & _ & Ho & [Hrun|[Hst Hread]]).
  - destruct (about_run_events_step _ _ _ _ _ _ _ _ Hrun Ha) as [Hp [k Hk]].
    exists t, k. split; [exact Hv|]. split; [exact Ho|]. split; [|exact Hk].
    now apply ready_in in Hp.
  - exists t, 0. split; [exact Hv|]. split; [exact Ho|].
    split; [now apply stuck_in in Hst|].
    unfold events_step. apply in_app_iff. now left.
Qed.

(** A run never takes a path out of the set of processed files. *)
Lemma run_keeps_processed (s : State) :
  processed_files (app s) ⊆ processed_files (app (start_processing s).2).
Proof.
  destruct (run_cases s) as [[Hv Hr]|[(t & Hv & Hl & Hr)|[(t & e & Hv & Hl & Ho & Hr)|(t & Hv & Hl & Ho)]]].
  - now rewrite Hr.
  - now rewrite Hr.
  - now rewrite Hr.
  - destruct (run_loop s t Hv Hl Ho) as (s' & Hr & _ & _ & _ & Hdone & _).
    rewrite Hr. cbn [snd]. rewrite Hdone. apply union_subseteq_r.
Qed.

End Frame.

(** ** Auxiliary facts for the claims *)

Section Auxiliary.
Context `{Tokenizer}.
Import Lib.

Lemma plan_NoDup (done : gset string) (l : list string) : List.NoDup (plan done l).
Proof.
  revert done. induction l as [|q r IH]; intros done; [constructor|].
  cbn [plan]. destruct (bool_decide (q ∈ done)); [apply IH|].
  constructor; [|apply IH]. intros Hin. apply plan_in in Hin as [_ Hq].
  apply Hq, elem_of_union. left. now apply elem_of_singleton.
Qed.

Lemma in_split_once (p : string) (l : list string) :
  In p l -> List.NoDup l ->
  exists l1 l2, l = l1 ++ p :: l2 /\ ~ In p l1 /\ ~ In p l2.
Proof.
  intros Hin Hnd. destruct (in_split p l Hin) as (l1 & l2 & ->).
  exists l1, l2. split; [reflexivity|].
  apply List.NoDup_remove_2 in Hnd. split; intros Hp; apply Hnd, in_app_iff; tauto.
Qed.

Lemma run_events_app (csv_file dest_folder : string) (max_tokens : Z)
    (t : filesystem) (l1 l2 : list string) (n : Z) :
  run_events csv_file dest_folder max_tokens t (l1 ++ l2) n
  = run_events csv_file dest_folder max_tokens t l1 n
    ++ run_events csv_file dest_folder max_tokens t l2 (n + Z.of_nat (length l1)).
Proof.
  revert n. induction l1 as [|q r IH]; intros n.
  - cbn. now rewrite Z.add_0_r.
  - cbn [List.app run_events length]. rewrite IH, <- app_assoc.
    do 3 f_equal. lia.
Qed.

Lemma records_about (p : string) (e : event) : records p e -> about p e.
Proof. now destruct e. Qed.

Lemma moves_about (p : string) (e : event) : moves p e -> about p e.
Proof. now destruct e. Qed.

Lemma read_events_quiet (t : filesystem) (p q : string) (e : event) :
  In e (read_events t q) -> ~ records p e /\ ~ moves p e.
Proof.
  unfold read_events.
  destruct (FS.lookup q t) as [[size book pinned| |]|].
  - destruct (MAX_FILE_SIZE <? size).
    + intros [<-|[]]. easy.
    + destruct book as [b|].
      * intros [<-|Hin]; [easy|].
        pose proof (about_content_events p b e Hin) as Ha.
        split; intros Hr; apply Ha; [now apply records_about|now apply moves_about].
      * intros [<-|[<-|[]]]; easy.
  - intros [<-|[<-|[]]]; easy.
  - intros [<-|[]]. easy.
  - intros [<-|[]]. easy.
Qed.

Lemma read_events_no_move (t : filesystem) (p q d : string) :
  ~ In (Move p d) (read_events t q).
Proof.
  intros Hin. apply (read_events_quiet t p q) in Hin as [_ Hm]. now apply Hm.
Qed.

Lemma no_text (items : list EpubItem) :
  Forall (fun item => is_markup item = true -> fragment item = "") items ->
  extracted_text items = "".
Proof.
  induction 1 as [|item rest Hi _ IH]; [reflexivity|].
  rewrite extracted_text_cons. destruct (is_markup item); [|exact IH].
  now rewrite Hi, IH.
Qed.

Lemma row_for_classified (t : filesystem) (p title : string) (c : Z) :
  row_for t p = Some (title, c) <-> classified t p title c.
Proof.
  unfold row_for, read_result. split.
  - destruct (FS.lookup p t) as [[size book pinned| |]|] eqn:Hl; try discriminate.
    destruct (MAX_FILE_SIZE <? size) eqn:Hs; [discriminate|].
    destruct book as [b|]; [|discriminate].
    destruct (_get_epub_title b p) as [title'|] eqn:Ht; [|discriminate].
    unfold content_count, count_tokens.
    destruct (bool_decide (extracted_text (get_items b) = "")) eqn:He; [discriminate|].
    destruct (encoding_encode (extracted_text (get_items b))) as [e|tokens] eqn:Hk;
      [discriminate|].
    destruct (Py.truthy_str (Some title') && Py.truthy_int _) eqn:Htr; [|discriminate].
    intros [= -> <-]. apply andb_true_iff in Htr as [Htitle Hc].
    apply (Classified t p title _ size b pinned tokens); try assumption; try reflexivity.
    + apply Z.ltb_ge in Hs. exact Hs.
    + cbn in Htitle. apply negb_true_iff, bool_decide_eq_false in Htitle. exact Htitle.
    + now apply bool_decide_eq_false in He.
    + cbn in Hc. apply negb_true_iff, Z.eqb_neq in Hc. exact Hc.
  - intros [size b pinned tokens Hl Hs Ht Htitle He Hk -> Hc].
    rewrite Hl. apply Z.ltb_ge in Hs. rewrite Hs, Ht.
    unfold content_count, count_tokens.
    rewrite bool_decide_eq_false_2 by exact He. rewrite Hk.
    cbn [Py.truthy_str Py.truthy_int].
    rewrite bool_decide_eq_false_2 by exact Htitle.
    apply Z.eqb_neq in Hc. now rewrite Hc.
Qed.

Lemma move_result_inr (t t' : filesystem) (p dst : string) :
  move_result t p dst = inr t' ->
  exists size book,
    FS.lookup p t = Some (File size book false)
    /\ t' = FS.bind (real_dst t p dst) (File size book false) (FS.remove p t).
Proof.
  unfold move_result.
  destruct (FS.is_dir t dst && FS.statable t _); [discriminate|].
  destruct (FS.lookup p t) as [[size book [|]| |]|]; try discriminate.
  intros [= <-]. now exists size, book.
Qed.

Lemma row_for_read (t : filesystem) (p title : string) (c : Z) :
  row_for t p = Some (title, c)
  <-> read_result t p = (Some title, Some c) /\ title <> "" /\ c <> 0.
Proof.
  unfold row_for. destruct (read_result t p) as [[title'|] [c'|]].
  2-4: split; [discriminate|now intros [[=] _]].
  cbn [Py.truthy_str Py.truthy_int]. split.
  - destruct (negb (bool_decide (title' = "")) && negb (c' =? 0)) eqn:Ht; [|discriminate].
    intros [= -> ->]. apply andb_true_iff in Ht as [Ht Hc].
    apply negb_true_iff, bool_decide_eq_false in Ht. apply negb_true_iff, Z.eqb_neq in Hc.
    easy.
  - intros [[= -> ->] [Ht Hc]]. rewrite bool_decide_eq_false_2 by exact Ht.
    apply Z.eqb_neq in Hc. now rewrite Hc.
Qed.

(** A candidate that is already in the set of processed files makes the plan
    shorter than the list of candidates. *)
Lemma plan_length_lt (done : gset string) (l : list string) (p : string) :
  In p l -> p ∈ done -> (length (plan done l) < length l)%nat.
Proof.
  revert done. induction l as [|q r IH]; intros done; [easy|].
  intros Hin Hp. cbn [plan]. destruct (bool_decide (q ∈ done)) eqn:Hq.
  - pose proof (plan_length done r). cbn [length]. lia.
  - apply bool_decide_eq_false in Hq. destruct Hin as [->|Hin]; [contradiction|].
    cbn [length]. apply -> Nat.succ_lt_mono. apply IH; [exact Hin|].
    apply elem_of_union. now right.
Qed.

(** A folder and another one give a file of the first two different paths. *)
Lemma dest_path_differs (source_folder dest_folder p : string) :
  folders_apart source_folder dest_folder ->
  FS.child_of source_folder p = true ->
  dest_path dest_folder p <> p.
Proof.
  intros (Hs & Hd & Hne) Hc Heq. unfold FS.child_of in Hc.
  apply andb_true_iff in Hc as [_ Hj]. apply bool_decide_eq_true in Hj.
  apply Hne. apply (join_normal_inj _ _ (Path.basename p) Hd Hs (has_sep_basename p)).
  unfold dest_path in Heq. congruence.
Qed.

(** A move that succeeds between two folders takes the file somewhere else. *)
Lemma real_dst_differs (t t' : filesystem) (source_folder dest_folder p : string) :
  folders_apart source_folder dest_folder ->
  FS.child_of source_folder p = true ->
  move_result t p (dest_path dest_folder p) = inr t' ->
  real_dst t p (dest_path dest_folder p) <> p.
Proof.
  intros Hap Hc. unfold move_result, real_dst.
  destruct (FS.is_dir t (dest_path dest_folder p)) eqn:Hd.
  - cbn [andb]. destruct (FS.statable t _) eqn:Hst; [discriminate|].
    intros Hm Heq. rewrite Heq in Hst. unfold FS.statable in Hst.
    destruct (FS.lookup p t) as [[size book [|]| |]|]; discriminate.
  - intros _. now apply (dest_path_differs source_folder).
Qed.

(** The events of a run, cut at the iteration on a file of its plan. *)
Lemma run_events_cut (csv_file dest_folder : string) (max_tokens : Z)
    (t : filesystem) (done : gset string) (l : list string) (p : string) :
  In p (plan done l) ->
  exists l1 l2,
    plan done l = l1 ++ p :: l2 /\ ~ In p l1 /\ ~ In p l2
    /\ run_events csv_file dest_folder max_tokens t (plan done l) 0
       = run_events csv_file dest_folder max_tokens t l1 0
         ++ events_step csv_file dest_folder max_tokens t p (Z.of_nat (length l1))
         ++ run_events csv_file dest_folder max_tokens t l2 (Z.of_nat (length l1) + 1).
Proof.
  intros Hin.
  destruct (in_split_once p _ Hin (plan_NoDup done l)) as (l1 & l2 & Heq & H1 & H2).
  exists l1, l2. split; [exact Heq|]. split; [exact H1|]. split; [exact H2|].
  rewrite Heq, run_events_app. cbn [run_events]. now rewrite Z.add_0_l.
Qed.

End Auxiliary.

(** * The claims *)

Section Claims.
Context `{Tokenizer}.
Import Lib.

(** C6. [validate_inputs] accepts the inputs exactly when the threshold,
    commas removed, parses to a positive integer and the source and the
    destination folder both exist; it changes nothing. When it refuses, the
    run comes to one error box and nothing else: no file is moved, no report
    is created, the instance is as it was. *)
Theorem C6_validation_gate (s : State) :
  exists ok msg,
    validate_inputs s = (Ok (ok, msg), s)
    /\ (ok = true <->
        exists t, Py.int (Py.str_remove "," (token_input (app s))) = Some t
                  /\ 0 < t
                  /\ FS.statable (fs s) (folder_input (app s)) = true
                  /\ FS.statable (fs s) (dest_input (app s)) = true)
    /\ (ok = false ->
        exists s', start_processing s = (Ok tt, s')
                   /\ trace s' = trace s ++ [MessageBox Critical "Error" msg]
                   /\ fs s' = fs s
                   /\ reports s' = reports s
                   /\ app s' = app s).
Proof.
  exists (validation s).1, (validation s).2.
  split; [|split].
  - rewrite validate_inputs_run. now destruct (validation s).
  - split.
    + intros Hv. destruct (validation_valid_inputs s Hv) as [t Ht]. now exists t.
    + intros [t Ht]. now rewrite (valid_inputs_validation s t Ht).
  - intros Hv. rewrite (start_processing_invalid s Hv). eexists. split; [reflexivity|].
    now repeat split.
Qed.

(** C7. When the scan of the source folder finds no candidate, the run ends
    at once with the warning box (after the log line of a failed scan, if
    any): no report is created, no file is touched, the instance is as it
    was. *)
Theorem C7_nothing_to_do (s : State) (t : Z) :
  valid_inputs s t ->
  (get_epub_files (folder_input (app s)) s).1 = Ok [] ->
  exists s' log,
    start_processing s = (Ok tt, s')
    /\ reports s' = reports s
    /\ fs s' = fs s
    /\ app s' = app s
    /\ trace s' = trace s ++ log
                  ++ [MessageBox Warning "Warning" "No EPUB files found!"]
    /\ Forall (fun e => exists msg, e = Log ERROR msg) log.
Proof.
  intros Hv Hc. rewrite get_epub_files_run in Hc. cbn [fst] in Hc.
  injection Hc as Hc.
  rewrite (start_processing_empty s t Hv Hc).
  exists (log_to (scan_events (fs s) (folder_input (app s))
                  ++ [MessageBox Warning "Warning" "No EPUB files found!"]) (saved s)),
         (scan_events (fs s) (folder_input (app s))).
  split; [reflexivity|]. split; [reflexivity|]. split; [reflexivity|].
  split; [reflexivity|]. split; [reflexivity|].
  unfold scan_events. destruct (scan_failure _ _) as [e|]; [|constructor].
  constructor; [|constructor]. now eexists.
Qed.

(** C8 (amended). [get_epub_files] never fails the run and touches
    nothing. Every path it returns is a regular file directly inside the
    folder whose name ends in [.epub], whatever the case of the letters.
    When the folder cannot be listed at all the result is empty; when the
    enumeration breaks at an entry whose status cannot be read, the result
    holds the candidates enumerated before that entry. *)
Theorem C8_candidates (folder : string) (s : State) :
  exists l s',
    get_epub_files folder s = (Ok l, s')
    /\ fs s' = fs s /\ reports s' = reports s /\ app s' = app s
    /\ (forall p, In p l ->
          in_folder folder p
          /\ Py.endswith (Py.lower (Path.basename p)) ".epub" = true
          /\ exists size book pinned, In (p, File size book pinned) (fs s))
    /\ (forall e, os_scandir (fs s) folder = inl e -> l = [])
    /\ (forall entries, os_scandir (fs s) folder = inr entries ->
          l = List.map path (List.filter keeps (readable_prefix entries))).
Proof.
  rewrite get_epub_files_run. eexists _, _. split; [reflexivity|].
  split; [reflexivity|]. split; [reflexivity|]. split; [reflexivity|].
  split; [|split].
  - intros p Hp. now apply candidates_sound.
  - intros e He. unfold candidates. now rewrite He.
  - intros entries He. unfold candidates. rewrite He. now rewrite scan_entries_eq.
Qed.

(** C10. The text of a book is the concatenation, in the order of the
    container, of the decoded contents of the items whose media type is
    exactly [application/xhtml+xml]; an item of any other type changes
    neither the text nor anything else; each content is decoded on its own,
    and decoding only drops bytes. *)
Theorem C10_xhtml_items_only (book : EpubBook) (s : State) :
  exists s',
    extract_text (get_items book) "" s = (Ok (extracted_text (get_items book)), s')
    /\ fs s' = fs s
    /\ extracted_text (get_items book)
       = fold_right String.append ""
           (List.map fragment
              (List.filter
                 (fun item => bool_decide (media_type item = "application/xhtml+xml"))
                 (get_items book)))
    /\ (forall item b, get_content item = inl b ->
          fragment item = string_of_list_byte (Utf8.decode_ignore b)
          /\ Utf8.decode_ignore b `sublist_of` b)
    /\ (forall item msg, get_content item = inr msg -> fragment item = "")
    /\ (forall pre item post,
          get_items book = pre ++ item :: post ->
          media_type item <> "application/xhtml+xml" ->
          extract_text (get_items book) "" s = extract_text (pre ++ post) "" s).
Proof.
  rewrite extract_text_run. eexists. split; [reflexivity|].
  split; [reflexivity|]. split; [reflexivity|]. split; [|split].
  - intros item b Hb. unfold fragment. rewrite Hb. split; [reflexivity|].
    apply decode_ignore_sublist.
  - intros item msg Hm. unfold fragment. now rewrite Hm.
  - intros pre item post -> Hm. rewrite !extract_text_run.
    assert (Hi : is_markup item = false) by (now apply bool_decide_eq_false).
    unfold extracted_text. rewrite !List.filter_app, !flat_map_app. cbn [List.filter flat_map].
    unfold item_events at 2. rewrite Hi. reflexivity.
Qed.

(** C2 (amended). A run with valid inputs that finds candidates, can create
    its report and can encode every row it has to write leaves, under the
    header row, exactly one row for each file it handled for which
    [process_epub] gave a title that is not empty and a token count that is
    not zero, in the order of handling, each made of the title, the token
    count and the original path. The files it handles are the candidates
    that are not yet in the set of processed files: all of them for a new
    instance. The rows do not depend on the threshold, and there are at most
    as many as candidates. *)
Theorem C2_one_row_per_counted_file (s : State) (t : Z) :
  valid_inputs s t ->
  candidates (fs s) (folder_input (app s)) <> [] ->
  can_open (fs s) (csv_path s) = true ->
  all_writable s ->
  let l := candidates (fs s) (folder_input (app s)) in
  let handled_files := plan (processed_files (app s)) l in
  exists s' rows,
    start_processing s = (Ok tt, s')
    /\ Report.lookup (csv_path s) (reports s') = Some (header :: rows)
    /\ rows = omap (fun p => (fun tc => [CStr tc.1; CInt tc.2; CStr p]) <$> row_for (fs s) p)
                   handled_files
    /\ (forall p title c,
          row_for (fs s) p = Some (title, c)
          <-> (process_epub p s).1 = Ok (Some title, Some c) /\ title <> "" /\ c <> 0)
    /\ (forall p title c, row_for (fs s) p = Some (title, c) <-> classified (fs s) p title c)
    /\ (forall p, In p handled_files <-> In p l /\ p ∉ processed_files (app s))
    /\ (processed_files (app s) = ∅ -> List.NoDup (List.map fst (fs s)) ->
        handled_files = l)
    /\ (length rows <= length l)%nat.
Proof.
  intros Hv Hc Ho Hw l pl.
  destruct (run_complete s t Hv Hc Ho Hw) as (s' & Hr & _ & Hrep & _).
  exists s', (run_rows (fs s) pl). split; [exact Hr|]. split; [exact Hrep|].
  split; [reflexivity|]. split; [|split; [|split; [|split]]].
  - intros p title c. rewrite process_epub_run. cbn [fst]. rewrite row_for_read.
    split.
    + intros (-> & Ht & Hn). easy.
    + intros ([= ->] & Ht & Hn). easy.
  - intros p title c. apply row_for_classified.
  - intros p. apply plan_in.
  - intros Hempty Hnd. unfold pl. rewrite Hempty. apply plan_fresh.
    now apply candidates_NoDup.
  - etransitivity; [apply run_rows_length|apply plan_length].
Qed.

(** C5. A book from which no markup text is extracted gets no report row and
    is not relocated, in any run: no event of the run writes a row for it or
    moves it, and the report of the run, if the run writes one, has no row
    for it. *)
Theorem C5_no_text_no_row (s : State) (p : string) (size : Z) (book : EpubBook)
    (pinned : bool) :
  FS.lookup p (fs s) = Some (File size (Some book) pinned) ->
  Forall (fun item => is_markup item = true -> fragment item = "") (get_items book) ->
  exists evs,
    trace (start_processing s).2 = trace s ++ evs
    /\ (forall e, In e evs -> ~ records p e /\ ~ moves p e)
    /\ (reports (start_processing s).2 = reports s
        \/ exists rows,
             Report.lookup (csv_path s) (reports (start_processing s).2) = Some rows
             /\ forall row, In row rows -> ~ row_of p row).
Proof.
  intros Hl Hitems.
  assert (Hrow : row_for (fs s) p = None).
  { unfold row_for, read_result. rewrite Hl.
    destruct (MAX_FILE_SIZE <? size); [reflexivity|].
    unfold content_count. rewrite (no_text _ Hitems).
    rewrite bool_decide_eq_true_2 by reflexivity.
    now destruct (_get_epub_title book p). }
  destruct (run_about s) as (evs & Htr & Hab).
  exists evs. split; [exact Htr|]. split.
  - intros e Hin.
    assert (Hq : about p e -> ~ records p e /\ ~ moves p e).
    { intros Ha. destruct (Hab p e Hin Ha) as (t & k & _ & _ & _ & Hstep).
      unfold events_step in Hstep. rewrite Hrow in Hstep.
      apply in_app_iff in Hstep as [Hstep|Hstep].
      - now apply (read_events_quiet (fs s) p p).
      - cbn in Hstep. destruct Hstep as [<-|[<-|[]]]; easy. }
    split; intros Hr.
    + now apply (proj1 (Hq (records_about p e Hr))).
    + now apply (proj2 (Hq (moves_about p e Hr))).
  - destruct (run_cases s)
      as [[Hv Hr]|[(t & Hv & Hc & Hr)|[(t & e & Hv & Hc & Ho & Hr)|(t & Hv & Hc & Ho)]]].
    + left. now rewrite Hr.
    + left. now rewrite Hr.
    + left. now rewrite Hr.
    + right. destruct (run_loop s t Hv Hc Ho) as (s' & Hr & _ & Hrep & _).
      rewrite Hr. cbn [snd]. eexists. split; [exact Hrep|].
      intros row [<-|Hin]; [easy|].
      apply run_rows_in in Hin as (q & tc & _ & Hq & ->).
      cbn. intros <-. congruence.
Qed.

(** C9 (amended). The set of processed files belongs to the instance: it is
    empty when the instance is created, whatever the stored preferences, and
    is kept nowhere else. A run does not empty it: no path leaves the set,
    and a path that is in the set when a run starts is skipped by that run
    without a trace: not opened, no row, not moved. *)
Theorem C9_processed_set_of_the_instance (s : State) :
  (forall st, processed_files (__init__ st) = ∅)
  /\ processed_files (app s) ⊆ processed_files (app (start_processing s).2)
  /\ exists evs,
       trace (start_processing s).2 = trace s ++ evs
       /\ forall p e, p ∈ processed_files (app s) -> In e evs -> ~ about p e.
Proof.
  split; [reflexivity|]. split; [apply run_keeps_processed|].
  destruct (run_about s) as (evs & Htr & Hab).
  exists evs. split; [exact Htr|]. intros p e Hp Hin Ha.
  destruct (Hab p e Hin Ha) as (t & k & _ & _ & Hplan & _).
  apply plan_in in Hplan as [_ Hnp]. contradiction.
Qed.

(** C4 (amended). Take a run with valid inputs that can create its report
    and can encode every row it has to write, and a candidate above the size
    limit. The run ends normally; the file stays where it is, the report has
    no row for it, and it is in the set of processed files afterwards. When
    the file is not yet in the set of processed files it is turned down
    without being opened: the warning is followed at once by the advance of
    the progress bar, and nothing else in the run is about the file. When it
    is already in the set, no event of the run is about it and it is not
    counted: the progress bar ends below its maximum. *)
Theorem C4_oversized_is_counted_unopened (s : State) (t : Z) (p : string)
    (size : Z) (book : option EpubBook) (pinned : bool) :
  valid_inputs s t ->
  can_open (fs s) (csv_path s) = true ->
  all_writable s ->
  In p (candidates (fs s) (folder_input (app s))) ->
  FS.lookup p (fs s) = Some (File size book pinned) ->
  MAX_FILE_SIZE < size ->
  exists s' evs,
    start_processing s = (Ok tt, s')
    /\ trace s' = trace s ++ evs
    /\ (p ∉ processed_files (app s) -> counted_unopened p s s')
    /\ (p ∈ processed_files (app s) ->
        (forall e, In e evs -> ~ about p e)
        /\ progress_value (app s') < progress_maximum (app s'))
    /\ FS.lookup p (fs s') = FS.lookup p (fs s)
    /\ (forall rows, Report.lookup (csv_path s) (reports s') = Some rows ->
          forall row, In row rows -> ~ row_of p row)
    /\ p ∈ processed_files (app s').
Proof.
  intros Hv Ho Hw Hin Hl Hsize.
  assert (Hc : candidates (fs s) (folder_input (app s)) <> []) by (intros Heq; now rewrite Heq in Hin).
  destruct (run_complete s t Hv Hc Ho Hw) as (s' & Hr & Htr & Hrep & Hset & Hdone & Hmax & Hval).
  assert (Hrow : row_for (fs s) p = None).
  { unfold row_for, read_result. rewrite Hl. apply Z.ltb_lt in Hsize. now rewrite Hsize. }
  assert (Hev : forall k, events_step (csv_path s) (dest_input (app s)) t (fs s) p k
                = [Log WARNING ("File too large: " +:+ p); SetValue (k + 1); ProcessEvents]).
  { intros k. unfold events_step, read_events. rewrite Hrow, Hl.
    apply Z.ltb_lt in Hsize. now rewrite Hsize. }
  assert (Hpre : forall e,
            In e (scan_events (fs s) (folder_input (app s))
                  ++ [SetMaximum (Z.of_nat (length (candidates (fs s) (folder_input (app s)))));
                      SetValue 0; OpenCsv (csv_path s); WriteRow (csv_path s) header]) ->
            ~ about p e).
  { intros e He. apply in_app_iff in He as [He|[<-|[<-|[<-|[<-|[]]]]]]; try easy.
    unfold scan_events in He. destruct (scan_failure _ _); [|easy].
    destruct He as [<-|[]]. easy. }
  exists s'. eexists. split; [exact Hr|]. split; [exact Htr|].
  split; [|split; [|split; [|split]]].
  - intros Hnew.
    assert (Hplan : In p (plan (processed_files (app s)) (candidates (fs s) (folder_input (app s)))))
      by (now apply plan_in).
    destruct (run_events_cut (csv_path s) (dest_input (app s)) t (fs s) _ _ p Hplan)
      as (l1 & l2 & Heq & H1 & H2 & Hcut).
    rewrite Hcut, Hev in Htr.
    exists ((scan_events (fs s) (folder_input (app s))
             ++ [SetMaximum (Z.of_nat (length (candidates (fs s) (folder_input (app s)))));
                 SetValue 0; OpenCsv (csv_path s); WriteRow (csv_path s) header])
            ++ run_events (csv_path s) (dest_input (app s)) t (fs s) l1 0),
           (run_events (csv_path s) (dest_input (app s)) t (fs s) l2 (Z.of_nat (length l1) + 1)
            ++ [MessageBox Information "Done"
                  (done_message
                     (Z.of_nat (length (plan (processed_files (app s))
                                          (candidates (fs s) (folder_input (app s))))))
                     (csv_path s))]),
           (Z.of_nat (length l1)).
    split; [|split; [lia|]].
    + rewrite Htr. rewrite <- !app_assoc. reflexivity.
    + intros e He Ha. apply in_app_iff in He as [He|He].
      * apply in_app_iff in He as [He|He].
        -- now apply (Hpre e).
        -- apply H1. now apply (about_run_events _ _ _ _ _ _ _ _ He).
      * apply in_app_iff in He as [He|[<-|[]]]; [|easy].
        apply H2. now apply (about_run_events _ _ _ _ _ _ _ _ He).
  - intros Hold. split.
    + intros e He Ha. apply in_app_iff in He as [He|He]; [now apply (Hpre e)|].
      apply in_app_iff in He as [He|[<-|[]]]; [|easy].
      apply (about_run_events _ _ _ _ _ _ _ _ He) in Ha.
      apply plan_in in Ha as [_ Hnp]. contradiction.
    + rewrite Hval, Hmax. apply inj_lt. now apply (plan_length_lt _ _ p).
  - destruct (decide (p ∈ processed_files (app s))) as [Hold|Hnew].
    + destruct Hset as [Hout _]. apply Hout. intros q Hq Hsame.
      apply plan_in in Hq as [Hq Hnq].
      assert (q = p); [|congruence].
      apply (child_same_name (folder_input (app s))); [| |exact Hsame].
      * now apply candidates_sound in Hq.
      * now apply candidates_sound in Hin.
    + assert (Hplan : In p (plan (processed_files (app s))
                              (candidates (fs s) (folder_input (app s)))))
        by (now apply plan_in).
      destruct Hset as [_ Hset]. rewrite (Hset p p Hplan (same_name_refl p)).
      unfold fs_step. now rewrite Hrow.
  - intros rows Hrows row Hrin. rewrite Hrep in Hrows. injection Hrows as <-.
    destruct Hrin as [<-|Hrin]; [easy|].
    apply run_rows_in in Hrin as (q & tc & _ & Hq & ->). cbn. intros <-. congruence.
  - rewrite Hdone. apply elem_of_union. left. apply elem_of_list_to_set.
    now apply list_elem_of_In.
Qed.

(** C1 (amended). Take a run with valid inputs that can create its report
    and can encode every row it has to write, and a candidate that the run
    handles and for which [process_epub] gave a title that is not empty and
    a count [c] that is not zero. Its relocation to the destination folder,
    under its base name, is attempted if and only if [c] is strictly below
    the threshold. When it is attempted and [shutil.move] succeeds the file
    is at the place [shutil.move] put it and, when the source and the
    destination are two folders written in normal form, it is gone from its
    original path; when it is not attempted (in particular when [c] equals
    the threshold) the file and the destination are as they were; when
    [shutil.move] fails the file stays where it is. So, for two folders
    written in normal form, the file has moved if and only if [c] is below
    the threshold and [shutil.move] succeeds. *)
Theorem C1_threshold_decision (s : State) (t : Z) (p title : string) (c : Z) :
  valid_inputs s t ->
  can_open (fs s) (csv_path s) = true ->
  all_writable s ->
  In p (candidates (fs s) (folder_input (app s))) ->
  p ∉ processed_files (app s) ->
  classified (fs s) p title c ->
  let dst := dest_path (dest_input (app s)) p in
  exists s' evs,
    start_processing s = (Ok tt, s')
    /\ trace s' = trace s ++ evs
    /\ (In (Move p dst) evs <-> c < t)
    /\ (forall d, In (Move p d) evs -> d = dst)
    /\ (forall t', c < t -> move_result (fs s) p dst = inr t' ->
          FS.lookup (real_dst (fs s) p dst) (fs s') = FS.lookup p (fs s)
          /\ (folders_apart (folder_input (app s)) (dest_input (app s)) ->
              FS.lookup p (fs s') = None))
    /\ (t <= c ->
        FS.lookup p (fs s') = FS.lookup p (fs s)
        /\ FS.lookup dst (fs s') = FS.lookup dst (fs s))
    /\ ((exists e, move_result (fs s) p dst = inl e) ->
        FS.lookup p (fs s') = FS.lookup p (fs s))
    /\ (folders_apart (folder_input (app s)) (dest_input (app s)) ->
        (moved_file p (real_dst (fs s) p dst) (fs s) (fs s')
         <-> c < t /\ exists t', move_result (fs s) p dst = inr t')).
Proof.
  intros Hv Ho Hw Hin Hnew Hcl dst.
  assert (Hfile : exists size book pinned, FS.lookup p (fs s) = Some (File size book pinned)).
  { destruct Hcl as [size book pinned tokens Hl _ _ _ _ _ _ _]. now exists size, (Some book), pinned. }
  assert (Hc : candidates (fs s) (folder_input (app s)) <> []) by (intros Heq; now rewrite Heq in Hin).
  destruct (run_complete s t Hv Hc Ho Hw) as (s' & Hr & Htr & _ & Hset & _).
  assert (Hplan : In p (plan (processed_files (app s)) (candidates (fs s) (folder_input (app s)))))
    by (now apply plan_in).
  assert (Hchild : FS.child_of (folder_input (app s)) p = true)
    by (now apply candidates_sound in Hin).
  assert (Hbase : Path.basename p <> "").
  { now apply (child_basename (folder_input (app s))). }
  apply row_for_classified in Hcl.
  assert (Hev : forall k, events_step (csv_path s) (dest_input (app s)) t (fs s) p k
                = read_events (fs s) p
                  ++ (WriteRow (csv_path s) [CStr title; CInt c; CStr p]
                      :: (if c <? t then move_events (dest_input (app s)) (fs s) p c else []))
                  ++ [SetValue (k + 1); ProcessEvents]).
  { intros k. unfold events_step. now rewrite Hcl. }
  assert (Hfs : forall k, same_name p k ->
            FS.lookup k (fs s')
            = FS.lookup k (if c <? t then
                             match move_result (fs s) p dst with
                             | inr t' => t'
                             | inl _ => fs s
                             end
                           else fs s)).
  { intros k Hk. destruct Hset as [_ Hset]. rewrite (Hset p k Hplan Hk).
    unfold fs_step. now rewrite Hcl. }
  assert (Hmoved : forall t', c < t -> move_result (fs s) p dst = inr t' ->
            FS.lookup (real_dst (fs s) p dst) (fs s') = FS.lookup p (fs s)
            /\ (folders_apart (folder_input (app s)) (dest_input (app s)) ->
                FS.lookup p (fs s') = None)).
  { intros t' Hlt Hm. apply Z.ltb_lt in Hlt.
    pose proof (fun Hap => real_dst_differs _ _ _ _ _ Hap Hchild Hm) as Hne.
    destruct (move_result_inr _ _ _ _ Hm) as (size & book & Hl & ->).
    split.
    - rewrite Hfs by (now apply same_name_real_dst). rewrite Hlt, Hm, Hl.
      apply lookup_bind_eq.
    - intros Hap. specialize (Hne Hap). rewrite Hfs by apply same_name_refl.
      rewrite Hlt, Hm.
      rewrite lookup_bind_ne by (intros Heq; apply Hne; symmetry; exact Heq).
      apply lookup_remove_eq. }
  assert (Hstays : t <= c \/ (exists e, move_result (fs s) p dst = inl e) ->
            FS.lookup p (fs s') = FS.lookup p (fs s)
            /\ FS.lookup dst (fs s') = FS.lookup dst (fs s)).
  { intros Hstay. rewrite !Hfs by (apply same_name_refl || apply same_name_dest_path).
    destruct Hstay as [Hge|[e He]].
    - apply Z.ltb_ge in Hge. now rewrite Hge.
    - rewrite He. now destruct (c <? t). }
  exists s'. eexists. split; [exact Hr|]. split; [exact Htr|].
  split; [|split; [|split; [exact Hmoved|split; [|split]]]].
  3: { intros Hge. apply Hstays. now left. }
  3: { intros He. apply Hstays. now right. }
  3: { intros Hap. split.
       - intros [Hgone Hthere]. destruct Hfile as (size & book & pinned & Hl).
         destruct (Z.lt_ge_cases c t) as [Hlt|Hge].
         + split; [exact Hlt|].
           destruct (move_result (fs s) p dst) as [e|t'] eqn:Hm; [|now exists t'].
           destruct (Hstays (or_intror (ex_intro _ e eq_refl))) as [Hp _]. congruence.
         + destruct (Hstays (or_introl Hge)) as [Hp _]. congruence.
       - intros [Hlt [t' Hm]]. destruct (Hmoved t' Hlt Hm) as [Hthere Hgone].
         split; [now apply Hgone|exact Hthere]. }
  - split.
    + intros Hm. apply in_app_iff in Hm as [Hm|Hm].
      { apply in_app_iff in Hm as [Hm|[Hm|[Hm|[Hm|[Hm|[]]]]]]; try discriminate.
        unfold scan_events in Hm. destruct (scan_failure _ _); [|easy].
        destruct Hm as [Hm|[]]. discriminate. }
      apply in_app_iff in Hm as [Hm|[Hm|[]]]; [|discriminate].
      destruct (about_run_events_step _ _ _ _ _ _ _ _ Hm (eq_refl : about p (Move p dst)))
        as [_ [k Hk]].
      rewrite Hev in Hk. apply in_app_iff in Hk as [Hk|Hk].
      { now apply read_events_no_move in Hk. }
      apply in_app_iff in Hk as [[Hk|Hk]|[Hk|[Hk|[]]]]; try discriminate.
      destruct (c <? t) eqn:Hlt; [now apply Z.ltb_lt|easy].
    + intros Hlt. apply Z.ltb_lt in Hlt. apply in_app_iff. right. apply in_app_iff. left.
      destruct (run_events_cut (csv_path s) (dest_input (app s)) t (fs s) _ _ p Hplan)
        as (l1 & l2 & _ & _ & _ & Hcut).
      rewrite Hcut, Hev, Hlt. apply in_app_iff. right. apply in_app_iff. left.
      apply in_app_iff. right. apply in_app_iff. left. right.
      unfold move_events. fold dst. destruct (move_result (fs s) p dst); now left.
  - intros d Hm. apply in_app_iff in Hm as [Hm|Hm].
    { apply in_app_iff in Hm as [Hm|[Hm|[Hm|[Hm|[Hm|[]]]]]]; try discriminate.
      unfold scan_events in Hm. destruct (scan_failure _ _); [|easy].
      destruct Hm as [Hm|[]]. discriminate. }
    apply in_app_iff in Hm as [Hm|[Hm|[]]]; [|discriminate].
    destruct (about_run_events_step _ _ _ _ _ _ _ _ Hm (eq_refl : about p (Move p d)))
      as [_ [k Hk]].
    rewrite Hev in Hk. apply in_app_iff in Hk as [Hk|Hk].
    { now apply read_events_no_move in Hk. }
    apply in_app_iff in Hk as [[Hk|Hk]|[Hk|[Hk|[]]]]; try discriminate.
    destruct (c <? t); [|easy]. unfold move_events in Hk. fold dst in Hk.
    destruct (move_result (fs s) p dst); destruct Hk as [Hk|[Hk|[]]];
      try discriminate; now injection Hk.
Qed.


End Claims.

(** * The claims on the sample surroundings *)

(** Every row of a run over a sample folder can be written. *)
Ltac sample_writable :=
  let q := fresh "q" in
  let Hin := fresh "Hin" in
  intros q Hin; vm_compute in Hin;
  repeat (destruct Hin as [<-|Hin]; [vm_compute; reflexivity|]);
  destruct Hin.

Section OnSamples.
Import Lib Sample.

Lemma fresh_valid (t : filesystem) :
  FS.statable t "/books" = true -> FS.statable t "/out" = true ->
  valid_inputs (fresh t) 1000.
Proof. intros Hs Hd. repeat split; try assumption; reflexivity || lia. Qed.

Lemma fresh_unprocessed (t : filesystem) (p : string) :
  p ∉ processed_files (app (fresh t)).
Proof. apply not_elem_of_empty. Qed.

Lemma A_classified (pinned : bool) (rest : filesystem) :
  @classified one_per_byte
    (shelf ((A, File 2048 (Some (book "Alpha" 120)) pinned) :: rest)) A "Alpha" 120.
Proof.
  apply (@Classified one_per_byte _ _ _ _ 2048 (book "Alpha" 120) pinned
           (List.map N_of_ascii (list_ascii_of_string (@extracted_text
              (get_items (book "Alpha" 120)))))).
  - reflexivity.
  - unfold MAX_FILE_SIZE. lia.
  - reflexivity.
  - discriminate.
  - vm_compute. discriminate.
  - reflexivity.
  - vm_compute. reflexivity.
  - lia.
Qed.

(** C6 on a threshold that is not a number. *)
Lemma C6_witness :
  exists ok msg,
    validate_inputs bad_threshold = (Ok (ok, msg), bad_threshold)
    /\ (ok = true <->
        exists t, Py.int (Py.str_remove "," (token_input (app bad_threshold))) = Some t
                  /\ 0 < t
                  /\ FS.statable (fs bad_threshold) (folder_input (app bad_threshold)) = true
                  /\ FS.statable (fs bad_threshold) (dest_input (app bad_threshold)) = true)
    /\ (ok = false ->
        exists s', run bad_threshold = (Ok tt, s')
                   /\ trace s' = trace bad_threshold ++ [MessageBox Critical "Error" msg]
                   /\ fs s' = fs bad_threshold
                   /\ reports s' = reports bad_threshold
                   /\ app s' = app bad_threshold).
Proof. exact (@C6_validation_gate one_per_byte bad_threshold). Defined.

(** C7 on a source folder without any book. *)
Lemma C7_witness :
  valid_inputs (fresh no_books) 1000
  /\ (get_epub_files (folder_input (app (fresh no_books))) (fresh no_books)).1 = Ok []
  /\ exists s' log,
       run (fresh no_books) = (Ok tt, s')
       /\ reports s' = reports (fresh no_books)
       /\ fs s' = fs (fresh no_books)
       /\ app s' = app (fresh no_books)
       /\ trace s' = trace (fresh no_books) ++ log
                     ++ [MessageBox Warning "Warning" "No EPUB files found!"]
       /\ Forall (fun e => exists msg, e = Log ERROR msg) log.
Proof.
  assert (Hv : valid_inputs (fresh no_books) 1000) by (now apply fresh_valid).
  assert (Hc : (get_epub_files (folder_input (app (fresh no_books))) (fresh no_books)).1 = Ok [])
    by reflexivity.
  split; [exact Hv|]. split; [exact Hc|].
  exact (@C7_nothing_to_do one_per_byte (fresh no_books) 1000 Hv Hc).
Defined.

(** C8 fails as stated: the enumeration of the source folder breaks at its
    second entry, and the scan returns the book found before it, not the
    empty list. *)
Lemma C8_counterexample :
  ~ (scan_failure broken_scan "/books" <> None ->
     (get_epub_files "/books" (fresh broken_scan)).1 = Ok []).
Proof.
  intros Hclaim.
  assert (Hfail : scan_failure broken_scan "/books" <> None) by (vm_compute; discriminate).
  specialize (Hclaim Hfail). vm_compute in Hclaim. discriminate.
Qed.

(** C8 (amended) on the folder whose enumeration breaks. *)
Lemma C8_witness :
  exists l s',
    get_epub_files "/books" (fresh broken_scan) = (Ok l, s')
    /\ l = [A]
    /\ fs s' = fs (fresh broken_scan).
Proof.
  destruct (C8_candidates "/books" (fresh broken_scan))
    as (l & s' & Hrun & Hfs & _ & _ & _ & _ & Hpre).
  exists l, s'. split; [exact Hrun|]. split; [|exact Hfs].
  exact (Hpre _ eq_refl).
Defined.

(** C10 on a book with mixed items: the text is made of the three XHTML
    items that can be read, with the bytes that are not UTF-8 dropped. *)
Lemma C10_witness :
  exists s',
    @extract_text (get_items mixed) "" (fresh two_books) = (Ok "Hi!", s')
    /\ fs s' = fs (fresh two_books).
Proof.
  destruct (C10_xhtml_items_only mixed (fresh two_books))
    as (s' & Hrun & Hfs & _).
  exists s'. split; [exact Hrun|exact Hfs].
Defined.

(** Decoding is per item: a two-byte character cut between two items is lost,
    where the same bytes in one item are kept. *)
Example decode_per_item :
  Utf8.decode [Byte.xc3] +:+ Utf8.decode [Byte.xa9] = ""
  /\ Utf8.decode [Byte.xc3; Byte.xa9] = string_of_list_byte [Byte.xc3; Byte.xa9].
Proof. split; reflexivity. Qed.

(** C2 fails as stated: the book has seven tokens of text, which
    [process_epub] counts, but its first title element is empty; the run
    ends normally and the report has no row for it. *)
Lemma C2_counterexample :
  valid_inputs (fresh nameless) 1000
  /\ candidates (fs (fresh nameless)) "/books" = [U]
  /\ (@process_epub one_per_byte U (fresh nameless)).1 = Ok (None, Some 7)
  /\ (run (fresh nameless)).1 = Ok tt
  /\ Report.lookup (csv_path (fresh nameless)) (reports (after (fresh nameless)))
     = Some [header].
Proof.
  split; [now apply fresh_valid|]. split; [vm_compute; reflexivity|].
  split; [vm_compute; reflexivity|]. split; vm_compute; reflexivity.
Qed.

(** C2 (amended) on the two books of the specification: two rows, whatever
    the threshold makes of the files. *)
Lemma C2_witness :
  valid_inputs (fresh two_books) 1000
  /\ candidates (fs (fresh two_books)) (folder_input (app (fresh two_books))) <> []
  /\ can_open (fs (fresh two_books)) (csv_path (fresh two_books)) = true
  /\ @all_writable one_per_byte (fresh two_books)
  /\ exists s',
       run (fresh two_books) = (Ok tt, s')
       /\ Report.lookup (csv_path (fresh two_books)) (reports s')
          = Some [header; [CStr "Alpha"; CInt 120; CStr A]; [CStr "Beta"; CInt 5000; CStr B]].
Proof.
  assert (Hv : valid_inputs (fresh two_books) 1000) by (now apply fresh_valid).
  assert (Hc : candidates (fs (fresh two_books)) (folder_input (app (fresh two_books))) <> [])
    by (vm_compute; discriminate).
  assert (Ho : can_open (fs (fresh two_books)) (csv_path (fresh two_books)) = true)
    by reflexivity.
  assert (Hw : @all_writable one_per_byte (fresh two_books)) by sample_writable.
  split; [exact Hv|]. split; [exact Hc|]. split; [exact Ho|]. split; [exact Hw|].
  destruct (@C2_one_row_per_counted_file one_per_byte (fresh two_books) 1000 Hv Hc Ho Hw)
    as (s' & rows & Hrun & Hrep & Hrows & _).
  exists s'. split; [exact Hrun|]. rewrite Hrep, Hrows. vm_compute. reflexivity.
Defined.

(** C5 on a book without markup text. *)
Lemma C5_witness :
  FS.lookup "/books/C.epub" (fs (fresh empty_book))
  = Some (File 512 (Some no_markup) false)
  /\ Forall (fun item => is_markup item = true -> fragment item = "") (get_items no_markup)
  /\ exists evs,
       trace (run (fresh empty_book)).2 = trace (fresh empty_book) ++ evs
       /\ (forall e, In e evs -> ~ records "/books/C.epub" e /\ ~ moves "/books/C.epub" e).
Proof.
  assert (Hl : FS.lookup "/books/C.epub" (fs (fresh empty_book))
               = Some (File 512 (Some no_markup) false)) by reflexivity.
  assert (Hi : Forall (fun item => is_markup item = true -> fragment item = "")
                      (get_items no_markup)).
  { repeat constructor; discriminate. }
  split; [exact Hl|]. split; [exact Hi|].
  destruct (@C5_no_text_no_row one_per_byte (fresh empty_book) _ _ _ _ Hl Hi)
    as (evs & Htr & Hq & _).
  exists evs. split; [exact Htr|exact Hq].
Defined.

(** C1 fails as stated: [A.epub] has 120 tokens, below the threshold of
    1,000, but it cannot be taken out of its folder; the move fails and the
    file is not relocated. *)
Lemma C1_counterexample :
  valid_inputs (fresh pinned_book) 1000
  /\ In A (candidates (fs (fresh pinned_book)) "/books")
  /\ @classified one_per_byte (fs (fresh pinned_book)) A "Alpha" 120
  /\ ~ (relocated_file "/out" A (fs (fresh pinned_book)) (fs (after (fresh pinned_book)))
        <-> 120 < 1000).
Proof.
  split; [now apply fresh_valid|]. split; [vm_compute; tauto|].
  split; [apply A_classified|].
  intros [_ Hclaim]. assert (Hlt : 120 < 1000) by lia.
  destruct (Hclaim Hlt) as [Hgone _]. vm_compute in Hgone. discriminate.
Qed.

(** C1 (amended) on the two books of the specification: [A.epub], with 120
    tokens, is moved to the destination. *)
Lemma C1_witness :
  valid_inputs (fresh two_books) 1000
  /\ can_open (fs (fresh two_books)) (csv_path (fresh two_books)) = true
  /\ @all_writable one_per_byte (fresh two_books)
  /\ In A (candidates (fs (fresh two_books)) (folder_input (app (fresh two_books))))
  /\ (A ∉ processed_files (app (fresh two_books)))
  /\ @classified one_per_byte (fs (fresh two_books)) A "Alpha" 120
  /\ folders_apart "/books" "/out"
  /\ exists s' evs,
       run (fresh two_books) = (Ok tt, s')
       /\ trace s' = trace (fresh two_books) ++ evs
       /\ (In (Move A "/out/A.epub") evs <-> 120 < 1000)
       /\ FS.lookup (real_dst (fs (fresh two_books)) A
                       (dest_path (dest_input (app (fresh two_books))) A)) (fs s')
          = FS.lookup A (fs (fresh two_books))
       /\ FS.lookup A (fs s') = None.
Proof.
  assert (Hv : valid_inputs (fresh two_books) 1000) by (now apply fresh_valid).
  assert (Ho : can_open (fs (fresh two_books)) (csv_path (fresh two_books)) = true)
    by reflexivity.
  assert (Hw : @all_writable one_per_byte (fresh two_books)) by sample_writable.
  assert (Hin : In A (candidates (fs (fresh two_books))
                        (folder_input (app (fresh two_books)))))
    by (vm_compute; tauto).
  assert (Hnew : A ∉ processed_files (app (fresh two_books)))
    by apply fresh_unprocessed.
  assert (Hcl : @classified one_per_byte (fs (fresh two_books)) A "Alpha" 120)
    by apply A_classified.
  assert (Hap : folders_apart "/books" "/out").
  { split; [reflexivity|]. split; [reflexivity|discriminate]. }
  split; [exact Hv|]. split; [exact Ho|]. split; [exact Hw|]. split; [exact Hin|].
  split; [exact Hnew|]. split; [exact Hcl|]. split; [exact Hap|].
  destruct (@C1_threshold_decision one_per_byte (fresh two_books) 1000 A "Alpha" 120
              Hv Ho Hw Hin Hnew Hcl)
    as (s' & evs & Hrun & Htr & Hiff & _ & Hmoved & _).
  exists s', evs. split; [exact Hrun|]. split; [exact Htr|]. split; [exact Hiff|].
  assert (Hlt : 120 < 1000) by lia.
  destruct (move_result (fs (fresh two_books)) A
              (dest_path (dest_input (app (fresh two_books))) A)) as [e|t'] eqn:Hm;
    [vm_compute in Hm; discriminate|].
  destruct (Hmoved t' Hlt eq_refl) as [Hthere Hgone].
  split; [exact Hthere|]. exact (Hgone Hap).
Defined.



(** C4 fails as stated: in the second run of an instance the oversized file
    is a candidate again, but it is in the set of processed files and is
    skipped; the progress bar does not advance for it. *)
Lemma C4_counterexample :
  valid_inputs (second_run big_book) 1000
  /\ can_open (fs (second_run big_book)) (csv_path (second_run big_book)) = true
  /\ In Big (candidates (fs (second_run big_book)) "/books")
  /\ FS.lookup Big (fs (second_run big_book))
     = Some (File (200 * 1024 * 1024) (Some (book "Huge" 3)) false)
  /\ MAX_FILE_SIZE < 200 * 1024 * 1024
  /\ ~ counted_unopened Big (second_run big_book) (after (second_run big_book)).
Proof.
  split; [repeat split; reflexivity || lia|]. split; [reflexivity|].
  split; [vm_compute; tauto|]. split; [reflexivity|]. split; [reflexivity|].
  intros (pre & post & n & Htr & _ & _).
  assert (Hrun : trace (after (second_run big_book))
                 = trace (second_run big_book)
                   ++ [SetMaximum 1; SetValue 0;
                       OpenCsv "/out/epub_token_counts_20240101_120500.csv";
                       WriteRow "/out/epub_token_counts_20240101_120500.csv" header;
                       MessageBox Information "Done"
                         (done_message 0 "/out/epub_token_counts_20240101_120500.csv")])
    by (vm_compute; reflexivity).
  rewrite Hrun in Htr. apply app_inv_head in Htr.
  assert (Hin : In (Log WARNING ("File too large: " +:+ Big))
                   [SetMaximum 1; SetValue 0;
                    OpenCsv "/out/epub_token_counts_20240101_120500.csv";
                    WriteRow "/out/epub_token_counts_20240101_120500.csv" header;
                    MessageBox Information "Done"
                      (done_message 0 "/out/epub_token_counts_20240101_120500.csv")]).
  { rewrite Htr. apply in_app_iff. right. now left. }
  cbn [In] in Hin. intuition discriminate.
Qed.

(** C4 (amended) on the first run over the oversized file. *)
Lemma C4_witness :
  valid_inputs (fresh big_book) 1000
  /\ can_open (fs (fresh big_book)) (csv_path (fresh big_book)) = true
  /\ @all_writable one_per_byte (fresh big_book)
  /\ In Big (candidates (fs (fresh big_book)) (folder_input (app (fresh big_book))))
  /\ FS.lookup Big (fs (fresh big_book))
     = Some (File (200 * 1024 * 1024) (Some (book "Huge" 3)) false)
  /\ MAX_FILE_SIZE < 200 * 1024 * 1024
  /\ exists s',
       run (fresh big_book) = (Ok tt, s')
       /\ counted_unopened Big (fresh big_book) s'
       /\ FS.lookup Big (fs s') = FS.lookup Big (fs (fresh big_book))
       /\ Big ∈ processed_files (app s').
Proof.
  assert (Hv : valid_inputs (fresh big_book) 1000) by (now apply fresh_valid).
  assert (Ho : can_open (fs (fresh big_book)) (csv_path (fresh big_book)) = true)
    by reflexivity.
  assert (Hw : @all_writable one_per_byte (fresh big_book)) by sample_writable.
  assert (Hin : In Big (candidates (fs (fresh big_book))
                          (folder_input (app (fresh big_book)))))
    by (vm_compute; tauto).
  assert (Hl : FS.lookup Big (fs (fresh big_book))
               = Some (File (200 * 1024 * 1024) (Some (book "Huge" 3)) false))
    by reflexivity.
  assert (Hsize : MAX_FILE_SIZE < 200 * 1024 * 1024) by reflexivity.
  assert (Hnew : Big ∉ processed_files (app (fresh big_book)))
    by apply fresh_unprocessed.
  split; [exact Hv|]. split; [exact Ho|]. split; [exact Hw|]. split; [exact Hin|].
  split; [exact Hl|]. split; [exact Hsize|].
  destruct (@C4_oversized_is_counted_unopened one_per_byte (fresh big_book) 1000 Big
              _ _ _ Hv Ho Hw Hin Hl Hsize)
    as (s' & evs & Hrun & _ & Hcnt & _ & Hfs & _ & Hdone).
  exists s'. split; [exact Hrun|]. split; [exact (Hcnt Hnew)|].
  split; [exact Hfs|exact Hdone].
Defined.

(** C9 fails as stated: after a first run over the two books of the
    specification the set is not empty when the second run starts, and
    [B.epub], still a candidate and still a book that can be counted, is
    skipped by the second run and not read again. *)
Lemma C9_counterexample :
  ~ (processed_files (app (second_run two_books)) = ∅)
  /\ In B (candidates (fs (second_run two_books)) "/books")
  /\ @classified one_per_byte (fs (second_run two_books)) B "Beta" 5000
  /\ ~ In (ReadEpub B) (drop (length (trace (second_run two_books)))
                             (trace (after (second_run two_books)))).
Proof.
  split; [|split; [|split]].
  - intros Hempty.
    assert (HB : bool_decide (B ∈ processed_files (app (second_run two_books))) = true)
      by (vm_compute; reflexivity).
    apply bool_decide_eq_true in HB. rewrite Hempty in HB.
    now apply not_elem_of_empty in HB.
  - vm_compute. tauto.
  - apply row_for_classified. vm_compute. reflexivity.
  - vm_compute. intuition discriminate.
Qed.

(** C9 (amended) on the second run over the two books. *)
Lemma C9_witness :
  processed_files (__init__ prefs) = ∅
  /\ processed_files (app (second_run two_books))
     ⊆ processed_files (app (run (second_run two_books)).2)
  /\ exists evs,
       trace (run (second_run two_books)).2 = trace (second_run two_books) ++ evs
       /\ forall p e, p ∈ processed_files (app (second_run two_books)) ->
                      In e evs -> ~ about p e.
Proof.
  destruct (@C9_processed_set_of_the_instance one_per_byte (second_run two_books))
    as (Hinit & Hkeep & Hskip).
  split; [exact (Hinit prefs)|]. split; [exact Hkeep|exact Hskip].
Defined.

End OnSamples.

(** * Further properties of the pipeline *)

(** ** Strings, names and paths *)

Lemma chars_app (a b : string) :
  list_ascii_of_string (a +:+ b) = list_ascii_of_string a ++ list_ascii_of_string b.
Proof.
  induction a as [|x a IH]; [reflexivity|].
  change (String x a +:+ b) with (String x (a +:+ b)). cbn. now rewrite IH.
Qed.

(** Two strings that end in different characters differ. *)
Lemma last_char_differs (a b : string) (x y : ascii) :
  x <> y -> a +:+ String x "" <> b +:+ String y "".
Proof.
  intros Hxy Heq. apply (f_equal list_ascii_of_string) in Heq.
  rewrite !chars_app in Heq. cbn in Heq.
  now apply app_inj_tail in Heq as [_ Heq].
Qed.

Lemma lower_app (a b : string) : Py.lower (a +:+ b) = Py.lower a +:+ Py.lower b.
Proof.
  induction a as [|x a IH]; [reflexivity|].
  change (String x a +:+ b) with (String x (a +:+ b)). cbn [Py.lower].
  now rewrite IH.
Qed.

Lemma lower_app_inv (n x y : string) :
  Py.lower n = x +:+ y ->
  exists a b, n = a +:+ b /\ Py.lower a = x /\ Py.lower b = y.
Proof.
  revert n. induction x as [|c x IH]; intros n Hn.
  - exists "", n. now repeat split.
  - destruct n as [|d n]; [discriminate|].
    change (String c x +:+ y) with (String c (x +:+ y)) in Hn.
    cbn [Py.lower] in Hn. injection Hn as Hc Hn.
    destruct (IH n Hn) as (a & b & -> & Ha & Hb).
    exists (String d a), b. repeat split; [|exact Hb].
    cbn [Py.lower]. now rewrite Hc, Ha.
Qed.

(** [s.endswith(suf)] holds exactly of the strings made of something
    followed by [suf]. *)
Lemma endswith_spec (s suf : string) :
  Py.endswith s suf = true <-> exists pre, s = pre +:+ suf.
Proof.
  split.
  - induction s as [|a r IH]; cbn [Py.endswith].
    + destruct (decide ("" = suf)) as [<-|]; [|discriminate]. now exists "".
    + destruct (decide (String a r = suf)) as [<-|]; [now exists ""|].
      intros Hr. destruct (IH Hr) as [pre ->]. now exists (String a pre).
  - intros [pre ->]. induction pre as [|a pre IH].
    + change ("" +:+ suf) with suf. destruct suf; cbn [Py.endswith];
        now rewrite decide_True by reflexivity.
    + change (String a pre +:+ suf) with (String a (pre +:+ suf)).
      cbn [Py.endswith]. now destruct (decide (String a (pre +:+ suf) = suf)).
Qed.

(** The test of [get_epub_files] on a name. *)
Lemma epub_name_spec (n : string) :
  Py.endswith (Py.lower n) ".epub" = true
  <-> exists stem suf, n = stem +:+ suf /\ Py.lower suf = ".epub".
Proof.
  rewrite endswith_spec. split.
  - intros [pre Hn]. destruct (lower_app_inv n pre ".epub" Hn) as (a & b & -> & _ & Hb).
    now exists a, b.
  - intros (stem & suf & -> & Hs). exists (Py.lower stem). now rewrite lower_app, Hs.
Qed.

Lemma epub_name_proper (n : string) :
  Py.endswith (Py.lower n) ".epub" = true -> n <> "" /\ n <> ".".
Proof. split; intros ->; discriminate. Qed.

Lemma basename_app (a b : string) :
  Path.basename (a +:+ b)
  = if Path.has_sep b then Path.basename b else Path.basename a +:+ b.
Proof.
  induction a as [|x a IH].
  - change ("" +:+ b) with b. destruct (Path.has_sep b) eqn:Hb; [reflexivity|].
    now apply basename_nosep.
  - change (String x a +:+ b) with (String x (a +:+ b)).
    cbn [Path.basename Path.has_sep]. rewrite has_sep_app.
    destruct (Path.has_sep b) eqn:Hb.
    + rewrite !orb_true_r. exact IH.
    + rewrite orb_false_r.
      destruct (bool_decide (x = Path.sep) || Path.has_sep a) eqn:Hxa.
      * exact IH.
      * reflexivity.
Qed.

Lemma basename_sep (n : string) : Path.basename (String Path.sep n) = Path.basename n.
Proof.
  cbn [Path.basename Path.has_sep].
  now rewrite (bool_decide_eq_true_2 (Path.sep = Path.sep)) by reflexivity.
Qed.

(** [os.path.join] leaves the base name of its second argument as it is. *)
Lemma basename_join_any (d n : string) :
  Path.basename (Path.join d n) = Path.basename n.
Proof.
  unfold Path.join. destruct (Path.startswith_sep n); [reflexivity|].
  assert (Hgen : forall a, Path.basename (a +:+ String Path.sep n) = Path.basename n).
  { intros a. rewrite basename_app. cbn [Path.has_sep].
    rewrite (bool_decide_eq_true_2 (Path.sep = Path.sep)) by reflexivity.
    cbn [orb]. apply basename_sep. }
  destruct (bool_decide (d = "")) eqn:Hd.
  { apply bool_decide_eq_true in Hd. now subst d. }
  cbn [orb]. destruct (Path.endswith_sep d) eqn:He; [|apply Hgen].
  destruct (endswith_sep_inv _ He) as [d' ->]. rewrite str_app_assoc. apply Hgen.
Qed.

(** The components of a path end with its base name. *)
Lemma components_last (p cur : string) :
  exists l, Path.components cur p
            = l ++ [if Path.has_sep p then Path.basename p else cur +:+ p].
Proof.
  revert cur. induction p as [|a r IH]; intros cur.
  - exists []. cbn. now rewrite str_app_nil_r.
  - cbn [Path.components Path.has_sep Path.basename].
    destruct (decide (a = Path.sep)) as [->|Ha].
    + rewrite (bool_decide_eq_true_2 (Path.sep = Path.sep)) by reflexivity.
      cbn [orb]. destruct (IH "") as [l Hl]. exists (cur :: l). rewrite Hl.
      cbn [List.app]. do 3 f_equal.
      destruct (Path.has_sep r) eqn:Hr; [reflexivity|].
      change ("" +:+ r) with r. symmetry. now apply basename_nosep.
    + rewrite (bool_decide_eq_false_2 (a = Path.sep)) by exact Ha. cbn [orb].
      destruct (IH (cur +:+ String a "")) as [l Hl]. exists l. rewrite Hl.
      destruct (Path.has_sep r); [reflexivity|]. now rewrite str_app_assoc.
Qed.

(** [pathlib.Path(p).name] is [os.path.basename(p)] when the latter is a
    proper name. *)
Lemma name_basename (p : string) :
  Path.basename p <> "" -> Path.basename p <> "." -> Path.name p = Path.basename p.
Proof.
  intros He Hd. unfold Path.name. destruct (components_last p "") as [l Hl].
  rewrite Hl.
  assert (Hb : (if Path.has_sep p then Path.basename p else "" +:+ p) = Path.basename p).
  { destruct (Path.has_sep p) eqn:Hp; [reflexivity|]. symmetry. now apply basename_nosep. }
  rewrite Hb, List.filter_app. cbn [List.filter].
  rewrite (bool_decide_eq_false_2 _ He), (bool_decide_eq_false_2 _ Hd). cbn [orb negb].
  apply List.last_last.
Qed.

(** ** Reading one file *)

Section ReadingOneFile.
Context `{Tokenizer}.
Import Lib.

Lemma content_events_log (book : EpubBook) :
  Forall (fun e => exists msg, e = Log ERROR msg) (content_events book).
Proof.
  unfold content_events. apply Forall_app. split.
  - apply List.Forall_forall. intros e Hin.
    apply in_flat_map in Hin as (item & _ & Hin). unfold item_events in Hin.
    destruct (is_markup item); [|easy].
    destruct (get_content item); [easy|]. destruct Hin as [<-|[]]. now eexists.
  - destruct (bool_decide _); [constructor|]. unfold count_events.
    destruct (encoding_encode _); [|constructor].
    constructor; [now eexists|constructor].
Qed.

Lemma read_events_kind (t : filesystem) (p : string) :
  Forall (reads_or_logs p) (read_events t p).
Proof.
  unfold read_events.
  destruct (FS.lookup p t) as [[size book pinned| |]|].
  - destruct (MAX_FILE_SIZE <? size); [now repeat constructor|].
    destruct book as [b|]; [|now repeat constructor].
    constructor; [reflexivity|].
    eapply Forall_impl; [apply content_events_log|].
    now intros e [msg ->].
  - now repeat constructor.
  - now repeat constructor.
  - now repeat constructor.
Qed.

Lemma read_result_count (t : filesystem) (p : string) (c : Z) :
  (read_result t p).2 = Some c -> 0 <= c.
Proof.
  unfold read_result.
  destruct (FS.lookup p t) as [[size book pinned| |]|]; try discriminate.
  destruct (MAX_FILE_SIZE <? size); [discriminate|].
  destruct book as [b|]; [|discriminate]. cbn [snd].
  unfold content_count, count_tokens. destruct (bool_decide _); [discriminate|].
  destruct (encoding_encode _); [discriminate|]. intros [= <-]. lia.
Qed.

(** X1. [process_epub] never raises, whatever the path, the file and the
    encoding do: it returns a pair, leaves the file system, the reports, the
    instance and the stored preferences as they are, and adds to the trace
    only log lines and, at most, the opening of the archive it was asked
    for. A token count it returns is not negative. *)
Theorem process_epub_is_contained (p : string) (s : State) :
  exists r s' evs,
    process_epub p s = (Ok r, s')
    /\ fs s' = fs s /\ reports s' = reports s /\ app s' = app s
    /\ settings s' = settings s
    /\ trace s' = trace s ++ evs
    /\ Forall (reads_or_logs p) evs
    /\ (forall c, r.2 = Some c -> 0 <= c).
Proof.
  rewrite process_epub_run. eexists _, _, _. split; [reflexivity|].
  repeat split; try reflexivity.
  - apply read_events_kind.
  - apply read_result_count.
Qed.

(** X2. [process_epub] opens the archive of a regular file exactly when the
    file has at most [MAX_FILE_SIZE] bytes, the limit itself included; a book
    that is then parsed yields its title and the count of its text. For a
    path that does not exist, or whose status cannot be read, it answers
    [(None, None)] after the one log line [File not found], without opening
    anything. *)
Theorem process_epub_gate (p : string) (s : State) :
  exists evs,
    trace (process_epub p s).2 = trace s ++ evs
    /\ (forall size book pinned,
          FS.lookup p (fs s) = Some (File size book pinned) ->
          (In (ReadEpub p) evs <-> size <= MAX_FILE_SIZE)
          /\ (forall b, size <= MAX_FILE_SIZE -> book = Some b ->
                (process_epub p s).1 = Ok (_get_epub_title b p, content_count b)))
    /\ (FS.statable (fs s) p = false ->
          (process_epub p s).1 = Ok (None, None)
          /\ evs = [Log ERROR ("File not found: " +:+ p)]).
Proof.
  rewrite process_epub_run. exists (read_events (fs s) p).
  split; [reflexivity|]. split.
  - intros size book pinned Hl. unfold read_events, read_result. rewrite Hl.
    destruct (MAX_FILE_SIZE <? size) eqn:Hs.
    + apply Z.ltb_lt in Hs. split.
      * split; [intros [He|[]]; discriminate|lia].
      * intros b Hle. lia.
    + apply Z.ltb_ge in Hs. split.
      * split; [intros _; exact Hs|intros _].
        destruct book; now left.
      * now intros b _ ->.
  - unfold FS.statable, read_events, read_result.
    destruct (FS.lookup p (fs s)) as [[size book pinned| |]|]; try discriminate;
      now intros _.
Qed.

(** X3. A book without title metadata goes by the name of its file: for a
    candidate of the scan, [process_epub] returns the last component of the
    path as title, and this title is never empty. *)
Theorem untitled_book_goes_by_its_file_name (s : State) (folder p : string)
    (size : Z) (book : EpubBook) (pinned : bool) :
  In p (candidates (fs s) folder) ->
  FS.lookup p (fs s) = Some (File size (Some book) pinned) ->
  size <= MAX_FILE_SIZE ->
  dc_title book = [] ->
  (process_epub p s).1 = Ok (Some (Path.basename p), content_count book)
  /\ Path.basename p <> ""
  /\ Path.join folder (Path.basename p) = p.
Proof.
  intros Hc Hl Hs Ht.
  destruct (candidates_sound _ _ _ Hc) as (Hch & Hsuf & _).
  destruct (epub_name_proper _ Hsuf) as [He Hd].
  split; [|split; [exact He|]].
  - rewrite process_epub_run. cbn [fst]. unfold read_result. rewrite Hl.
    apply Z.ltb_ge in Hs. rewrite Hs. unfold _get_epub_title. rewrite Ht.
    now rewrite (name_basename p He Hd).
  - unfold FS.child_of in Hch. apply andb_true_iff in Hch as [_ Hch].
    now apply bool_decide_eq_true in Hch.
Qed.

End ReadingOneFile.

(** ** What a run does to the files and the reports *)

Section WholeRuns.
Context `{Tokenizer}.
Import Lib.

(** The file system after a run: as before, or settled by the iterations on
    the files of the plan that the run got to. *)
Lemma run_fs (s : State) :
  fs (start_processing s).2 = fs s
  \/ exists t,
       valid_inputs s t
       /\ candidates (fs s) (folder_input (app s)) <> []
       /\ can_open (fs s) (csv_path s) = true
       /\ settled (dest_input (app s)) t (fs s)
            (ready (fs s)
               (plan (processed_files (app s)) (candidates (fs s) (folder_input (app s)))))
            (fs (start_processing s).2).
Proof.
  destruct (run_cases s)
    as [[Hv Hr]|[(t & Hv & Hc & Hr)|[(t & e & Hv & Hc & Ho & Hr)|(t & Hv & Hc & Ho)]]].
  - left. now rewrite Hr.
  - left. now rewrite Hr.
  - left. now rewrite Hr.
  - right. exists t. destruct (run_loop s t Hv Hc Ho) as (s' & Hr & _ & _ & Hset & _).
    rewrite Hr. split; [exact Hv|]. split; [exact Hc|]. split; [exact Ho|exact Hset].
Qed.

(** What becomes of a candidate: it is as before, or it is a file of the
    plan that the run got to, and the entries of its name are as its own
    iteration leaves them. *)
Lemma candidate_fate (s : State) (p : string) :
  In p (candidates (fs s) (folder_input (app s))) ->
  FS.lookup p (fs (start_processing s).2) = FS.lookup p (fs s)
  \/ exists t,
       valid_inputs s t
       /\ In p (ready (fs s)
                  (plan (processed_files (app s)) (candidates (fs s) (folder_input (app s)))))
       /\ forall k, same_name p k ->
            FS.lookup k (fs (start_processing s).2)
            = FS.lookup k (fs_step (dest_input (app s)) t (fs s) p).
Proof.
  intros Hc. destruct (run_fs s) as [Hfs|(t & Hv & _ & _ & Hout & Hin)].
  { left. now rewrite Hfs. }
  set (pl := plan (processed_files (app s)) (candidates (fs s) (folder_input (app s)))) in *.
  destruct (in_dec string_dec p (ready (fs s) pl)) as [Hp|Hp].
  - right. exists t. split; [exact Hv|]. split; [exact Hp|].
    intros k Hk. now apply Hin.
  - left. apply Hout. intros q Hq Hn. apply Hp.
    assert (Hqc : In q (candidates (fs s) (folder_input (app s)))).
    { apply ready_in in Hq as [Hq _]. unfold pl in Hq. now apply plan_in in Hq. }
    pose proof (candidates_in_folder (fs s) (folder_input (app s))) as Hall.
    rewrite List.Forall_forall in Hall.
    now rewrite <- (child_same_name (folder_input (app s)) q p (Hall q Hqc) (Hall p Hc) Hn).
Qed.

(** A file for which the test of the loop fails is passed over by every
    run. *)
Lemma run_passes_over (s : State) (p : string) :
  row_for (fs s) p = None -> passed_over p s (start_processing s).2.
Proof.
  intros Hrow. split; [|split].
  - destruct (run_about s) as (evs & Htr & Hab).
    exists evs. split; [exact Htr|]. intros e Hin.
    assert (Hq : about p e -> ~ records p e /\ ~ moves p e).
    { intros Ha. destruct (Hab p e Hin Ha) as (t & k & _ & _ & _ & Hstep).
      unfold events_step in Hstep. rewrite Hrow in Hstep.
      apply in_app_iff in Hstep as [Hstep|Hstep].
      - now apply (read_events_quiet (fs s) p p).
      - cbn in Hstep. destruct Hstep as [<-|[<-|[]]]; easy. }
    split; intros Hr.
    + now apply (proj1 (Hq (records_about p e Hr))).
    + now apply (proj2 (Hq (moves_about p e Hr))).
  - destruct (run_cases s)
      as [[Hv Hr]|[(t & Hv & Hc & Hr)|[(t & e & Hv & Hc & Ho & Hr)|(t & Hv & Hc & Ho)]]].
    + left. now rewrite Hr.
    + left. now rewrite Hr.
    + left. now rewrite Hr.
    + right. destruct (run_loop s t Hv Hc Ho) as (s' & Hr & _ & Hrep & _).
      rewrite Hr. cbn [snd]. eexists. split; [exact Hrep|].
      intros row [<-|Hin]; [easy|].
      apply run_rows_in in Hin as (q & tc & _ & Hq & ->).
      cbn. intros <-. congruence.
  - intros Hc. destruct (candidate_fate s p Hc) as [Hsame|(t & _ & _ & Hstep)];
      [exact Hsame|].
    rewrite (Hstep p (same_name_refl p)). unfold fs_step. now rewrite Hrow.
Qed.

(** X4. When the encoding raises on the text of a book, [calculate_tokens]
    logs the error and answers [None], [process_epub] returns the title with
    no count, and every run passes the book over: no row, no move, the file
    stays as it is. *)
Theorem tokenizer_failure_is_contained (s : State) (p : string) (size : Z)
    (book : EpubBook) (pinned : bool) (e : exn) :
  FS.lookup p (fs s) = Some (File size (Some book) pinned) ->
  size <= MAX_FILE_SIZE ->
  extracted_text (get_items book) <> "" ->
  encoding_encode (extracted_text (get_items book)) = inl e ->
  (exists s1,
     calculate_tokens (extracted_text (get_items book)) s = (Ok None, s1)
     /\ trace s1 = trace s ++ [Log ERROR ("Token calculation error: " +:+ exn_str e)]
     /\ fs s1 = fs s)
  /\ (process_epub p s).1 = Ok (_get_epub_title book p, None)
  /\ passed_over p s (start_processing s).2.
Proof.
  intros Hl Hs Ht He.
  assert (Hr : read_result (fs s) p = (_get_epub_title book p, None)).
  { unfold read_result. rewrite Hl. apply Z.ltb_ge in Hs. rewrite Hs.
    unfold content_count, count_tokens.
    rewrite bool_decide_eq_false_2 by exact Ht. now rewrite He. }
  split; [|split].
  - rewrite calculate_tokens_run. unfold count_tokens, count_events. rewrite He.
    eexists. split; [reflexivity|]. now split.
  - rewrite process_epub_run. cbn [fst]. now rewrite Hr.
  - apply run_passes_over. unfold row_for. rewrite Hr.
    now destruct (_get_epub_title book p).
Qed.

(** X5. A file that [epub.read_epub] cannot parse is opened once; the
    exception is caught and logged, [process_epub] answers [(None, None)],
    and every run passes the file over. *)
Theorem unreadable_archive_is_passed_over (s : State) (p : string) (size : Z)
    (pinned : bool) :
  FS.lookup p (fs s) = Some (File size None pinned) ->
  size <= MAX_FILE_SIZE ->
  (exists msg s1,
     process_epub p s = (Ok (None, None), s1)
     /\ trace s1 = trace s ++ [ReadEpub p;
                               Log ERROR ("Error processing " +:+ p +:+ ": " +:+ msg)]
     /\ fs s1 = fs s)
  /\ passed_over p s (start_processing s).2.
Proof.
  intros Hl Hs. apply Z.ltb_ge in Hs. split.
  - rewrite process_epub_run. unfold read_result, read_events. rewrite Hl, Hs.
    eexists _, _. split; [reflexivity|]. now split.
  - apply run_passes_over. unfold row_for, read_result. now rewrite Hl, Hs.
Qed.

(** X6. A book whose title is missing or empty is passed over by every run,
    whatever its text and its token count: the test [if title and
    token_count] of the loop fails on the title. The title is the first
    entry of the metadata, also when that entry is empty and others
    follow. *)
Theorem book_without_title_is_passed_over (s : State) (p : string) (size : Z)
    (book : EpubBook) (pinned : bool) :
  FS.lookup p (fs s) = Some (File size (Some book) pinned) ->
  Py.truthy_str (_get_epub_title book p) = false ->
  (size <= MAX_FILE_SIZE ->
   (process_epub p s).1 = Ok (_get_epub_title book p, content_count book))
  /\ (forall first others, dc_title book = first :: others ->
        _get_epub_title book p = first)
  /\ passed_over p s (start_processing s).2.
Proof.
  intros Hl Ht. split; [|split].
  - intros Hs. apply Z.ltb_ge in Hs. rewrite process_epub_run. cbn [fst].
    unfold read_result. now rewrite Hl, Hs.
  - intros first others Hd. unfold _get_epub_title. now rewrite Hd.
  - apply run_passes_over. unfold row_for, read_result. rewrite Hl.
    destruct (MAX_FILE_SIZE <? size); [reflexivity|].
    destruct (_get_epub_title book p) as [title|]; [|reflexivity].
    destruct (content_count book); [|reflexivity].
    now rewrite Ht.
Qed.

End WholeRuns.

(** ** The scan of the source folder, when nothing fails *)

Section CompleteScan.
Import Lib.

Lemma scan_entries_all (folder : string) (l : filesystem) :
  forall acc,
  (forall k, In (k, Unstatable) l -> FS.child_of folder k = false) ->
  scan_entries
    (List.map (fun kn => mkEntry (Path.basename kn.1)
                                 (Path.join folder (Path.basename kn.1)) kn.2)
              (List.filter (fun kn => FS.child_of folder kn.1) l)) acc
  = (acc ++ List.map fst (List.filter (is_epub_file folder) l), None).
Proof.
  induction l as [|[k n] l IH]; intros acc Hun.
  - cbn. now rewrite app_nil_r.
  - assert (Hl : forall k', In (k', Unstatable) l -> FS.child_of folder k' = false).
    { intros k' Hin. apply Hun. now right. }
    cbn [List.filter fst snd]. unfold is_epub_file at 1. cbn [fst snd].
    destruct (FS.child_of folder k) eqn:Hc; [|cbn [andb]; now apply IH].
    cbn [List.map scan_entries fst snd]. unfold is_file. cbn [entry_node name path].
    assert (Hk : Path.join folder (Path.basename k) = k).
    { unfold FS.child_of in Hc. apply andb_true_iff in Hc as [_ Hc].
      now apply bool_decide_eq_true in Hc. }
    destruct n as [size book pinned|listable writable|].
    + cbn [regular andb].
      destruct (Py.endswith (Py.lower (Path.basename k)) ".epub").
      * rewrite IH by exact Hl. rewrite Hk. cbn [List.map fst].
        now rewrite <- app_assoc.
      * now apply IH.
    + cbn [regular andb]. now apply IH.
    + rewrite (Hun k) in Hc by now left. discriminate.
Qed.

(** X7. When the source folder can be listed and the status of each of its
    entries can be read, [get_epub_files] logs nothing and returns all the
    books of the folder in the order of enumeration: the paths of the regular
    files directly inside it whose lower-cased name ends in [.epub], no
    other path, and none from a folder further down. *)
Theorem scan_finds_every_book (folder : string) (s : State) (writable : bool) :
  FS.lookup folder (fs s) = Some (Dir true writable) ->
  (forall k, In (k, Unstatable) (fs s) -> FS.child_of folder k = false) ->
  get_epub_files folder s
  = (Ok (List.map fst (List.filter (is_epub_file folder) (fs s))), s)
  /\ forall p,
       In p (List.map fst (List.filter (is_epub_file folder) (fs s)))
       <-> (exists size book pinned, In (p, File size book pinned) (fs s))
           /\ in_folder folder p
           /\ Py.endswith (Py.lower (Path.basename p)) ".epub" = true.
Proof.
  intros Hd Hun. split.
  - unfold get_epub_files, bind, get, os_scandir. rewrite Hd.
    now rewrite (scan_entries_all folder (fs s) [] Hun).
  - intros p. rewrite in_map_iff. split.
    + intros ([k n] & <- & Hin). apply filter_In in Hin as [Hin Hf].
      unfold is_epub_file in Hf. cbn [fst snd] in *.
      apply andb_true_iff in Hf as [Hf Hsuf]. apply andb_true_iff in Hf as [Hc Hr].
      destruct n as [size book pinned| |]; try discriminate.
      split; [now exists size, book, pinned|]. now split.
    + intros ((size & book & pinned & Hin) & Hc & Hsuf).
      exists (p, File size book pinned). split; [reflexivity|].
      apply filter_In. split; [exact Hin|].
      unfold is_epub_file, in_folder in *. cbn [fst snd regular]. now rewrite Hc, Hsuf.
Qed.

(** The test of the loop of [get_epub_files]. *)
Lemma keeps_spec (entry : DirEntry) :
  keeps entry = true
  <-> is_file entry = inr true
      /\ exists stem suf, name entry = stem +:+ suf /\ Py.lower suf = ".epub".
Proof.
  unfold keeps. rewrite <- epub_name_spec.
  destruct (is_file entry) as [e|[|]]; cbn [andb]; split;
    try discriminate; try (intros [Hf _]; discriminate); tauto.
Qed.

(** X8. When the source folder can be listed, [get_epub_files] returns the
    paths of the entries, among those enumerated before the first one whose
    status cannot be read, that are regular files and whose name is some
    stem followed by five characters that lower-case to [.epub]: the case of
    the suffix does not matter, and the suffix has to be the very end of the
    name. *)
Theorem kept_names (folder : string) (s : State) (entries : list DirEntry) :
  os_scandir (fs s) folder = inr entries ->
  exists l,
    (get_epub_files folder s).1 = Ok l
    /\ forall p,
         In p l
         <-> exists entry,
               In entry (readable_prefix entries)
               /\ path entry = p
               /\ is_file entry = inr true
               /\ exists stem suf, name entry = stem +:+ suf /\ Py.lower suf = ".epub".
Proof.
  intros Hs. rewrite get_epub_files_run. cbn [fst]. eexists. split; [reflexivity|].
  intros p. unfold candidates. rewrite Hs, scan_entries_eq, app_nil_l.
  rewrite in_map_iff. split.
  - intros (entry & Hp & Hin). apply filter_In in Hin as [Hin Hk].
    apply keeps_spec in Hk as [Hf Hn]. now exists entry.
  - intros (entry & Hin & Hp & Hf & Hn). exists entry. split; [exact Hp|].
    apply filter_In. split; [exact Hin|]. now apply keeps_spec.
Qed.

End CompleteScan.

(** ** Inputs, preferences and the ways a run can go *)

Section InputsAndOutcomes.
Context `{Tokenizer}.
Import Lib.

(** X9. [validate_inputs] reports the first check that fails, in the order
    of the source: the threshold that does not parse, the threshold that is
    not positive, the source folder, the destination folder; the message is
    empty exactly when the inputs are accepted. Nothing is changed. *)
Theorem validation_messages (s : State) :
  exists ok msg,
    validate_inputs s = (Ok (ok, msg), s)
    /\ (ok = true <-> msg = "")
    /\ (msg = "Invalid token count"
        <-> Py.int (Py.str_remove "," (token_input (app s))) = None)
    /\ (msg = "Token count must be positive"
        <-> exists n, Py.int (Py.str_remove "," (token_input (app s))) = Some n /\ n <= 0)
    /\ (msg = "Source folder does not exist"
        <-> (exists n, Py.int (Py.str_remove "," (token_input (app s))) = Some n /\ 0 < n)
            /\ FS.statable (fs s) (folder_input (app s)) = false)
    /\ (msg = "Destination folder does not exist"
        <-> (exists n, Py.int (Py.str_remove "," (token_input (app s))) = Some n /\ 0 < n)
            /\ FS.statable (fs s) (folder_input (app s)) = true
            /\ FS.statable (fs s) (dest_input (app s)) = false).
Proof.
  rewrite validate_inputs_run. unfold validation.
  destruct (Py.int (Py.str_remove "," (token_input (app s)))) as [n|].
  - destruct (n <=? 0) eqn:Hn.
    + apply Z.leb_le in Hn. eexists _, _. split; [reflexivity|].
      repeat split; try discriminate.
      * now exists n.
      * intros [(m & [= <-] & Hm) _]. lia.
      * intros [(m & [= <-] & Hm) _]. lia.
    + apply Z.leb_gt in Hn.
      destruct (FS.statable (fs s) (folder_input (app s))); cbn [negb].
      * destruct (FS.statable (fs s) (dest_input (app s))); cbn [negb];
          (eexists _, _; split; [reflexivity|]);
          repeat split; try discriminate; try (now exists n);
          try (intros (m & [= <-] & Hm); lia);
          try (intros [_ [_ Hd]]; discriminate);
          try (intros [_ Hd]; discriminate).
      * eexists _, _. split; [reflexivity|].
        repeat split; try discriminate; try (now exists n);
          try (intros (m & [= <-] & Hm); lia);
          try (intros [_ [Hd _]]; discriminate).
  - eexists _, _. split; [reflexivity|].
    repeat split; try discriminate;
      try (intros (m & Hm & _); discriminate);
      try (intros [(m & Hm & _) _]; discriminate).
Qed.

(** The preferences and the inputs after a run. *)
Lemma run_inputs (s : State) :
  settings (start_processing s).2 = settings (saved s)
  /\ folder_input (app (start_processing s).2) = folder_input (app s)
  /\ dest_input (app (start_processing s).2) = dest_input (app s)
  /\ token_input (app (start_processing s).2) = token_input (app s).
Proof.
  destruct (run_cases s)
    as [[Hv Hr]|[(t & Hv & Hc & Hr)|[(t & e & Hv & Hc & Ho & Hr)|(t & Hv & Hc & Ho)]]].
  - rewrite Hr. now repeat split.
  - rewrite Hr. now repeat split.
  - rewrite Hr. now repeat split.
  - destruct (run_loop s t Hv Hc Ho)
      as (s' & Hr & _ & _ & _ & _ & _ & _ & Hf & Ht & Hd & Hs & _).
    rewrite Hr. cbn [snd]. now repeat split.
Qed.

(** X10. Every run, however it ends (refused inputs, no candidate, a report
    that cannot be created, or a complete pass), stores the three inputs as
    they are when it starts, and leaves them in the window as they are. Read
    back, the stored preferences give the same inputs: [load_settings] after
    a run changes nothing, and an instance created then starts with these
    inputs. *)
Theorem every_run_saves_the_inputs (s : State) :
  let s' := (start_processing s).2 in
  settings s' = mkSettings (folder_input (app s)) (dest_input (app s)) (token_input (app s))
  /\ folder_input (app s') = folder_input (app s)
  /\ dest_input (app s') = dest_input (app s)
  /\ token_input (app s') = token_input (app s)
  /\ load_settings s' = (Ok tt, s')
  /\ folder_input (__init__ (settings s')) = folder_input (app s)
  /\ dest_input (__init__ (settings s')) = dest_input (app s)
  /\ token_input (__init__ (settings s')) = token_input (app s).
Proof.
  cbv zeta. destruct (run_inputs s) as (Hs & Hf & Hd & Ht).
  change (settings (saved s))
    with (mkSettings (folder_input (app s)) (dest_input (app s)) (token_input (app s))) in Hs.
  split; [exact Hs|]. split; [exact Hf|]. split; [exact Hd|]. split; [exact Ht|].
  split; [|rewrite Hs; now repeat split].
  unfold load_settings, bind, get, modify. f_equal.
  apply state_ext; try reflexivity.
  cbn [app with_app]. unfold load_settings_from. rewrite Hs.
  cbn [input_folder output_folder token_count]. rewrite <- Hf, <- Hd, <- Ht.
  now destruct (app (start_processing s).2).
Qed.

(** X11. The two folder dialogs: a dialog that is dismissed changes
    nothing; a folder that is chosen replaces its own input and nothing
    else. The stored preferences are not touched until a run starts, and the
    order in which the two folders are chosen does not matter. *)
Theorem folder_dialogs (src dst : string) (s : State) :
  exists s',
    (select_source_folder src ;;; select_dest_folder dst) s = (Ok tt, s')
    /\ (select_dest_folder dst ;;; select_source_folder src) s = (Ok tt, s')
    /\ folder_input (app s') = (if bool_decide (src = "") then folder_input (app s) else src)
    /\ dest_input (app s') = (if bool_decide (dst = "") then dest_input (app s) else dst)
    /\ token_input (app s') = token_input (app s)
    /\ processed_files (app s') = processed_files (app s)
    /\ fs s' = fs s /\ reports s' = reports s /\ trace s' = trace s
    /\ settings s' = settings s
    /\ (src = "" -> dst = "" -> s' = s).
Proof.
  unfold select_source_folder, select_dest_folder, bind, modify, ret, Py.truthy_str.
  destruct (bool_decide (src = "")) eqn:Hs, (bool_decide (dst = "")) eqn:Hd;
    cbn [negb]; eexists; (split; [reflexivity|]); (split; [reflexivity|]);
    repeat split; try reflexivity;
    try (intros Hs' Hd'; apply bool_decide_eq_false in Hs || apply bool_decide_eq_false in Hd;
         contradiction).
Qed.

(** [open] looks at the file system only. *)
Lemma open_w_raises (p : string) (e : exn) (s s' : State) :
  fs s' = fs s -> open_w p s = (Raise e, s) -> open_w p s' = (Raise e, s').
Proof.
  intros Hfs. unfold open_w, bind, get. rewrite Hfs.
  destruct (FS.lookup (Path.dirname p) (fs s)) as [[? ? ?|l [|]|]|];
    destruct (FS.lookup p (fs s)) as [[? ? ?|? ?|]|];
    unfold raise; try (now intros [= <-]); discriminate.
Qed.

(** A run whose report cannot be created ends with the exception that
    [open] raises. *)
Lemma start_processing_raises (s : State) (t : Z) (e : exn) :
  valid_inputs s t ->
  candidates (fs s) (folder_input (app s)) <> [] ->
  open_w (csv_path s) s = (Raise e, s) ->
  start_processing s = (Raise e, stopped s).
Proof.
  intros Hv Hc Ho. pose proof (valid_inputs_validation _ _ Hv) as Hval.
  destruct Hv as (Hint & Hpos & Hsrc & Hdst).
  unfold start_processing, bind at 1, save_current_settings, bind at 1, get at 1.
  unfold modify at 1. fold (saved s). unfold bind at 1. rewrite validate_inputs_run.
  change (validation (saved s)) with (validation s). rewrite Hval. cbn [negb].
  unfold bind at 1, get at 1, bind at 1, parse_token_input.
  change (app (saved s)) with (app s). rewrite Hint. unfold ret at 1.
  unfold bind at 1. rewrite get_epub_files_run.
  change (fs (saved s)) with (fs s). unfold stopped.
  destruct (candidates (fs s) (folder_input (app s))) as [|p l] eqn:Hl; [congruence|].
  unfold bind at 1, setMaximum, bind at 1. rewrite emit_run. unfold modify at 1.
  unfold bind at 1, setValue, bind at 1. rewrite emit_run. unfold modify at 1.
  unfold bind at 1, bind at 1, get at 1, ret at 1.
  unfold bind at 1.
  match goal with |- context [open_w ?c ?st] =>
    rewrite (open_w_raises c e s st eq_refl Ho) end.
  f_equal.
  apply state_ext;
    lazy [app fs reports settings now trace csv_path log_to with_reports
          with_trace with_app saved with_settings];
    try reflexivity.
  rewrite <- !app_assoc. reflexivity.
Qed.

(** X12. [validate_inputs] only asks that the destination exists. When the
    report cannot be created in it (the destination is a regular file, or a
    folder that cannot be written to), the exception of [open] leaves
    [start_processing]: the progress bar has been reset and the inputs
    stored, but no book is opened, nothing is moved or written, the set of
    processed files is as before and no message box is shown. *)
Theorem unwritable_destination_aborts (s : State) (t : Z) :
  valid_inputs s t ->
  candidates (fs s) (folder_input (app s)) <> [] ->
  can_open (fs s) (csv_path s) = false ->
  let l := candidates (fs s) (folder_input (app s)) in
  exists e s' log,
    start_processing s = (Raise e, s')
    /\ open_w (csv_path s) s = (Raise e, s)
    /\ trace s' = trace s ++ log ++ [SetMaximum (Z.of_nat (length l)); SetValue 0]
    /\ Forall (fun ev => exists msg, ev = Log ERROR msg) log
    /\ fs s' = fs s /\ reports s' = reports s
    /\ processed_files (app s') = processed_files (app s)
    /\ progress_maximum (app s') = Z.of_nat (length l)
    /\ progress_value (app s') = 0
    /\ settings s'
       = mkSettings (folder_input (app s)) (dest_input (app s)) (token_input (app s)).
Proof.
  intros Hv Hc Ho l.
  destruct (open_w_refused (csv_path s) s Ho) as [e He].
  exists e, (stopped s), (scan_events (fs s) (folder_input (app s))).
  split; [now apply start_processing_raises with (t := t)|]. split; [exact He|].
  split; [reflexivity|]. split.
  { unfold scan_events. destruct (scan_failure _ _); [|constructor].
    constructor; [now eexists|constructor]. }
  now repeat split.
Qed.

End InputsAndOutcomes.

(** ** The progress bar and the message boxes *)

Section ProgressAndBoxes.
Context `{Tokenizer}.
Import Lib.

Lemma quiet_events (p : string) (evs : list event) :
  Forall (reads_or_logs p) evs -> progress_values evs = [] /\ message_boxes evs = [].
Proof.
  induction 1 as [|e evs He _ [IH1 IH2]]; [now split|].
  destruct e; try contradiction; now split.
Qed.

Lemma scan_events_quiet (t : filesystem) (folder : string) :
  progress_values (scan_events t folder) = []
  /\ message_boxes (scan_events t folder) = [].
Proof. unfold scan_events. now destruct (scan_failure t folder). Qed.

Lemma events_step_quiet (csv_file dest_folder : string) (max_tokens : Z)
    (t : filesystem) (p : string) (n : Z) :
  progress_values (events_step csv_file dest_folder max_tokens t p n) = [n + 1]
  /\ message_boxes (events_step csv_file dest_folder max_tokens t p n) = [].
Proof.
  unfold events_step, progress_values, message_boxes.
  rewrite !omap_app, !List.filter_app.
  destruct (quiet_events p _ (read_events_kind t p)) as [Hp Hm].
  unfold progress_values, message_boxes in Hp, Hm. rewrite Hp, Hm.
  destruct (row_for t p) as [tc|]; [|now split].
  destruct (tc.2 <? max_tokens); [|now split].
  unfold move_events. now destruct (move_result t p _).
Qed.

Lemma run_events_quiet (csv_file dest_folder : string) (max_tokens : Z)
    (t : filesystem) (l : list string) (n : Z) :
  progress_values (run_events csv_file dest_folder max_tokens t l n)
  = count_from n (length l)
  /\ message_boxes (run_events csv_file dest_folder max_tokens t l n) = [].
Proof.
  revert n. induction l as [|p r IH]; intros n; [now split|].
  cbn [run_events length count_from]. unfold progress_values, message_boxes.
  rewrite omap_app, List.filter_app.
  destruct (events_step_quiet csv_file dest_folder max_tokens t p n) as [Hp Hm].
  destruct (IH (n + 1)) as [IHp IHm].
  unfold progress_values, message_boxes in Hp, Hm, IHp, IHm.
  now rewrite Hp, Hm, IHp, IHm.
Qed.

(** X13. In a run that gets as far as the loop, the progress bar is set to
    0 and then to 1, 2, ..., [k] in turn, where [k] is the number of files
    the run handles: the candidates not yet in the set of processed files,
    whatever becomes of each, up to the first one whose row cannot be
    written, where the run ends. The maximum is the number of candidates.
    When every row can be written the run ends normally, [k] counts all the
    candidates not yet in the set, so that the bar ends full for a new
    instance and short of it when files are skipped, and the final message
    reports the same [k]. *)
Theorem progress_counts_handled_files (s : State) (t : Z) :
  valid_inputs s t ->
  candidates (fs s) (folder_input (app s)) <> [] ->
  can_open (fs s) (csv_path s) = true ->
  let l := candidates (fs s) (folder_input (app s)) in
  let pl := plan (processed_files (app s)) l in
  let k := length (ready (fs s) pl) in
  exists s' evs,
    (start_processing s).2 = s'
    /\ trace s' = trace s ++ evs
    /\ progress_values evs = 0 :: count_from 0 k
    /\ progress_maximum (app s') = Z.of_nat (length l)
    /\ progress_value (app s') = Z.of_nat k
    /\ (k <= length pl <= length l)%nat
    /\ (all_writable s ->
        (start_processing s).1 = Ok tt
        /\ k = length pl
        /\ In (MessageBox Information "Done" (done_message (Z.of_nat k) (csv_path s))) evs
        /\ (processed_files (app s) = ∅ -> List.NoDup (List.map fst (fs s)) ->
            k = length l)).
Proof.
  intros Hv Hc Ho l pl k.
  destruct (run_loop s t Hv Hc Ho) as (s' & Hr & Htr & _ & _ & _ & Hmax & Hval & _).
  fold l pl in Hr, Htr, Hmax, Hval. fold k in Hval.
  eexists s', _. split; [now rewrite Hr|]. split; [exact Htr|].
  split; [|split; [exact Hmax|split; [exact Hval|split; [split|]]]].
  - unfold progress_values. rewrite !omap_app.
    destruct (scan_events_quiet (fs s) (folder_input (app s))) as [Hp _].
    destruct (run_events_quiet (csv_path s) (dest_input (app s)) t (fs s)
                (ready (fs s) pl) 0) as [Hq _].
    unfold progress_values in Hp, Hq. rewrite Hp, Hq.
    destruct (stuck (fs s) pl) as [q|].
    + destruct (quiet_events q _ (read_events_kind (fs s) q)) as [Hread _].
      unfold progress_values in Hread. rewrite Hread. cbn. now rewrite app_nil_r.
    + cbn. now rewrite app_nil_r.
  - apply ready_length.
  - apply plan_length.
  - intros Hw. destruct (ready_all (fs s) pl (all_writable_plan s Hw)) as [Hrd Hst].
    rewrite Hr, Hst. split; [reflexivity|]. split; [unfold k; now rewrite Hrd|].
    split.
    + apply in_app_iff. right. apply in_app_iff. right. now left.
    + intros Hempty Hnd. unfold k. rewrite Hrd. unfold pl. rewrite Hempty. f_equal.
      apply plan_fresh. now apply candidates_NoDup.
Qed.

(** X14. A run that returns shows exactly one message box, and shows it
    last: the error box when the inputs are refused, the warning box when
    there is no candidate, the information box after the loop. A run that is
    ended by an exception shows none. *)
Theorem one_message_box_per_run (s : State) :
  exists evs,
    trace (start_processing s).2 = trace s ++ evs
    /\ match (start_processing s).1 with
       | Ok _ =>
           exists pre i title text,
             evs = pre ++ [MessageBox i title text]
             /\ message_boxes pre = []
             /\ match i with
                | Critical => (validation s).1 = false
                | Warning =>
                    (validation s).1 = true
                    /\ candidates (fs s) (folder_input (app s)) = []
                | Information =>
                    (validation s).1 = true
                    /\ candidates (fs s) (folder_input (app s)) <> []
                    /\ can_open (fs s) (csv_path s) = true
                end
       | Raise _ => message_boxes evs = []
       end.
Proof.
  destruct (run_cases s)
    as [[Hv Hr]|[(t & Hv & Hc & Hr)|[(t & e & Hv & Hc & Ho & Hr)|(t & Hv & Hc & Ho)]]].
  - rewrite Hr. eexists. split; [reflexivity|]. cbn [fst].
    exists [], Critical, "Error", (validation s).2. now repeat split.
  - rewrite Hr. eexists. split; [reflexivity|]. cbn [fst].
    exists (scan_events (fs s) (folder_input (app s))), Warning, "Warning",
           "No EPUB files found!".
    split; [reflexivity|]. split; [apply scan_events_quiet|].
    split; [|exact Hc]. now rewrite (valid_inputs_validation s t Hv).
  - rewrite Hr. eexists. split; [reflexivity|]. cbn [fst].
    unfold message_boxes. rewrite List.filter_app.
    destruct (scan_events_quiet (fs s) (folder_input (app s))) as [_ Hm].
    unfold message_boxes in Hm. now rewrite Hm.
  - destruct (run_loop s t Hv Hc Ho) as (s' & Hr & Htr & _).
    rewrite Hr. cbn [fst snd]. eexists. split; [exact Htr|].
    destruct (scan_events_quiet (fs s) (folder_input (app s))) as [_ Hm].
    destruct (run_events_quiet (csv_path s) (dest_input (app s)) t (fs s)
                (ready (fs s)
                   (plan (processed_files (app s))
                      (candidates (fs s) (folder_input (app s))))) 0) as [_ Hq].
    destruct (stuck (fs s) _) as [q|].
    + unfold message_boxes in *. rewrite !List.filter_app, Hm, Hq.
      destruct (quiet_events q _ (read_events_kind (fs s) q)) as [_ Hread].
      unfold message_boxes in Hread. now rewrite Hread.
    + eexists _, Information, "Done", _. split.
      { rewrite !app_assoc. reflexivity. }
      split.
      * unfold message_boxes in *. rewrite !List.filter_app. now rewrite Hm, Hq.
      * split; [now rewrite (valid_inputs_validation s t Hv)|]. now split.
Qed.

End ProgressAndBoxes.

(** ** What a run leaves alone *)

Section Frames.
Context `{Tokenizer}.
Import Lib.






(** The events of the iteration on a file of a list are events of the loop
    over the list. *)
Lemma events_step_in_run (csv_file dest_folder : string) (max_tokens : Z)
    (t : filesystem) (l : list string) (p : string) :
  In p l ->
  exists n, forall e,
    In e (events_step csv_file dest_folder max_tokens t p n) ->
    In e (run_events csv_file dest_folder max_tokens t l 0).
Proof.
  intros Hin. apply in_split in Hin as (l1 & l2 & ->).
  exists (Z.of_nat (length l1)). intros e He. rewrite run_events_app.
  cbn [run_events]. rewrite Z.add_0_l.
  apply in_app_iff. right. apply in_app_iff. now left.
Qed.




(** X17. No candidate is lost by a run: afterwards it is either at its
    path, as it was, or at the place its move put it, under the same base
    name and with the same contents, and gone from its path. *)
Theorem no_candidate_is_lost (s : State) (p : string) (n : node) :
  In p (candidates (fs s) (folder_input (app s))) ->
  FS.lookup p (fs s) = Some n ->
  let s' := (start_processing s).2 in
  let dst := real_dst (fs s) p (dest_path (dest_input (app s)) p) in
  FS.lookup p (fs s') = Some n
  \/ (FS.lookup dst (fs s') = Some n
      /\ FS.lookup p (fs s') = None
      /\ Path.basename dst = Path.basename p
      /\ In (Move p (dest_path (dest_input (app s)) p)) (events_of s s')).
Proof.
  intros Hc Hl s' dst.
  destruct (candidate_fate s p Hc) as [Hsame|(t & Hv & Hp & Hstep)].
  { left. unfold s'. now rewrite Hsame. }
  pose proof (candidates_in_folder (fs s) (folder_input (app s))) as Hall.
  rewrite List.Forall_forall in Hall.
  pose proof (child_basename (folder_input (app s)) p (Hall p Hc)) as Hbase.
  pose proof (same_name_real_dst (dest_input (app s)) (fs s) p Hbase) as Hdst.
  fold dst in Hdst.
  pose proof (Hstep p (same_name_refl p)) as Hp'.
  pose proof (Hstep dst Hdst) as Hd'. fold s' in Hp', Hd'.
  unfold fs_step in Hp', Hd'.
  destruct (row_for (fs s) p) as [tc|] eqn:Hrow; [|left; congruence].
  destruct (tc.2 <? t) eqn:Hlt; [|left; congruence].
  destruct (move_result (fs s) p (dest_path (dest_input (app s)) p)) as [e|t'] eqn:Hm;
    [left; congruence|].
  destruct (move_result_inr _ _ _ _ Hm) as (size & book & Hl' & ->).
  fold dst in Hp', Hd'. rewrite Hl in Hl'. injection Hl' as ->.
  rewrite lookup_bind_eq in Hd'.
  destruct (decide (p = dst)) as [Heq|Hne].
  - left. rewrite Heq at 1. exact Hd'.
  - right. rewrite lookup_bind_ne, lookup_remove_eq in Hp' by exact Hne.
    split; [exact Hd'|]. split; [exact Hp'|]. split; [exact Hdst|].
    assert (Hcs : candidates (fs s) (folder_input (app s)) <> [])
      by (intros Hnil; rewrite Hnil in Hc; contradiction).
    destruct (run_cases s)
      as [[Hv' Hr]|[(t1 & _ & Hc' & _)|[(t1 & e & _ & _ & Ho & Hr)|(t1 & _ & _ & Ho)]]].
    + rewrite (valid_inputs_validation s t Hv) in Hv'. discriminate.
    + contradiction.
    + exfalso. unfold s' in Hp'. rewrite Hr in Hp'. cbn in Hp'. congruence.
    + destruct (run_loop s t Hv Hcs Ho) as (s1 & Hr & Htr & _).
      unfold s', events_of. rewrite Hr. cbn [snd]. rewrite Htr, drop_app_length.
      destruct (events_step_in_run (csv_path s) (dest_input (app s)) t (fs s)
                  _ p Hp) as [k Hk].
      apply in_app_iff. right. apply in_app_iff. left. apply Hk.
      unfold events_step. rewrite Hrow, Hlt. apply in_app_iff. right.
      apply in_app_iff. left. right. unfold move_events. rewrite Hm. now left.
Qed.

(** X18. A run never moves a file it has not recorded: every move of a run
    is the move of a candidate that was not yet in the set of processed
    files, that was successfully extracted and counted with a count below
    the threshold, to the destination folder under its own base name; and
    the report of the run has the row of that file. *)
Theorem every_move_is_recorded (s : State) :
  exists evs,
    trace (start_processing s).2 = trace s ++ evs
    /\ forall p d, In (Move p d) evs ->
         exists t title c,
           valid_inputs s t
           /\ In p (candidates (fs s) (folder_input (app s)))
           /\ (p ∉ processed_files (app s))
           /\ classified (fs s) p title c
           /\ c < t
           /\ d = dest_path (dest_input (app s)) p
           /\ exists rows,
                Report.lookup (csv_path s) (reports (start_processing s).2) = Some rows
                /\ In [CStr title; CInt c; CStr p] rows.
Proof.
  destruct (run_about_where s) as (evs & Htr & Hab).
  exists evs. split; [exact Htr|]. intros p d Hin.
  destruct (Hab p (Move p d) Hin eq_refl) as (t & Hv & Hcs & Ho & [Hrun|[_ Hread]]);
    [|now apply read_events_no_move in Hread].
  destruct (about_run_events_step _ _ _ _ _ _ _ _ Hrun (eq_refl : about p (Move p d)))
    as [Hrd [k Hstep]].
  pose proof Hrd as Hplan. apply ready_in in Hplan as [Hplan _].
  apply plan_in in Hplan as [Hc Hnew].
  unfold events_step in Hstep. apply in_app_iff in Hstep as [Hstep|Hstep].
  { now apply read_events_no_move in Hstep. }
  apply in_app_iff in Hstep as [Hstep|Hstep];
    [|destruct Hstep as [Hs|[Hs|[]]]; discriminate].
  destruct (row_for (fs s) p) as [[title c]|] eqn:Hrow; [|easy].
  destruct Hstep as [Hs|Hstep]; [discriminate|]. cbn [snd] in Hstep.
  destruct (c <? t) eqn:Hlt; [|easy]. apply Z.ltb_lt in Hlt.
  assert (Hd : d = dest_path (dest_input (app s)) p).
  { unfold move_events in Hstep.
    destruct (move_result (fs s) p _); destruct Hstep as [Hs|[Hs|[]]];
      try discriminate; now injection Hs as <-. }
  exists t, title, c. split; [exact Hv|]. split; [exact Hc|]. split; [exact Hnew|].
  split; [now apply row_for_classified|]. split; [exact Hlt|]. split; [exact Hd|].
  destruct (run_loop s t Hv Hcs Ho) as (s' & Hr & _ & Hrep & _).
  rewrite Hr. cbn [snd]. eexists. split; [exact Hrep|].
  right. apply run_rows_in. exists p, (title, c). now repeat split.
Qed.

Lemma looped_skip (csv_file dest_folder : string) (max_tokens : Z)
    (l : list string) (n : Z) (s : State) :
  (forall p, In p l -> p ∈ processed_files (app s)) ->
  looped csv_file dest_folder max_tokens l n s = (Ok n, s).
Proof.
  induction l as [|p r IH]; intros Hall; [reflexivity|].
  cbn [looped]. rewrite bool_decide_eq_true_2 by (apply Hall; now left).
  apply IH. intros q Hq. apply Hall. now right.
Qed.

(** X19. A run over candidates that are all in the set of processed files
    already (a second run of the same instance over what the first one left
    in the source folder) handles none of them: it creates a report that
    holds the header row only, reports 0 processed files, and leaves the
    files, the set and the progress value 0 as they are. *)
Theorem run_over_processed_files_handles_nothing (s : State) (t : Z) :
  valid_inputs s t ->
  candidates (fs s) (folder_input (app s)) <> [] ->
  can_open (fs s) (csv_path s) = true ->
  (forall p, In p (candidates (fs s) (folder_input (app s))) ->
             p ∈ processed_files (app s)) ->
  let l := candidates (fs s) (folder_input (app s)) in
  exists s' log,
    start_processing s = (Ok tt, s')
    /\ Report.lookup (csv_path s) (reports s') = Some [header]
    /\ fs s' = fs s
    /\ processed_files (app s') = processed_files (app s)
    /\ progress_maximum (app s') = Z.of_nat (length l)
    /\ progress_value (app s') = 0
    /\ trace s' = trace s ++ log
                  ++ [SetMaximum (Z.of_nat (length l)); SetValue 0;
                      OpenCsv (csv_path s); WriteRow (csv_path s) header;
                      MessageBox Information "Done" (done_message 0 (csv_path s))]
    /\ Forall (fun e => exists msg, e = Log ERROR msg) log.
Proof.
  intros Hv Hc Ho Hall l.
  rewrite (start_processing_run s t Hv Hc Ho). cbv zeta.
  rewrite looped_skip by exact Hall. cbn [fst snd].
  eexists _, (scan_events (fs s) (folder_input (app s))).
  split; [reflexivity|]. split; [|split; [reflexivity|split; [reflexivity|]]].
  - cbn [reports log_to with_trace prepared with_reports].
    now rewrite report_lookup_append, report_lookup_create.
  - split; [reflexivity|]. split; [reflexivity|]. split.
    + cbn [trace log_to with_trace prepared with_reports with_app saved with_settings].
      rewrite <- !app_assoc. reflexivity.
    + unfold scan_events. destruct (scan_failure _ _); [|constructor].
      constructor; [now eexists|constructor].
Qed.

(** X20. The report is never taken for a book, and no book is ever put in
    its place: the name of the report does not pass the test of
    [get_epub_files], so that the report is not a candidate, not even of a
    later run over a source folder that is also the destination; and
    neither the path a candidate is moved to nor the place where it lands is
    the path of the report. *)
Theorem report_is_never_a_book (s : State) :
  Py.endswith (Py.lower (Path.basename (csv_path s))) ".epub" = false
  /\ forall p, In p (candidates (fs s) (folder_input (app s))) ->
       p <> csv_path s
       /\ dest_path (dest_input (app s)) p <> csv_path s
       /\ forall t', real_dst t' p (dest_path (dest_input (app s)) p) <> csv_path s.
Proof.
  assert (Hcsv : Py.endswith (Py.lower (Path.basename (csv_path s))) ".epub" = false).
  { unfold csv_path. rewrite basename_join_any, <- str_app_assoc, basename_app.
    change (Path.has_sep ".csv") with false. cbv iota.
    apply not_true_is_false. intros Ht. apply endswith_spec in Ht as [pre Ht].
    rewrite lower_app in Ht.
    change (Py.lower ".csv") with (".cs" +:+ "v") in Ht.
    change ".epub" with (".epu" +:+ "b") in Ht.
    rewrite <- !str_app_assoc in Ht.
    apply last_char_differs in Ht; [exact Ht|discriminate]. }
  split; [exact Hcsv|]. intros p Hc.
  destruct (candidates_sound _ _ _ Hc) as (Hch & Hsuf & _).
  pose proof (child_basename (folder_input (app s)) p Hch) as Hbase.
  assert (Hne : forall q, Path.basename q = Path.basename p -> q <> csv_path s).
  { intros q Hq ->. rewrite Hq in Hcsv. congruence. }
  split; [now apply Hne|]. split.
  - apply Hne. apply same_name_dest_path.
  - intros t'. apply Hne. now apply same_name_real_dst.
Qed.

End Frames.

(** ** Two runs compared, and the run after a broken scan *)

Section Comparisons.
Context `{Tokenizer}.
Import Lib.

Lemma events_of_app (s s' : State) (evs : list event) :
  trace s' = trace s ++ evs -> events_of s s' = evs.
Proof. intros Htr. unfold events_of. rewrite Htr. apply drop_app_length. Qed.

Lemma events_of_log_to (s x : State) (evs : list event) :
  trace x = trace s -> events_of s (log_to evs x) = evs.
Proof. intros Htr. apply events_of_app. cbn [trace log_to with_trace]. now rewrite Htr. Qed.

(** The moves among the events of a loop are those of the files of the list
    that have a row with a count below the threshold. *)
Lemma move_in_run_events (csv_file dest_folder : string) (max_tokens : Z)
    (t : filesystem) (l : list string) (p d : string) :
  In (Move p d) (run_events csv_file dest_folder max_tokens t l 0)
  <-> In p l
      /\ d = dest_path dest_folder p
      /\ exists tc, row_for t p = Some tc /\ tc.2 < max_tokens.
Proof.
  split.
  - intros Hin.
    destruct (about_run_events_step _ _ _ _ _ _ _ _ Hin eq_refl) as [Hp [k Hk]].
    split; [exact Hp|].
    unfold events_step in Hk. apply in_app_iff in Hk as [Hk|Hk].
    { now apply read_events_no_move in Hk. }
    apply in_app_iff in Hk as [Hk|Hk];
      [|destruct Hk as [Hs|[Hs|[]]]; discriminate].
    destruct (row_for t p) as [tc|] eqn:Hrow; [|easy].
    destruct Hk as [Hs|Hk]; [discriminate|].
    destruct (tc.2 <? max_tokens) eqn:Hlt; [|easy]. apply Z.ltb_lt in Hlt.
    split; [|now exists tc].
    unfold move_events in Hk.
    destruct (move_result t p _); destruct Hk as [Hs|[Hs|[]]];
      try discriminate; now injection Hs as <-.
  - intros (Hp & -> & tc & Hrow & Hlt).
    destruct (events_step_in_run csv_file dest_folder max_tokens t l p Hp) as [n Hn].
    apply Hn. unfold events_step. rewrite Hrow. apply Z.ltb_lt in Hlt. rewrite Hlt.
    apply in_app_iff. right. apply in_app_iff. left. right.
    unfold move_events. destruct (move_result t p _); now left.
Qed.

(** X21. The threshold decides on the moves only. Of two runs that differ
    in nothing but the threshold typed in, the one with the higher threshold
    tries every move that the other one tries, and both write the same
    report. *)
Theorem raising_the_threshold_only_adds_moves (s : State) (txt1 txt2 : string)
    (t1 t2 : Z) :
  valid_inputs (typed txt1 s) t1 ->
  valid_inputs (typed txt2 s) t2 ->
  t1 <= t2 ->
  let s1 := typed txt1 s in
  let s2 := typed txt2 s in
  (forall p d, In (Move p d) (events_of s1 (start_processing s1).2) ->
               In (Move p d) (events_of s2 (start_processing s2).2))
  /\ Report.lookup (csv_path s) (reports (start_processing s1).2)
     = Report.lookup (csv_path s) (reports (start_processing s2).2).
Proof.
  intros Hv1 Hv2 Hle s1 s2.
  destruct (candidates (fs s) (folder_input (app s))) as [|p0 l0] eqn:Hc.
  { rewrite (start_processing_empty s1 t1 Hv1 Hc), (start_processing_empty s2 t2 Hv2 Hc).
    split; [|reflexivity]. intros p d Hin. cbn [snd] in Hin.
    rewrite events_of_log_to in Hin by reflexivity.
    apply in_app_iff in Hin as [Hin|[Hin|[]]]; [|discriminate].
    unfold scan_events in Hin. destruct (scan_failure _ _); [|easy].
    destruct Hin as [Hin|[]]. discriminate. }
  assert (Hc1 : candidates (fs s1) (folder_input (app s1)) <> []).
  { change (candidates (fs s1) (folder_input (app s1)))
      with (candidates (fs s) (folder_input (app s))). now rewrite Hc. }
  assert (Hc2 : candidates (fs s2) (folder_input (app s2)) <> []) by exact Hc1.
  destruct (can_open (fs s) (csv_path s)) eqn:Ho.
  - destruct (run_loop s1 t1 Hv1 Hc1 Ho) as (s1' & Hr1 & Htr1 & Hrep1 & _).
    destruct (run_loop s2 t2 Hv2 Hc2 Ho) as (s2' & Hr2 & Htr2 & Hrep2 & _).
    rewrite Hr1, Hr2. cbn [snd].
    split; [|change (csv_path s) with (csv_path s1) at 1; rewrite Hrep1;
             change (csv_path s) with (csv_path s2); now rewrite Hrep2].
    rewrite (events_of_app s1 s1' _ Htr1), (events_of_app s2 s2' _ Htr2).
    intros p d Hin.
    apply in_app_iff in Hin as [Hin|Hin].
    { exfalso. apply in_app_iff in Hin as [Hin|Hin].
      - unfold scan_events in Hin. destruct (scan_failure _ _); [|easy].
        destruct Hin as [Hin|[]]. discriminate.
      - destruct Hin as [Hs|[Hs|[Hs|[Hs|[]]]]]; discriminate. }
    apply in_app_iff in Hin as [Hin|Hin].
    + apply in_app_iff. right. apply in_app_iff. left.
      apply move_in_run_events in Hin as (Hp & Hd & tc & Hrow & Hlt).
      apply move_in_run_events. split; [exact Hp|]. split; [exact Hd|].
      exists tc. split; [exact Hrow|lia].
    + exfalso. change (fs s1) with (fs s) in Hin.
      change (processed_files (app s1)) with (processed_files (app s)) in Hin.
      change (folder_input (app s1)) with (folder_input (app s)) in Hin.
      destruct (stuck (fs s) _) as [q|].
      * now apply read_events_no_move in Hin.
      * destruct Hin as [Hin|[]]. discriminate.
  - destruct (start_processing_refused s1 t1 Hv1 Hc1 Ho) as [e1 Hr1].
    destruct (start_processing_refused s2 t2 Hv2 Hc2 Ho) as [e2 Hr2].
    rewrite Hr1, Hr2. cbn [snd]. split; [|reflexivity].
    intros p d Hin. unfold stopped in Hin.
    rewrite events_of_log_to in Hin by reflexivity.
    apply in_app_iff in Hin as [Hin|Hin].
    + unfold scan_events in Hin. destruct (scan_failure _ _); [|easy].
      destruct Hin as [Hin|[]]. discriminate.
    + destruct Hin as [Hs|[Hs|[]]]; discriminate.
Qed.

(** X22. When the enumeration of the source folder breaks after some
    candidates have been found, the run goes on with these and, when every
    row it has to write can be written, ends normally: the error is
    logged once, before anything else, and the only message box is the
    final one. The files that the scan did not reach are not opened, not
    recorded and not moved, and the progress bar counts the candidates found
    only. *)
Theorem broken_scan_goes_unnoticed (s : State) (t : Z) (e : exn) :
  valid_inputs s t ->
  scan_failure (fs s) (folder_input (app s)) = Some e ->
  candidates (fs s) (folder_input (app s)) <> [] ->
  can_open (fs s) (csv_path s) = true ->
  all_writable s ->
  let l := candidates (fs s) (folder_input (app s)) in
  exists s' evs,
    start_processing s = (Ok tt, s')
    /\ trace s' = trace s
                  ++ Log ERROR ("Error scanning directory: " +:+ exn_str e) :: evs
    /\ message_boxes evs
       = [MessageBox Information "Done"
            (done_message (Z.of_nat (length (plan (processed_files (app s)) l)))
               (csv_path s))]
    /\ (forall p ev, In ev evs -> about p ev -> In p l)
    /\ progress_maximum (app s') = Z.of_nat (length l).
Proof.
  intros Hv Hf Hc Ho Hw l.
  destruct (run_complete s t Hv Hc Ho Hw) as (s' & Hr & Htr & _ & _ & _ & Hmax & _).
  unfold scan_events in Htr. rewrite Hf in Htr. cbn [List.app] in Htr.
  eexists s', _. split; [exact Hr|]. split; [exact Htr|].
  split; [|split; [|exact Hmax]].
  - unfold message_boxes. cbn [List.filter is_message_box]. rewrite List.filter_app.
    destruct (run_events_quiet (csv_path s) (dest_input (app s)) t (fs s)
                (plan (processed_files (app s))
                   (candidates (fs s) (folder_input (app s)))) 0) as [_ Hq].
    unfold message_boxes in Hq. now rewrite Hq.
  - intros p ev Hin Ha.
    destruct Hin as [<-|[<-|[<-|[<-|Hin]]]]; try easy.
    apply in_app_iff in Hin as [Hin|[<-|[]]]; [|easy].
    apply about_run_events with (p := p) in Hin; [|exact Ha].
    now apply plan_in in Hin.
Qed.

End Comparisons.

(** ** Nothing is done twice *)

Section Once.
Context `{Tokenizer}.
Import Lib.

Lemma opened_logs (evs : list event) :
  Forall (fun e => exists msg, e = Log ERROR msg) evs -> opened evs = [] /\ moved evs = [].
Proof.
  induction 1 as [|e evs [msg ->] _ [IH1 IH2]]; [now split|]. now split.
Qed.

Lemma opened_read_events (t : filesystem) (p : string) :
  (opened (read_events t p) = [] \/ opened (read_events t p) = [p])
  /\ moved (read_events t p) = [].
Proof.
  unfold read_events.
  destruct (FS.lookup p t) as [[size book pinned| |]|].
  - destruct (MAX_FILE_SIZE <? size); [now split; [left|]|].
    destruct book as [b|]; [|now split; [right|]].
    destruct (opened_logs _ (content_events_log b)) as [Ho Hm].
    unfold opened, moved in *. cbn [omap list_omap]. rewrite Ho, Hm.
    now split; [right|].
  - now split; [right|].
  - now split; [left|].
  - now split; [left|].
Qed.

Lemma opened_events_step (csv_file dest_folder : string) (max_tokens : Z)
    (t : filesystem) (p : string) (n : Z) :
  (opened (events_step csv_file dest_folder max_tokens t p n) = []
   \/ opened (events_step csv_file dest_folder max_tokens t p n) = [p])
  /\ (moved (events_step csv_file dest_folder max_tokens t p n) = []
      \/ moved (events_step csv_file dest_folder max_tokens t p n) = [p]).
Proof.
  unfold events_step. destruct (opened_read_events t p) as [Ho Hm].
  unfold opened, moved in *. rewrite !omap_app, Hm.
  assert (Hrest :
    omap (fun e => match e with ReadEpub q => Some q | _ => None end)
      (match row_for t p with
       | Some tc => WriteRow csv_file (row_cells p tc)
                    :: (if tc.2 <? max_tokens then move_events dest_folder t p tc.2 else [])
       | None => []
       end) = []).
  { destruct (row_for t p) as [tc|]; [|reflexivity].
    destruct (tc.2 <? max_tokens); [|reflexivity].
    unfold move_events. now destruct (move_result t p _). }
  rewrite Hrest. cbn [omap list_omap List.app]. rewrite !app_nil_r. split; [exact Ho|].
  destruct (row_for t p) as [tc|]; [|now left].
  destruct (tc.2 <? max_tokens); [|now left].
  unfold move_events. destruct (move_result t p _); now right.
Qed.

Lemma opened_run_events (csv_file dest_folder : string) (max_tokens : Z)
    (t : filesystem) (l : list string) (n : Z) :
  opened (run_events csv_file dest_folder max_tokens t l n) `sublist_of` l
  /\ moved (run_events csv_file dest_folder max_tokens t l n) `sublist_of` l.
Proof.
  revert n. induction l as [|p r IH]; intros n; [split; constructor|].
  cbn [run_events]. unfold opened, moved in *. rewrite !omap_app.
  destruct (opened_events_step csv_file dest_folder max_tokens t p n) as [Ho Hm].
  unfold opened, moved in Ho, Hm. destruct (IH (n + 1)) as [IHo IHm]. split.
  - destruct Ho as [-> | ->]; [now apply sublist_cons|now apply sublist_skip].
  - destruct Hm as [-> | ->]; [now apply sublist_cons|now apply sublist_skip].
Qed.

Lemma row_paths_run_rows (t : filesystem) (l : list string) :
  row_paths (run_rows t l) `sublist_of` l
  /\ Forall (fun row => exists title c p, row = [CStr title; CInt c; CStr p]) (run_rows t l).
Proof.
  induction l as [|p r [IH1 IH2]]; [split; constructor|].
  rewrite run_rows_cons. destruct (row_for t p) as [[title c]|].
  - split; [now apply sublist_skip|]. constructor; [|exact IH2]. now exists title, c, p.
  - split; [now apply sublist_cons|exact IH2].
Qed.

Lemma scan_events_opened (t : filesystem) (folder : string) :
  opened (scan_events t folder) = [] /\ moved (scan_events t folder) = [].
Proof. unfold scan_events. now destruct (scan_failure t folder). Qed.

(** X23. In one run nothing is done twice to a file: no archive is opened
    twice, no file is moved twice, and the report has at most one row for a
    path; under its header the report has rows of a title, a count and a
    path only. *)
Theorem nothing_is_done_twice (s : State) :
  exists evs,
    trace (start_processing s).2 = trace s ++ evs
    /\ List.NoDup (opened evs)
    /\ List.NoDup (moved evs)
    /\ (reports (start_processing s).2 = reports s
        \/ exists rows,
             Report.lookup (csv_path s) (reports (start_processing s).2)
             = Some (header :: rows)
             /\ List.NoDup (row_paths rows)
             /\ Forall (fun row => exists title c p, row = [CStr title; CInt c; CStr p])
                       rows).
Proof.
  destruct (run_cases s)
    as [[Hv Hr]|[(t & Hv & Hc & Hr)|[(t & e & Hv & Hc & Ho & Hr)|(t & Hv & Hc & Ho)]]].
  - rewrite Hr. eexists. split; [reflexivity|].
    split; [constructor|]. split; [constructor|]. now left.
  - rewrite Hr. eexists. split; [reflexivity|].
    destruct (scan_events_opened (fs s) (folder_input (app s))) as [Ho Hm].
    unfold opened, moved in *. rewrite !omap_app, Ho, Hm.
    split; [constructor|]. split; [constructor|]. now left.
  - rewrite Hr. eexists. split; [reflexivity|].
    destruct (scan_events_opened (fs s) (folder_input (app s))) as [Ho' Hm].
    unfold opened, moved in *. rewrite !omap_app, Ho', Hm.
    split; [constructor|]. split; [constructor|]. now left.
  - destruct (run_loop s t Hv Hc Ho) as (s' & Hr & Htr & Hrep & _).
    rewrite Hr. cbn [snd]. eexists. split; [exact Htr|].
    set (pl := plan (processed_files (app s)) (candidates (fs s) (folder_input (app s)))) in *.
    pose proof (plan_NoDup (processed_files (app s))
                  (candidates (fs s) (folder_input (app s)))) as Hnd.
    fold pl in Hnd. apply NoDup_ListNoDup in Hnd.
    destruct (scan_events_opened (fs s) (folder_input (app s))) as [Hso Hsm].
    destruct (opened_run_events (csv_path s) (dest_input (app s)) t (fs s)
                (ready (fs s) pl) 0) as [Hro Hrm].
    destruct (row_paths_run_rows (fs s) (ready (fs s) pl)) as [Hrows Hshape].
    pose proof (ready_stuck (fs s) pl) as Hrs.
    assert (Htail : exists xs,
              opened (match stuck (fs s) pl with
                      | Some q => read_events (fs s) q
                      | None => [MessageBox Information "Done"
                                   (done_message (Z.of_nat (length (ready (fs s) pl)))
                                      (csv_path s))]
                      end) = xs
              /\ moved (match stuck (fs s) pl with
                        | Some q => read_events (fs s) q
                        | None => [MessageBox Information "Done"
                                     (done_message (Z.of_nat (length (ready (fs s) pl)))
                                        (csv_path s))]
                        end) = []
              /\ (ready (fs s) pl ++ xs) `sublist_of` pl).
    { destruct (stuck (fs s) pl) as [q|].
      - destruct Hrs as [_ [rest Hpl]].
        destruct (opened_read_events (fs s) q) as [[Hq|Hq] Hm]; rewrite Hq.
        + exists []. split; [reflexivity|]. split; [exact Hm|].
          rewrite app_nil_r. rewrite Hpl at 2. now apply sublist_inserts_r.
        + exists [q]. split; [reflexivity|]. split; [exact Hm|].
          rewrite Hpl at 2. apply sublist_app; [reflexivity|].
          apply sublist_skip, sublist_nil_l.
      - exists []. split; [reflexivity|]. split; [reflexivity|].
        rewrite app_nil_r, Hrs. reflexivity. }
    destruct Htail as (xs & Hxo & Hxm & Hsub).
    assert (Hrd : ready (fs s) pl `sublist_of` pl).
    { etransitivity; [|exact Hsub]. now apply sublist_inserts_r. }
    unfold opened, moved in *. rewrite !omap_app, Hso, Hsm, Hxo, Hxm.
    cbn [omap list_omap List.app]. rewrite !app_nil_r.
    split.
    { apply NoDup_ListNoDup. refine (sublist_NoDup _ pl Hnd _).
      etransitivity; [|exact Hsub]. now apply sublist_app. }
    split.
    { apply NoDup_ListNoDup. refine (sublist_NoDup _ pl Hnd _).
      etransitivity; [exact Hrm|exact Hrd]. }
    right. eexists. split; [exact Hrep|]. split; [|exact Hshape].
    apply NoDup_ListNoDup. refine (sublist_NoDup _ pl Hnd _).
    etransitivity; [exact Hrows|exact Hrd].
Qed.

End Once.

(** * The further properties on the sample surroundings *)

Section FurtherSamples.
Import Lib Sample.

(** X3 on a book without title metadata: it is reported as [U.epub]. *)
Lemma untitled_book_witness :
  In U (candidates (fs (fresh untitled)) "/books")
  /\ (@process_epub one_per_byte U (fresh untitled)).1 = Ok (Some "U.epub", Some 7).
Proof.
  assert (Hc : In U (candidates (fs (fresh untitled)) "/books")) by (vm_compute; tauto).
  assert (Hs : 100 <= MAX_FILE_SIZE) by (unfold MAX_FILE_SIZE; lia).
  split; [exact Hc|].
  destruct (@untitled_book_goes_by_its_file_name one_per_byte (fresh untitled) "/books" U
              100 (mkBook [] [chapter 7]) false Hc eq_refl Hs eq_refl) as (Hr & _ & _).
  rewrite Hr. reflexivity.
Defined.

(** X4 on the first book of the specification, with an encoding that cannot
    be had. *)
Lemma tokenizer_failure_witness :
  (@process_epub failing A (fresh two_books)).1 = Ok (Some "Alpha", None)
  /\ passed_over A (fresh two_books) (@start_processing failing (fresh two_books)).2.
Proof.
  assert (Hs : 2048 <= MAX_FILE_SIZE) by (unfold MAX_FILE_SIZE; lia).
  assert (Ht : extracted_text (get_items (book "Alpha" 120)) <> "")
    by (vm_compute; discriminate).
  destruct (@tokenizer_failure_is_contained failing (fresh two_books) A 2048
              (book "Alpha" 120) false
              (mkExn "ValueError" "Unknown encoding cl100k_base") eq_refl Hs Ht eq_refl)
    as (_ & Hr & Hp).
  split; [exact Hr|exact Hp].
Defined.

(** X5 on a file that is not an archive. *)
Lemma unreadable_archive_witness :
  (exists msg s1,
     @process_epub one_per_byte U (fresh not_an_archive) = (Ok (None, None), s1)
     /\ trace s1 = [ReadEpub U; Log ERROR ("Error processing " +:+ U +:+ ": " +:+ msg)])
  /\ passed_over U (fresh not_an_archive) (run (fresh not_an_archive)).2.
Proof.
  assert (Hs : 100 <= MAX_FILE_SIZE) by (unfold MAX_FILE_SIZE; lia).
  destruct (@unreadable_archive_is_passed_over one_per_byte (fresh not_an_archive) U 100
              false eq_refl Hs)
    as ((msg & s1 & Hr & Htr & _) & Hp).
  split; [|exact Hp]. exists msg, s1. split; [exact Hr|exact Htr].
Defined.

(** X6 on a book whose first title entry is empty: it has seven tokens and a
    second title, and is passed over. *)
Lemma book_without_title_witness :
  (@process_epub one_per_byte U (fresh nameless)).1 = Ok (None, Some 7)
  /\ passed_over U (fresh nameless) (run (fresh nameless)).2.
Proof.
  assert (Hs : 100 <= MAX_FILE_SIZE) by (unfold MAX_FILE_SIZE; lia).
  destruct (@book_without_title_is_passed_over one_per_byte (fresh nameless) U 100
              (mkBook [None; Some "Second title"] [chapter 7]) false eq_refl eq_refl)
    as (Hr & _ & Hp).
  split; [|exact Hp]. rewrite (Hr Hs). reflexivity.
Defined.

(** X7 on a folder with names of mixed case, a folder named like a book, a
    file of another kind and a book one level down. *)
Lemma scan_finds_every_book_witness :
  get_epub_files "/books" (fresh mixed_names)
  = (Ok ["/books/LOUD.EPUB"; "/books/Quiet.ePub"], fresh mixed_names).
Proof.
  assert (Hun : forall k, In (k, Unstatable) (fs (fresh mixed_names)) ->
                          FS.child_of "/books" k = false).
  { intros k Hin. unfold fresh, mixed_names, shelf in Hin. cbn [fs List.app In] in Hin.
    repeat (destruct Hin as [Hin|Hin]; [discriminate Hin|]). destruct Hin. }
  destruct (scan_finds_every_book "/books" (fresh mixed_names) true eq_refl Hun)
    as [Hr _].
  rewrite Hr. reflexivity.
Defined.

(** X8 on the same folder: what is returned is described entry by entry. *)
Lemma kept_names_witness :
  exists entries l,
    os_scandir (fs (fresh mixed_names)) "/books" = inr entries
    /\ (get_epub_files "/books" (fresh mixed_names)).1 = Ok l
    /\ forall p,
         In p l
         <-> exists entry,
               In entry (readable_prefix entries)
               /\ path entry = p
               /\ is_file entry = inr true
               /\ exists stem suf, name entry = stem +:+ suf /\ Py.lower suf = ".epub".
Proof.
  destruct (os_scandir (fs (fresh mixed_names)) "/books") as [e|entries] eqn:Hs;
    [vm_compute in Hs; discriminate|].
  destruct (kept_names "/books" (fresh mixed_names) entries Hs) as (l & Hl & Hin).
  exists entries, l. split; [reflexivity|]. split; [exact Hl|exact Hin].
Defined.

(** X12 on a destination that is a regular file: the inputs are accepted
    and the run ends with the exception of [open]. *)
Lemma unwritable_destination_witness :
  valid_inputs dest_is_file 1000
  /\ exists e s',
       run dest_is_file = (Raise e, s')
       /\ open_w (csv_path dest_is_file) dest_is_file = (Raise e, dest_is_file)
       /\ trace s' = [SetMaximum 2; SetValue 0]
       /\ fs s' = fs dest_is_file
       /\ reports s' = [].
Proof.
  assert (Hv : valid_inputs dest_is_file 1000) by (repeat split; reflexivity || lia).
  assert (Hc : candidates (fs dest_is_file) (folder_input (app dest_is_file)) <> [])
    by (vm_compute; discriminate).
  split; [exact Hv|].
  destruct (@unwritable_destination_aborts one_per_byte dest_is_file 1000 Hv Hc eq_refl)
    as (e & s' & log & Hr & Ho & Htr & _ & Hfs & Hrep & _).
  exists e, s'. split; [exact Hr|]. split; [exact Ho|]. split; [|split; [exact Hfs|exact Hrep]].
  unfold run in Hr. rewrite (start_processing_raises dest_is_file 1000 e Hv Hc Ho) in Hr.
  injection Hr as <-. reflexivity.
Defined.

(** X13 on the two books of the specification: the bar goes 0, 1, 2. *)
Lemma progress_witness :
  exists s' evs,
    run (fresh two_books) = (Ok tt, s')
    /\ trace s' = trace (fresh two_books) ++ evs
    /\ progress_values evs = [0; 1; 2]
    /\ progress_maximum (app s') = 2
    /\ progress_value (app s') = 2.
Proof.
  assert (Hv : valid_inputs (fresh two_books) 1000) by (now apply fresh_valid).
  assert (Hc : candidates (fs (fresh two_books)) (folder_input (app (fresh two_books))) <> [])
    by (vm_compute; discriminate).
  assert (Hw : @all_writable one_per_byte (fresh two_books)) by sample_writable.
  destruct (@progress_counts_handled_files one_per_byte (fresh two_books) 1000 Hv Hc eq_refl)
    as (s' & evs & Hr & Htr & Hp & Hmax & Hval & _ & Hall).
  destruct (Hall Hw) as (Hok & _).
  exists s', evs. split; [|split; [exact Htr|split; [exact Hp|split; [exact Hmax|exact Hval]]]].
  unfold run. destruct (@start_processing one_per_byte (fresh two_books)) as [r s1].
  cbn [fst snd] in Hok, Hr. now rewrite Hok, Hr.
Defined.


(** X17 on the two books of the specification: [A.epub], with its 120
    tokens, and [B.epub], with its 5,000. *)
Lemma no_candidate_is_lost_witness :
  In A (candidates (fs (fresh two_books)) (folder_input (app (fresh two_books))))
  /\ In B (candidates (fs (fresh two_books)) (folder_input (app (fresh two_books))))
  /\ (FS.lookup A (fs (run (fresh two_books)).2)
      = Some (File 2048 (Some (book "Alpha" 120)) false)
      \/ (FS.lookup (real_dst two_books A (dest_path "/out" A)) (fs (run (fresh two_books)).2)
          = Some (File 2048 (Some (book "Alpha" 120)) false)
          /\ FS.lookup A (fs (run (fresh two_books)).2) = None))
  /\ (FS.lookup B (fs (run (fresh two_books)).2)
      = Some (File 4096 (Some (book "Beta" 5000)) false)
      \/ (FS.lookup (real_dst two_books B (dest_path "/out" B)) (fs (run (fresh two_books)).2)
          = Some (File 4096 (Some (book "Beta" 5000)) false)
          /\ FS.lookup B (fs (run (fresh two_books)).2) = None)).
Proof.
  assert (HA : In A (candidates (fs (fresh two_books)) (folder_input (app (fresh two_books)))))
    by (vm_compute; tauto).
  assert (HB : In B (candidates (fs (fresh two_books)) (folder_input (app (fresh two_books)))))
    by (vm_compute; tauto).
  split; [exact HA|]. split; [exact HB|]. split.
  - destruct (@no_candidate_is_lost one_per_byte (fresh two_books) A
                (File 2048 (Some (book "Alpha" 120)) false) HA eq_refl)
      as [Hstay|(Hd & Hp & _)]; [left; exact Hstay|right; split; [exact Hd|exact Hp]].
  - destruct (@no_candidate_is_lost one_per_byte (fresh two_books) B
                (File 4096 (Some (book "Beta" 5000)) false) HB eq_refl)
      as [Hstay|(Hd & Hp & _)]; [left; exact Hstay|right; split; [exact Hd|exact Hp]].
Defined.

(** X18 on the two books of the specification: the one move of the run is
    that of [A.epub], with its 120 tokens below the threshold of 1,000. *)
Lemma every_move_witness :
  exists t title c,
    valid_inputs (fresh two_books) t
    /\ @classified one_per_byte (fs (fresh two_books)) A title c
    /\ c < t
    /\ exists rows,
         Report.lookup (csv_path (fresh two_books)) (reports (run (fresh two_books)).2)
         = Some rows
         /\ In [CStr title; CInt c; CStr A] rows.
Proof.
  destruct (@every_move_is_recorded one_per_byte (fresh two_books)) as (evs & Htr & Hm).
  apply events_of_app in Htr.
  assert (Hin : In (Move A "/out/A.epub") evs).
  { rewrite <- Htr. vm_compute. tauto. }
  destruct (Hm A "/out/A.epub" Hin) as (t & title & c & Hv & _ & _ & Hcl & Hlt & _ & Hrows).
  exists t, title, c. split; [exact Hv|]. split; [exact Hcl|]. split; [exact Hlt|exact Hrows].
Defined.

(** X19 on the second run over the oversized file, which the first run
    left in the source folder. *)
Lemma second_run_witness :
  valid_inputs (second_run big_book) 1000
  /\ exists s',
       run (second_run big_book) = (Ok tt, s')
       /\ Report.lookup (csv_path (second_run big_book)) (reports s') = Some [header]
       /\ fs s' = fs (second_run big_book)
       /\ progress_value (app s') = 0.
Proof.
  assert (Hv : valid_inputs (second_run big_book) 1000)
    by (repeat split; reflexivity || lia).
  assert (Hc : candidates (fs (second_run big_book))
                 (folder_input (app (second_run big_book))) <> [])
    by (vm_compute; discriminate).
  assert (Hall : forall p, In p (candidates (fs (second_run big_book))
                                   (folder_input (app (second_run big_book)))) ->
                           p ∈ processed_files (app (second_run big_book))).
  { assert (HB : bool_decide (Big ∈ processed_files (app (second_run big_book))) = true)
      by (vm_compute; reflexivity).
    apply bool_decide_eq_true in HB.
    intros p Hin. vm_compute in Hin. destruct Hin as [<-|[]]. exact HB. }
  split; [exact Hv|].
  destruct (@run_over_processed_files_handles_nothing one_per_byte (second_run big_book)
              1000 Hv Hc eq_refl Hall)
    as (s' & log & Hr & Hrep & Hfs & _ & _ & Hval & _).
  exists s'. split; [exact Hr|]. split; [exact Hrep|]. split; [exact Hfs|exact Hval].
Defined.

(** X21 on the two books of the specification, with thresholds 100 and
    1,000. *)
Lemma raising_the_threshold_witness :
  valid_inputs (typed "100" (fresh two_books)) 100
  /\ valid_inputs (typed "1,000" (fresh two_books)) 1000
  /\ (forall p d,
        In (Move p d) (events_of (typed "100" (fresh two_books))
                         (run (typed "100" (fresh two_books))).2) ->
        In (Move p d) (events_of (typed "1,000" (fresh two_books))
                         (run (typed "1,000" (fresh two_books))).2))
  /\ Report.lookup (csv_path (fresh two_books))
       (reports (run (typed "100" (fresh two_books))).2)
     = Report.lookup (csv_path (fresh two_books))
         (reports (run (typed "1,000" (fresh two_books))).2).
Proof.
  assert (Hv1 : valid_inputs (typed "100" (fresh two_books)) 100)
    by (repeat split; reflexivity || lia).
  assert (Hv2 : valid_inputs (typed "1,000" (fresh two_books)) 1000)
    by (repeat split; reflexivity || lia).
  assert (Hle : 100 <= 1000) by lia.
  split; [exact Hv1|]. split; [exact Hv2|].
  exact (@raising_the_threshold_only_adds_moves one_per_byte (fresh two_books)
           "100" "1,000" 100 1000 Hv1 Hv2 Hle).
Defined.

(** X22 on the folder whose enumeration breaks after [A.epub]: the run
    completes, and nothing in it is about [B.epub]. *)
Lemma broken_scan_witness :
  exists s' evs,
    run (fresh broken_scan) = (Ok tt, s')
    /\ trace s'
       = Log ERROR ("Error scanning directory: " +:+ "/books/lost.epub") :: evs
    /\ (forall ev, In ev evs -> ~ about B ev)
    /\ progress_maximum (app s') = 1.
Proof.
  assert (Hv : valid_inputs (fresh broken_scan) 1000) by (now apply fresh_valid).
  assert (Hc : candidates (fs (fresh broken_scan))
                 (folder_input (app (fresh broken_scan))) <> [])
    by (vm_compute; discriminate).
  assert (Hw : @all_writable one_per_byte (fresh broken_scan)) by sample_writable.
  destruct (@broken_scan_goes_unnoticed one_per_byte (fresh broken_scan) 1000
              (mkExn "PermissionError" "/books/lost.epub") Hv eq_refl Hc eq_refl Hw)
    as (s' & evs & Hr & Htr & _ & Hab & Hmax).
  exists s', evs. split; [exact Hr|]. split; [exact Htr|]. split; [|exact Hmax].
  intros ev Hin Ha. specialize (Hab B ev Hin Ha). vm_compute in Hab.
  destruct Hab as [Hab|[]]. discriminate Hab.
Defined.

End FurtherSamples.
